(** * discord-mod-mail: a shallow embedding of [main.py]

    The bot relays direct messages to one staff channel and staff replies
    back to users.  Its handlers are coroutines over three pieces of shared
    state: the client object ([already_ready], [last_id], [channel],
    [prefix] and the [ignored] table behind the connection pool) and the two
    module-level dictionaries [anti_spam_check] and
    [anti_duplicate_replies].

    Handlers are embedded as computations in a state-and-exception monad
    that also collects the outbound platform calls, in call order, and the
    code left to run after an [asyncio.sleep].  Text is modelled with
    [string], whose characters stand for code points below 128. *)

From Stdlib Require Import ZArith String Ascii List Bool Lia.
From stdpp Require Import base option list gmap strings pretty.

Local Open Scope string_scope.
Local Open Scope Z_scope.

(** ** Text helpers: the [str] methods the handlers call *)

Module Py.

(** [str.isspace] on one character (code points below 128). *)
Definition isspace (c : ascii) : bool :=
  let n := nat_of_ascii c in
  ((9 <=? n)%nat && (n <=? 13)%nat) || ((28 <=? n)%nat && (n <=? 32)%nat).

(** One decimal digit. *)
Definition digit (c : ascii) : option Z :=
  let n := nat_of_ascii c in
  if ((48 <=? n)%nat && (n <=? 57)%nat)%bool then Some (Z.of_nat n - 48) else None.

(** [s.isdigit()]: non-empty and every character a digit. *)
Fixpoint all_digits (s : string) : bool :=
  match s with
  | EmptyString => true
  | String c s' => bool_decide (is_Some (digit c)) && all_digits s'
  end.

Definition isdigit (s : string) : bool :=
  match s with
  | EmptyString => false
  | _ => all_digits s
  end.

(** [s.startswith(p)] *)
Definition startswith (s p : string) : bool := String.prefix p s.

(** [s[n:]] *)
Fixpoint drop (n : nat) (s : string) : string :=
  match n, s with
  | O, _ => s
  | S n', String _ s' => drop n' s'
  | S _, EmptyString => EmptyString
  end.

Fixpoint lstrip (s : string) : string :=
  match s with
  | String c s' => if isspace c then lstrip s' else s
  | EmptyString => EmptyString
  end.

Definition rstrip (s : string) : string :=
  String.rev (lstrip (String.rev s)).

Definition strip (s : string) : string := rstrip (lstrip s).

(** The first run of non-blank characters of [s] and what follows it. *)
Fixpoint span_word (s : string) : string * string :=
  match s with
  | EmptyString => (EmptyString, EmptyString)
  | String c s' =>
      if isspace c then (EmptyString, s)
      else let '(w, r) := span_word s' in (String c w, r)
  end.

(** [s.split(maxsplit=1)]: split on runs of blanks, at most once; the
    remainder keeps its trailing blanks but is dropped when it holds
    nothing else. *)
Definition split1 (s : string) : list string :=
  match lstrip s with
  | EmptyString => []
  | t =>
      let '(w, r) := span_word t in
      match lstrip r with
      | EmptyString => [w]
      | r' => [w; r']
      end
  end.

(** Digits with single underscores between them, read in base ten. *)
Fixpoint digits_acc (after_digit : bool) (acc : Z) (s : string) : option Z :=
  match s with
  | EmptyString => if after_digit then Some acc else None
  | String c s' =>
      match digit c with
      | Some d => digits_acc true (10 * acc + d) s'
      | None =>
          if (Ascii.eqb c "_" && after_digit)%bool
          then digits_acc false acc s'
          else None
      end
  end.

(** [int(s)]: blanks stripped, optional sign, decimal digits; [None]
    stands for [ValueError]. *)
Definition int (s : string) : option Z :=
  match strip s with
  | String "-" body => Z.opp <$> digits_acc false 0 body
  | String "+" body => digits_acc false 0 body
  | body => digits_acc false 0 body
  end.

(** ["sep".join(l)] *)
Definition join (sep : string) (l : list string) : string :=
  String.concat sep l.

(** [str(n)] for an integer. *)
Definition str (n : Z) : string := pretty n.

Definition nl : string := String (ascii_of_nat 10) EmptyString.

End Py.

(** ** Data model *)

Definition SIZE_LIMIT : Z := 0x800000.
Definition SIZE_DIFF : Z := 0x800.

(** [discord.User]; [name] is [str(user)]. *)
Record User := {
  id : Z;
  bot : bool;
  name : string;
  avatar : option string;
  default_avatar : string;
}.

(** [discord.Member]; [accepts_dm] says whether [member.send] goes through
    ([false]: the platform answers [Forbidden]). *)
Record Member := {
  user : User;
  nick : option string;
  accepts_dm : bool;
}.

(** A guild, as far as the bot looks at it: its member cache. *)
Definition Guild := list Member.

Definition get_member (g : Guild) (user_id : Z) : option Member :=
  List.find (fun m => Z.eqb (id (user m)) user_id) g.

Inductive Author :=
| AUser (u : User)
| AMember (m : Member).

Definition author_user (a : Author) : User :=
  match a with AUser u => u | AMember m => user m end.

(** [x.mention] *)
Definition mention (u : User) : string := "<@" ++ Py.str (id u) ++ ">".

Record Attachment := {
  filename : string;
  url : string;
  size : Z;
}.

(** [discord.File(buffer, a.filename)]: the bytes downloaded from [source]. *)
Record File := {
  file_name : string;
  source : Attachment;
}.

Inductive Channel :=
| DMChannel (cid : Z)
| TextChannel (cid : Z)
| OtherChannel (cid : Z).

#[global] Instance Channel_eq_dec : EqDecision Channel.
Proof. solve_decision. Defined.

Record Message := {
  message_id : Z;
  author : Author;
  channel_of : Channel;
  content : string;
  attachments : list Attachment;
  guild : option Guild;
}.

Record Embed := {
  color : Z;
  description : string;
  embed_author : option (string * string);   (* name, icon_url *)
  fields : list (string * string);           (* name, value *)
}.

(** The values read from [config.ini], already parsed. *)
Record Config := {
  command_prefix : string;
  channel_id : Z;
  post_startup_message : bool;
  anonymous_staff : bool;
  playing : string;
  antispam_messages : Z;
  antispam_seconds : Z;
}.

(** What the handlers obtain from the platform and from library calls. *)
Record Platform := {
  config : Config;
  guilds : list Guild;                       (* self.guilds *)
  get_channel : Z -> option Channel;         (* self.get_channel *)
  startup_message : string;
  randint3 : Z -> Z * Z * Z;                 (* random.seed(n); three randint(0, 255) *)
  escape_markdown : string -> string;        (* discord.utils.escape_markdown *)
  rehost : File -> Attachment;               (* the attachments of a delivered message *)
}.

(** A message the bot refers to again after sending or receiving it. *)
Inductive MessageRef :=
| Received (message_id : Z)
| Progress.

(** Outbound platform calls. *)
Inductive Effect :=
| ChannelSend (cid : Z) (text : string) (embed : option Embed)
| DirectSend (user_id : Z) (text : string) (files : list File)
| AddReaction (message_id : Z) (emoji : string)
| ChannelTyping (cid : Z)
| EditMessage (m : MessageRef) (text : string)
| DeleteMessage (m : MessageRef)
| SaveAttachment (a : Attachment)
| ChangePresence (activity : option string)
| Close.

(** The first element of [args]: an [int] when the token is all digits. *)
Inductive Arg :=
| AInt (n : Z)
| AStr (s : string).

#[global] Instance Arg_eq_dec : EqDecision Arg.
Proof. solve_decision. Defined.

Definition Arg_to_sum (a : Arg) : Z + string :=
  match a with AInt n => inl n | AStr s => inr s end.

Definition Arg_of_sum (a : Z + string) : Arg :=
  match a with inl n => AInt n | inr s => AStr s end.

#[global] Instance Arg_countable : Countable Arg.
Proof.
  apply (inj_countable' Arg_to_sum Arg_of_sum). by intros [].
Defined.

(** The rows of [ignored(user_id INTEGER PRIMARY KEY, quiet INTEGER,
    reason TEXT NULL)], keyed by [user_id]. *)
Abbreviation Table := (gmap Z (bool * option string)).

(** The client object and the two module-level dictionaries. *)
Record Bot := {
  already_ready : bool;
  last_id : option Z;
  channel : option Z;          (* self.channel; [None] until on_ready assigns it *)
  prefix : string;
  ignored : Table;
  anti_spam_check : gmap Z Z;
  anti_duplicate_replies : gmap Arg bool;
}.

Definition set_already_ready (v : bool) (b : Bot) : Bot :=
  {| already_ready := v; last_id := last_id b; channel := channel b;
     prefix := prefix b; ignored := ignored b;
     anti_spam_check := anti_spam_check b;
     anti_duplicate_replies := anti_duplicate_replies b |}.

Definition set_last_id (v : option Z) (b : Bot) : Bot :=
  {| already_ready := already_ready b; last_id := v; channel := channel b;
     prefix := prefix b; ignored := ignored b;
     anti_spam_check := anti_spam_check b;
     anti_duplicate_replies := anti_duplicate_replies b |}.

Definition set_channel (v : option Z) (b : Bot) : Bot :=
  {| already_ready := already_ready b; last_id := last_id b; channel := v;
     prefix := prefix b; ignored := ignored b;
     anti_spam_check := anti_spam_check b;
     anti_duplicate_replies := anti_duplicate_replies b |}.

Definition set_ignored (v : Table) (b : Bot) : Bot :=
  {| already_ready := already_ready b; last_id := last_id b; channel := channel b;
     prefix := prefix b; ignored := v;
     anti_spam_check := anti_spam_check b;
     anti_duplicate_replies := anti_duplicate_replies b |}.

Definition set_anti_spam_check (v : gmap Z Z) (b : Bot) : Bot :=
  {| already_ready := already_ready b; last_id := last_id b; channel := channel b;
     prefix := prefix b; ignored := ignored b;
     anti_spam_check := v;
     anti_duplicate_replies := anti_duplicate_replies b |}.

Definition set_anti_duplicate_replies (v : gmap Arg bool) (b : Bot) : Bot :=
  {| already_ready := already_ready b; last_id := last_id b; channel := channel b;
     prefix := prefix b; ignored := ignored b;
     anti_spam_check := anti_spam_check b;
     anti_duplicate_replies := v |}.

(** ** The handler monad *)

Inductive Exn :=
| ValueError
| AttributeError
| KeyError
| AssertionError
| IntegrityError
| Forbidden.

#[global] Instance Exn_eq_dec : EqDecision Exn.
Proof. solve_decision. Defined.

(** The code that runs when an [asyncio.sleep] is over. *)
Inductive Task :=
| SpamDecrement (delay : Z) (user_id : Z)   (* anti_spam_check[author.id] -= 1 *)
| DuplicateReset (delay : Z) (key : Arg)    (* anti_duplicate_replies[args[0]] = False *)
| FinishReady.                              (* the rest of on_ready after its send *)

Inductive Outcome (A : Type) :=
| Done (a : A)
| Raised (e : Exn).
Arguments Done {A} a.
Arguments Raised {A} e.

Record Result (A : Type) := mkResult {
  outcome : Outcome A;
  final : Bot;
  trace : list Effect;     (* outbound calls, in order *)
  tasks : list Task;       (* sleeps entered, in order *)
}.
Arguments mkResult {A}.
Arguments outcome {A}.
Arguments final {A}.
Arguments trace {A}.
Arguments tasks {A}.

Definition M (A : Type) : Type := Bot -> Result A.

Definition ret {A} (a : A) : M A := fun b => mkResult (Done a) b [] [].

Definition bind {A B} (m : M A) (k : A -> M B) : M B := fun b =>
  let r := m b in
  match outcome r with
  | Done a =>
      let r' := k a (final r) in
      mkResult (outcome r') (final r') (trace r ++ trace r') (tasks r ++ tasks r')
  | Raised e => mkResult (Raised e) (final r) (trace r) (tasks r)
  end.

Definition raise {A} (e : Exn) : M A := fun b => mkResult (Raised e) b [] [].

(** [try: m  except e: h] *)
Definition try_except {A} (m : M A) (e : Exn) (h : M A) : M A := fun b =>
  let r := m b in
  match outcome r with
  | Done a => r
  | Raised e' =>
      if bool_decide (e' = e) then
        let r' := h (final r) in
        mkResult (outcome r') (final r') (trace r ++ trace r') (tasks r ++ tasks r')
      else r
  end.

Definition gets {A} (f : Bot -> A) : M A := fun b => mkResult (Done (f b)) b [] [].
Definition modify (f : Bot -> Bot) : M unit := fun b => mkResult (Done tt) (f b) [] [].
Definition emit (e : Effect) : M unit := fun b => mkResult (Done tt) b [e] [].
(** The coroutine is suspended here (an [await asyncio.sleep(..)], or the
    startup send of on_ready); [t] is the code that runs once it is
    resumed.  The other awaits of a handler complete before another
    handler runs. *)
Definition suspend_then (t : Task) : M unit := fun b => mkResult (Done tt) b [] [t].

Declare Scope handler_scope.
Delimit Scope handler_scope with handler.
Notation "x <- m ;; k" := (bind m (fun x => k))
  (at level 20, m at level 99, k at level 200, only parsing) : handler_scope.
Notation "m ;; k" := (bind m (fun _ => k))
  (at level 100, k at level 200, only parsing, right associativity) : handler_scope.
Local Open Scope handler_scope.

(** Truth value of an optional string ([if reason:], [author.nick]) and of
    an optional integer ([if self.last_id:]). *)
Definition truthy_str (o : option string) : bool :=
  match o with
  | Some EmptyString | None => false
  | Some _ => true
  end.

Definition truthy_int (o : option Z) : bool :=
  match o with
  | Some n => negb (Z.eqb n 0)
  | None => false
  end.

(** ** IgnoreStore: the three queries on the [ignored] table *)

(** [SELECT quiet, reason FROM ignored WHERE user_id = ?] *)
Definition is_ignored (user_id : Z) : M (option (bool * option string)) :=
  gets (fun b => ignored b !! user_id).

(** Modelled from the spec: schema.sql, which declares the table, is not
    among the sources; the spec gives it as [ignored(user_id INTEGER PRIMARY
    KEY, quiet INTEGER, reason TEXT NULL)].  [INSERT INTO ignored VALUES
    (?, ?, ?)] therefore fails with [sqlite3.IntegrityError] when a row
    with that [user_id] exists, and adds the row otherwise. *)
Definition sql_insert (user_id : Z) (quiet : bool) (reason : option string) : M unit :=
  fun b =>
    match ignored b !! user_id with
    | Some _ => raise IntegrityError b
    | None => modify (set_ignored (<[user_id := (quiet, reason)]> (ignored b))) b
    end.

(** [DELETE FROM ignored WHERE user_id = ?], giving the cursor's
    [rowcount].  The model keeps one table, the one the connection sees: it
    does not tell committed rows from uncommitted ones (add_ignore
    commits its INSERT, remove_ignore does not commit its DELETE). *)
Definition sql_delete (user_id : Z) : M Z :=
  fun b =>
    match ignored b !! user_id with
    | Some _ => (modify (set_ignored (delete user_id (ignored b))) ;; ret 1) b
    | None => ret 0 b
    end.

Definition add_ignore (user_id : Z) (reason : option string) (is_quiet : bool) : M bool :=
  try_except
    (sql_insert user_id is_quiet reason ;; ret true)
    IntegrityError
    (ret false).

Definition remove_ignore (user_id : Z) : M Z := sql_delete user_id.

(** ** Access to [self.channel], the dictionaries and the platform *)

(** Reading [self.channel]; the attribute does not exist before on_ready
    assigns it. *)
Definition self_channel : M Z :=
  fun b =>
    match channel b with
    | Some c => ret c b
    | None => raise AttributeError b
    end.

(** [await self.channel.send(text, embed=embed)] *)
Definition channel_send (text : string) (embed : option Embed) : M unit :=
  c <- self_channel ;; emit (ChannelSend c text embed).

Definition channel_cid (c : Channel) : Z :=
  match c with DMChannel i | TextChannel i | OtherChannel i => i end.

(** [anti_spam_check[user_id]] *)
Definition spam_get (user_id : Z) : M Z :=
  fun b =>
    match anti_spam_check b !! user_id with
    | Some n => ret n b
    | None => raise KeyError b
    end.

(** [anti_spam_check[user_id] = n] *)
Definition spam_set (user_id : Z) (n : Z) : M unit :=
  modify (fun b => set_anti_spam_check (<[user_id := n]> (anti_spam_check b)) b).

Definition BULLET : string :=
  String (ascii_of_nat 226) (String (ascii_of_nat 128) (String (ascii_of_nat 162) EmptyString)).

Definition WHITE_HEAVY_CHECK_MARK : string :=
  String (ascii_of_nat 226) (String (ascii_of_nat 156) (String (ascii_of_nat 133) EmptyString)).

Definition attachment_line (a : Attachment) : string :=
  "[" ++ filename a ++ "](" ++ url a ++ ") (" ++ Py.str (size a) ++ " bytes)".

Definition attachment_msg (l : list Attachment) : string :=
  BULLET ++ " " ++ Py.join (Py.nl ++ BULLET ++ " ") (map attachment_line l).

(** [f"{n / (1024 * 1024):.02f}"]: the quotient is exact in a double for
    the sizes at hand, so the text is [n / 2^20] rounded to hundredths,
    ties to even. *)
Definition fmt_mib (n : Z) : string :=
  let scaled := n * 100 in
  let q := scaled / 1048576 in
  let r := scaled mod 1048576 in
  let h := if Z.ltb 524288 r || (Z.eqb r 524288 && Z.odd q) then q + 1 else q in
  let cents := h mod 100 in
  Py.str (h / 100) ++ "." ++ (if Z.ltb cents 10 then "0" else "") ++ Py.str cents.

Definition limits_text : string :=
  Py.nl ++ "Limit: " ++ Py.str SIZE_LIMIT ++ " bytes (" ++ fmt_mib SIZE_LIMIT ++ " MiB)"
  ++ Py.nl ++ "Recommended Maximum: " ++ Py.str (SIZE_LIMIT - SIZE_DIFF) ++ " bytes ("
  ++ fmt_mib (SIZE_LIMIT - SIZE_DIFF) ++ " MiB)".

(** ** The handlers of [ModMail] *)

Section Handlers.

Variable P : Platform.

Definition gen_color (user_id : Z) : Z :=
  let '(c_r, c_g, c_b) := randint3 P user_id in
  Z.shiftl c_r 16 + Z.shiftl c_g 8 + c_b.

(** [await member.send(text, files=files)]: the delivered message's
    attachments, or [Forbidden]. *)
Definition member_send (member : Member) (text : string) (files : list File)
  : M (list Attachment) :=
  if accepts_dm member then
    emit (DirectSend (id (user member)) text files) ;;
    ret (map (rehost P) files)
  else raise Forbidden.

(** *** handle_attachments *)

Definition too_large_line (a : Attachment) : string :=
  "`" ++ escape_markdown P (filename a) ++ "` is too large to send in a direct message.".

Definition very_close_line (a : Attachment) : string :=
  "`" ++ escape_markdown P (filename a)
  ++ "` is very close to the file size limit of the destination. It may fail to send.".

(** The first loop: [(error_messages, warning_messages)]. *)
Fixpoint check_sizes (l : list Attachment) : list string * list string :=
  match l with
  | [] => ([], [])
  | a :: l' =>
      let '(error_messages, warning_messages) := check_sizes l' in
      if Z.ltb SIZE_LIMIT (size a) then
        (too_large_line a :: error_messages, warning_messages)
      else if Z.ltb (SIZE_LIMIT - 0x1000) (size a) then
        (error_messages, very_close_line a :: warning_messages)
      else (error_messages, warning_messages)
  end.

Definition downloading (idx count : Z) : string :=
  "Downloading attachments... " ++ Py.str idx ++ "/" ++ Py.str count.

(** [a.save(buffer)] then [discord.File(buffer, a.filename)] *)
Definition to_file (a : Attachment) : File :=
  {| file_name := filename a; source := a |}.

(** The second loop, [for idx, a in enumerate(message.attachments, 1)]. *)
Fixpoint download (count idx : Z) (l : list Attachment) : M (list File) :=
  match l with
  | [] => ret []
  | a :: l' =>
      emit (SaveAttachment a) ;;
      emit (EditMessage Progress (downloading idx count)) ;;
      rest <- download count (idx + 1) l' ;;
      ret (to_file a :: rest)
  end.

Definition handle_attachments (message : Message)
  : M (list File * option MessageRef) :=
  match attachments message with
  | [] => ret ([], None)
  | _ =>
      let '(error_messages, warning_messages) := check_sizes (attachments message) in
      match error_messages with
      | _ :: _ =>
          emit (ChannelSend (channel_cid (channel_of message))
                  (Py.join Py.nl error_messages ++ limits_text) None) ;;
          raise ValueError
      | [] =>
          match warning_messages with
          | _ :: _ =>
              emit (ChannelSend (channel_cid (channel_of message))
                      (Py.join Py.nl warning_messages ++ limits_text) None)
          | [] => ret tt
          end ;;
          let count := Z.of_nat (length (attachments message)) in
          channel_send (downloading 0 count) None ;;
          files <- download count 1 (attachments message) ;;
          ret (files, Some Progress)
      end
  end.

(** *** handle_staff_reply *)

Definition disabled_dms (author : User) (member : Member) : string :=
  mention author ++ " " ++ mention (user member) ++ " has disabled DMs".

Definition handle_staff_reply (message : Message) (user_id : Z)
    (message_content : string) : M unit :=
  match guild message with
  | None => raise AssertionError
  | Some g =>
  match get_member g user_id with
  | None => channel_send "Failed to find member." None
  | Some member =>
  if bot (user member) then channel_send "You can't send messages to bots." None
  else
    let author := author_user (author message) in
    let embed := {| color := gen_color user_id; description := message_content;
                    embed_author := None; fields := [] |} in
    let to_send :=
      (if anonymous_staff (config P) then "Staff reply: " else mention author ++ ": ")
      ++ message_content in
    staged <- try_except
                (r <- handle_attachments message ;; ret (Some r))
                ValueError
                (ret None) ;;
    match staged with
    | None => ret tt
    | Some (files, progress_msg) =>
        match progress_msg with
        | Some pm =>
            emit (EditMessage pm
                    ("Sending message with " ++ Py.str (Z.of_nat (length files))
                     ++ " attachments..."))
        | None => ret tt
        end ;;
        sent <- try_except
                  (r <- member_send member to_send files ;; ret (Some r))
                  Forbidden
                  (channel_send (disabled_dms author member) None ;; ret None) ;;
        match sent with
        | None => ret tt
        | Some staff_attachments =>
            ign <- is_ignored (id (user member)) ;;
            let header_message :=
              mention author ++ " replying to " ++ Py.str (id (user member)) ++ " "
              ++ mention (user member)
              ++ (if bool_decide (is_Some ign) then " (replies ignored)" else "") in
            let embed :=
              match staff_attachments with
              | [] => embed
              | _ => {| color := color embed; description := description embed;
                        embed_author := embed_author embed;
                        fields := fields embed
                                  ++ [("Attachments", attachment_msg staff_attachments)] |}
              end in
            channel_send header_message (Some embed) ;;
            match progress_msg with
            | Some pm => emit (DeleteMessage pm)
            | None => ret tt
            end ;;
            emit (DeleteMessage (Received (message_id message)))
        end
    end
  end
  end.

(** *** handle_ignore and handle_unignore *)

Definition handle_ignore (message : Message) (user_id_str : string)
    (reason : option string) (quiet : bool) : M unit :=
  match guild message with
  | None => raise AssertionError
  | Some g =>
  match Py.int user_id_str with
  | None => channel_send "Could not convert to int." None
  | Some user_id =>
      let member := get_member g user_id in
      let author := author_user (author message) in
      added <- add_ignore user_id reason quiet ;;
      if (added : bool) then
        (if negb quiet then
           let to_send :=
             "Your messages are being ignored by staff."
             ++ (if truthy_str reason then " Reason: " ++ default "" reason else "") in
           match member with
           | Some m =>
               try_except
                 (member_send m to_send [] ;; ret tt)
                 Forbidden
                 (channel_send
                    (mention (user m)
                     ++ " has disabled DMs or is not in a shared server, not sending reason.")
                    None)
           | None =>
               channel_send "Failed to find user with ID, not sending reason." None
           end
         else ret tt) ;;
        self_prefix <- gets prefix ;;
        channel_send
          (mention author ++ " " ++ Py.str user_id
           ++ " is now ignored. Messages from this user will not appear. Use `"
           ++ self_prefix ++ "unignore` to reverse.")
          None
      else
        channel_send (mention author ++ " " ++ Py.str user_id ++ " is already ignored.") None
  end
  end.

Definition no_longer_ignored_dm : string :=
  "Your messages are no longer being ignored by staff.".

(** The notification step of handle_unignore for an entry whose quiet flag
    is [is_quiet]. *)
Definition unignore_notify (member : option Member) (is_quiet : bool) : M unit :=
  if negb is_quiet then
    match member with
    | Some m =>
        try_except
          (member_send m no_longer_ignored_dm [] ;; ret tt)
          Forbidden
          (channel_send
             (mention (user m)
              ++ " has disabled DMs or is not in a shared server, not sending notification.")
             None)
    | None =>
        channel_send "Failed to find user with ID, not sending notification." None
    end
  else ret tt.

Definition handle_unignore (message : Message) (user_id_str : string) : M unit :=
  match Py.int user_id_str with
  | None => channel_send "Could not convert to int." None
  | Some user_id =>
  match guild message with
  | None => raise AttributeError
  | Some g =>
      let member := get_member g user_id in
      let author := author_user (author message) in
      entry <- is_ignored user_id ;;
      match entry with
      | Some (is_quiet, _) => unignore_notify member is_quiet
      | None => ret tt
      end ;;
      removed <- remove_ignore user_id ;;
      self_prefix <- gets prefix ;;
      if negb (Z.eqb removed 0) then
        channel_send
          (mention author ++ " " ++ Py.str user_id
           ++ " is no longer ignored. Messages from this user will appear again. Use `"
           ++ self_prefix ++ "ignore` to reverse.")
          None
      else
        channel_send (mention author ++ " " ++ Py.str user_id ++ " is not ignored.") None
  end
  end.

(** *** on_typing *)

Definition on_typing (chan : Channel) (who : User) : M unit :=
  match chan with
  | DMChannel _ =>
      entry <- is_ignored (id who) ;;
      if bool_decide (is_Some entry) then ret tt
      else (c <- self_channel ;; emit (ChannelTyping c))
  | _ => ret tt
  end.

(** *** on_ready *)

Definition on_ready : M unit :=
  ready <- gets already_ready ;;
  if (ready : bool) then ret tt
  else
    match get_channel P (channel_id (config P)) with
    | Some (TextChannel c) =>
        modify (set_channel (Some c)) ;;
        if post_startup_message (config P) then
          channel_send (startup_message P) None ;;
          suspend_then FinishReady
        else modify (set_already_ready true)
    | _ => emit Close
    end.

(** *** on_message *)

Definition auto_ignore_reason : string := "Automatic anti-spam ignore".

Definition auto_ignored_notice (author : User) : string :=
  Py.str (id author) ++ " " ++ mention author
  ++ " auto-ignored due to spam. Use `" ++ command_prefix (config P)
  ++ "unignore` to reverse.".

(** [for server in self.guilds: ...; break]: only the first guild is
    consulted. *)
Definition resolve_author (a : Author) : Author :=
  match guilds P with
  | server :: _ =>
      match get_member server (id (author_user a)) with
      | Some member => AMember member
      | None => a
      end
  | [] => a
  end.

Definition author_name (a : Author) : string :=
  match a with
  | AMember m =>
      if truthy_str (nick m)
      then default "" (nick m) ++ " (" ++ name (user m) ++ ")"
      else name (user m)
  | AUser u => name u
  end.

Definition icon_url (a : Author) : string :=
  match avatar (author_user a) with
  | Some u => u
  | None => default_avatar (author_user a)
  end.

Definition relay_embed (a : Author) (message : Message) : Embed :=
  {| color := gen_color (id (author_user a));
     description := content message;
     embed_author := Some (author_name a, icon_url a);
     fields := match attachments message with
               | [] => []
               | l => [("Attachments", attachment_msg l)]
               end |}.

(** The branch [type(message.channel) is discord.DMChannel]. *)
Definition on_direct_message (message : Message) : M unit :=
  let sender := author_user (author message) in
  entry <- is_ignored (id sender) ;;
  if bool_decide (is_Some entry) then ret tt
  else
    seen <- gets (fun b => anti_spam_check b !! id sender) ;;
    match seen with
    | None => spam_set (id sender) 0
    | Some _ => ret tt
    end ;;
    n <- spam_get (id sender) ;;
    spam_set (id sender) (n + 1) ;;
    count <- spam_get (id sender) ;;
    if Z.leb (antispam_messages (config P)) count then
      add_ignore (id sender) (Some auto_ignore_reason) false ;;
      channel_send (auto_ignored_notice sender) None ;;
      spam_set (id sender) 0
    else
      let author := resolve_author (author message) in
      let embed := relay_embed author message in
      let to_send := Py.str (id (author_user author)) in
      channel_send to_send (Some embed) ;;
      emit (AddReaction (message_id message) WHITE_HEAVY_CHECK_MARK) ;;
      modify (set_last_id (Some (id (author_user author)))) ;;
      suspend_then (SpamDecrement (antispam_seconds (config P)) (id (author_user author))).

(** What a [case] body does next: fall out of the [match] statement, or
    [return] from the handler. *)
Inductive Flow := Next | Return.

Definition no_last_message : string :=
  "There is no last message in the current session.".

Definition forgot_message : string := "Did you forget to enter a message?".

(** [message_content[0] if message_content else ""] *)
Definition first_or_empty (message_content : list string) : string :=
  match message_content with
  | t :: _ => t
  | [] => ""
  end.

(** [user_id_str, *reason = params.split(maxsplit=1)], with
    [reason[0] if reason else None] for the second component; unpacking an
    empty list is a [ValueError]. *)
Definition ignore_params (params : string) : M (string * option string) :=
  match Py.split1 params with
  | [] => raise ValueError
  | user_id_str :: reason => ret (user_id_str, head reason)
  end.

(** [not (message_content or message.attachments)] *)
Definition nothing_to_send (message : Message) (message_content : list string) : bool :=
  match message_content, attachments message with
  | [], [] => true
  | _, _ => false
  end.

(** The [match args] statement, with [args = first :: rest]. *)
Definition dispatch (message : Message) (first : Arg) (rest : list string) : M Flow :=
  match first, rest with
  | AInt user_id, message_content =>
      if nothing_to_send message message_content then
        channel_send forgot_message None ;; ret Return
      else
        handle_staff_reply message user_id (first_or_empty message_content) ;; ret Next
  | AStr cmd, _ =>
      if bool_decide (cmd ∈ ["ignore"; "qignore"; "unignore"]) && bool_decide (rest = []) then
        channel_send "Did you forget to enter an ID?" None ;; ret Next
      else if String.eqb cmd "ignore" && bool_decide (length rest = 1%nat) then
        params <- ignore_params (first_or_empty rest) ;;
        handle_ignore message (fst params) (snd params) false ;; ret Next
      else if String.eqb cmd "qignore" && bool_decide (length rest = 1%nat) then
        params <- ignore_params (first_or_empty rest) ;;
        handle_ignore message (fst params) (snd params) true ;; ret Next
      else if String.eqb cmd "unignore" && bool_decide (length rest = 1%nat) then
        params <- ignore_params (first_or_empty rest) ;;
        handle_unignore message (fst params) ;; ret Next
      else if String.eqb cmd "r" then
        last <- gets last_id ;;
        if truthy_int last then
          if nothing_to_send message rest then
            channel_send forgot_message None ;; ret Return
          else
            handle_staff_reply message (default 0 last) (first_or_empty rest) ;; ret Next
        else
          channel_send no_last_message None ;; ret Return
      else if String.eqb cmd "m" then
        last <- gets last_id ;;
        if truthy_int last then
          channel_send (Py.str (default 0 last) ++ " <@!" ++ Py.str (default 0 last) ++ ">") None ;;
          ret Next
        else
          channel_send no_last_message None ;; ret Return
      else if String.eqb cmd "fixgame" then
        emit (ChangePresence None) ;;
        emit (ChangePresence (Some (playing (config P)))) ;;
        channel_send "Game presence re-set." None ;;
        ret Next
      else ret Next
  end.

(** [if args[0].isdigit(): args[0] = int(args[0])] *)
Definition first_arg (token : string) : M Arg :=
  if Py.isdigit token then
    match Py.int token with
    | Some n => ret (AInt n)
    | None => raise ValueError
    end
  else ret (AStr token).

(** The branch [message.channel == self.channel]. *)
Definition on_channel_message (message : Message) : M unit :=
  self_prefix <- gets prefix ;;
  if negb (Py.startswith (content message) self_prefix) then ret tt
  else
    match Py.split1 (Py.drop (String.length self_prefix) (content message)) with
    | [] => ret tt
    | token :: rest =>
        first <- first_arg token ;;
        flow <- dispatch message first rest ;;
        match flow with
        | Return => ret tt
        | Next => suspend_then (DuplicateReset 2 first)
        end
    end.

Definition on_message (message : Message) : M unit :=
  if bot (author_user (author message)) then ret tt
  else
    ready <- gets already_ready ;;
    if negb ready then ret tt
    else
      match channel_of message with
      | DMChannel _ => on_direct_message message
      | other =>
          c <- self_channel ;;
          if bool_decide (other = TextChannel c) then on_channel_message message
          else ret tt
      end.

(** The code after a suspension point. *)
Definition resume (t : Task) : M unit :=
  match t with
  | SpamDecrement _ user_id =>
      n <- spam_get user_id ;;
      spam_set user_id (n - 1)
  | DuplicateReset _ key =>
      modify (fun b => set_anti_duplicate_replies
                         (<[key := false]> (anti_duplicate_replies b)) b)
  | FinishReady => modify (set_already_ready true)
  end.

End Handlers.

(** ** The event loop *)

(** What the loop runs next: a gateway event, or the [i]-th suspended
    coroutine.  Time is not modelled: a suspended coroutine may be resumed
    at any later turn. *)
Inductive Event :=
| Ready
| MessageCreate (m : Message)
| TypingStart (c : Channel) (u : User)
| Wake (i : nat).

Record System := {
  client : Bot;
  suspended : list Task;
}.

(** [setup_hook], with the dictionaries as the module creates them; [db]
    is the content of the database file. *)
Definition setup_hook (P : Platform) (db : Table) : Bot :=
  {| already_ready := false; last_id := None; channel := None;
     prefix := command_prefix (config P); ignored := db;
     anti_spam_check := ∅; anti_duplicate_replies := ∅ |}.

Definition start (P : Platform) (db : Table) : System :=
  {| client := setup_hook P db; suspended := [] |}.

(** One turn of the loop: the new state and the outbound calls made.  An
    exception that escapes a handler is logged by the library; what the
    handler changed before stays changed. *)
Definition step (P : Platform) (ev : Event) (s : System) : System * list Effect :=
  match ev with
  | Wake i =>
      match suspended s !! i with
      | Some t =>
          let r := resume t (client s) in
          ({| client := final r; suspended := delete i (suspended s) ++ tasks r |}, trace r)
      | None => (s, [])
      end
  | Ready =>
      let r := on_ready P (client s) in
      ({| client := final r; suspended := suspended s ++ tasks r |}, trace r)
  | MessageCreate m =>
      let r := on_message P m (client s) in
      ({| client := final r; suspended := suspended s ++ tasks r |}, trace r)
  | TypingStart c u =>
      let r := on_typing c u (client s) in
      ({| client := final r; suspended := suspended s ++ tasks r |}, trace r)
  end.

Fixpoint run (P : Platform) (evs : list Event) (s : System) : System * list Effect :=
  match evs with
  | [] => (s, [])
  | ev :: evs' =>
      let '(s1, out1) := step P ev s in
      let '(s2, out2) := run P evs' s1 in
      (s2, (out1 ++ out2)%list)
  end.

(** ** Notions used to state what the handlers do *)

(** The counter after [if author.id not in anti_spam_check: ... = 0] and
    [+= 1]. *)
Definition post_increment (b : Bot) (user_id : Z) : Z :=
  default 0 (anti_spam_check b !! user_id) + 1.

(** The outbound calls of the notification step of handle_unignore, for an
    entry with quiet flag [is_quiet]. *)
Definition unignore_notice (ch : Z) (member : option Member) (is_quiet : bool)
  : list Effect :=
  if is_quiet then []
  else
    match member with
    | Some m =>
        if accepts_dm m
        then [DirectSend (id (user m)) no_longer_ignored_dm []]
        else [ChannelSend ch
                (mention (user m)
                 ++ " has disabled DMs or is not in a shared server, not sending notification.")
                None]
    | None =>
        [ChannelSend ch "Failed to find user with ID, not sending notification." None]
    end.

(** The calls made by the download loop. *)
Fixpoint download_trace (count idx : Z) (l : list Attachment) : list Effect :=
  match l with
  | [] => []
  | a :: l' =>
      SaveAttachment a :: EditMessage Progress (downloading idx count)
      :: download_trace count (idx + 1) l'
  end.

Definition staged_progress (message : Message) : option MessageRef :=
  match attachments message with
  | [] => None
  | _ => Some Progress
  end.

(** The edit of the progress message before the direct message goes out. *)
Definition sending_edit (message : Message) : list Effect :=
  match attachments message with
  | [] => []
  | l =>
      [EditMessage Progress
         ("Sending message with " ++ Py.str (Z.of_nat (length (map to_file l)))
          ++ " attachments...")]
  end.

Definition is_delete (e : Effect) : bool :=
  match e with DeleteMessage _ => true | _ => false end.

(** The confirmation is the one staff-channel post that carries an embed. *)
Definition is_confirmation (e : Effect) : bool :=
  match e with ChannelSend _ _ (Some _) => true | _ => false end.

Definition is_direct_send (e : Effect) : bool :=
  match e with DirectSend _ _ _ => true | _ => false end.

Section Observations.

Variable P : Platform.

(** The post that reports size warnings, if there are any. *)
Definition warning_post (message : Message) : list Effect :=
  match (check_sizes P (attachments message)).2 with
  | [] => []
  | w => [ChannelSend (channel_cid (channel_of message)) (Py.join Py.nl w ++ limits_text) None]
  end.

(** The post that reports attachments beyond the limit. *)
Definition error_post (message : Message) : Effect :=
  ChannelSend (channel_cid (channel_of message))
    (Py.join Py.nl (check_sizes P (attachments message)).1 ++ limits_text) None.

(** The calls handle_attachments makes when no attachment is beyond the
    limit. *)
Definition staging_trace (ch : Z) (message : Message) : list Effect :=
  match attachments message with
  | [] => []
  | l =>
      warning_post message
      ++ ChannelSend ch (downloading 0 (Z.of_nat (length l))) None
      :: download_trace (Z.of_nat (length l)) 1 l
  end.

(** [to_send] of handle_staff_reply. *)
Definition reply_text (message : Message) (message_content : string) : string :=
  (if anonymous_staff (config P) then "Staff reply: "
   else mention (author_user (author message)) ++ ": ")
  ++ message_content.

End Observations.

(** [args[0]] for a first token, when the conversion goes through. *)
Definition parsed_first (token : string) : option Arg :=
  if Py.isdigit token then AInt <$> Py.int token else Some (AStr token).

(** The message is a staff reply to [user_id] with text [text]: after the
    prefix comes either an all-digit token, or [r] while [last_id] is set,
    and there is text or an attachment to send. *)
Definition staff_reply_command (b : Bot) (message : Message) (user_id : Z)
    (text : string) (key : Arg) : Prop :=
  Py.startswith (content message) (prefix b) = true
  ∧ ∃ token rest,
      Py.split1 (Py.drop (String.length (prefix b)) (content message)) = token :: rest
      ∧ nothing_to_send message rest = false
      ∧ text = first_or_empty rest
      ∧ ((Py.isdigit token = true ∧ Py.int token = Some user_id ∧ key = AInt user_id)
         ∨ (token = "r" ∧ last_id b = Some user_id ∧ user_id ≠ 0 ∧ key = AStr "r")).

(** Every sleep on_message enters is the anti-spam one or the two-second
    one before the flag is stored. *)
Definition sleep_of (P : Platform) (t : Task) : Prop :=
  (∃ user_id, t = SpamDecrement (antispam_seconds (config P)) user_id)
  ∨ (∃ key, t = DuplicateReset 2 key).

Definition flags_all_false (s : System) : Prop :=
  ∀ k v, anti_duplicate_replies (client s) !! k = Some v → v = false.

(** The counter of [user_id], an absent key counting as 0. *)
Definition counter (b : Bot) (user_id : Z) : Z :=
  default 0 (anti_spam_check b !! user_id).

Definition is_decrement_for (user_id : Z) (t : Task) : bool :=
  match t with
  | SpamDecrement _ u => Z.eqb u user_id
  | _ => false
  end.

(** How many suspended coroutines are about to decrement the counter of
    [user_id]. *)
Fixpoint pending_decrements (user_id : Z) (l : list Task) : Z :=
  match l with
  | [] => 0
  | t :: l' => (if is_decrement_for user_id t then 1 else 0) + pending_decrements user_id l'
  end.

(** The event makes on_message take the auto-ignore branch for
    [user_id]. *)
Definition trips (P : Platform) (user_id : Z) (ev : Event) (b : Bot) : bool :=
  match ev with
  | MessageCreate m =>
      let sender := author_user (author m) in
      Z.eqb (id sender) user_id
      && negb (bot sender)
      && already_ready b
      && match channel_of m with DMChannel _ => true | _ => false end
      && bool_decide (ignored b !! user_id = None)
      && Z.leb (antispam_messages (config P)) (post_increment b user_id)
  | _ => false
  end.

(** No event of the run takes the auto-ignore branch for [user_id] while
    a decrement for [user_id] is pending. *)
Fixpoint no_trip_while_pending (P : Platform) (user_id : Z) (evs : list Event)
    (s : System) : bool :=
  match evs with
  | [] => true
  | ev :: evs' =>
      negb (trips P user_id ev (client s)
            && Z.ltb 0 (pending_decrements user_id (suspended s)))
      && no_trip_while_pending P user_id evs' (step P ev s).1
  end.

(** The counter of [user_id] covers the decrements still pending for it. *)
Definition counter_covers_pending (user_id : Z) (s : System) : Prop :=
  pending_decrements user_id (suspended s) ≤ counter (client s) user_id.

(** [F] changes a part of the state that the computation [m] does not
    look at: running [m] after [F] gives what [m] gives, with [F] applied
    to the final state.  [Q] holds of every coroutine [m] leaves
    suspended. *)
Definition respects (F : Bot → Bot) (Q : Task → Prop) {A} (m : M A) : Prop :=
  ∀ b, m (F b) = mkResult (outcome (m b)) (F (final (m b))) (trace (m b)) (tasks (m b))
       ∧ Forall Q (tasks (m b)).

(** [m] leaves [channel] and [already_ready] alone and does not suspend
    on_ready. *)
Definition keeps_session {A} (m : M A) : Prop :=
  ∀ b, channel (final (m b)) = channel b
       ∧ already_ready (final (m b)) = already_ready b
       ∧ Forall (λ t, t ≠ FinishReady) (tasks (m b)).

(** A ready client, or one whose on_ready is suspended, has a channel. *)
Definition channel_known (s : System) : Prop :=
  (already_ready (client s) = true ∨ FinishReady ∈ suspended s) →
  is_Some (channel (client s)).

(** ** Notions used by the further properties *)

Module PyFacts.

(** No character of [s] is a blank. *)
Fixpoint no_blank (s : string) : bool :=
  match s with
  | EmptyString => true
  | String c s' => negb (Py.isspace c) && no_blank s'
  end.

(** [s.isascii()]: every character is one of the code points the text
    helpers are written for. *)
Fixpoint isascii (s : string) : bool :=
  match s with
  | EmptyString => true
  | String c s' => (nat_of_ascii c <? 128)%nat && isascii s'
  end.

End PyFacts.

(** The two outbound calls of a relayed direct message: the post on the
    staff channel and the reaction on the message. *)
Definition relay_calls (P : Platform) (ch : Z) (message : Message) : list Effect :=
  [ChannelSend ch (Py.str (id (author_user (author message))))
     (Some (relay_embed P (resolve_author P (author message)) message));
   AddReaction (message_id message) WHITE_HEAVY_CHECK_MARK].

(** A direct message written by the user [user_id], who is not a bot. *)
Definition direct_from (user_id : Z) (message : Message) : Prop :=
  id (author_user (author message)) = user_id
  ∧ bot (author_user (author message)) = false
  ∧ ∃ cid, channel_of message = DMChannel cid.

(** The state after a direct message of [user_id] has been relayed. *)
Definition relayed (b : Bot) (user_id : Z) : Bot :=
  set_last_id (Some user_id)
    (set_anti_spam_check (<[user_id := post_increment b user_id]> (anti_spam_check b)) b).

(** A message in the staff channel [ch], not written by a bot, that starts
    with the prefix and continues with the first token [token] and the
    rest-of-line [rest] (empty or one element). *)
Definition staff_command (b : Bot) (ch : Z) (message : Message) (token : string)
    (rest : list string) : Prop :=
  bot (author_user (author message)) = false
  ∧ channel_of message = TextChannel ch
  ∧ Py.startswith (content message) (prefix b) = true
  ∧ Py.split1 (Py.drop (String.length (prefix b)) (content message)) = token :: rest.

(** The command words the [match] statement knows. *)
Definition command_words : list string :=
  ["ignore"; "qignore"; "unignore"; "r"; "m"; "fixgame"].

(** The post that confirms a delivered staff reply: its text, with the
    marker for an ignored target, and its embed, with the links of the
    attachments as the delivered message has them. *)
Definition reply_header (b : Bot) (message : Message) (member : Member) : string :=
  mention (author_user (author message)) ++ " replying to " ++ Py.str (id (user member))
  ++ " " ++ mention (user member)
  ++ (if bool_decide (is_Some (ignored b !! id (user member)))
      then " (replies ignored)" else "").

Definition reply_embed (P : Platform) (message : Message) (user_id : Z)
    (message_content : string) : Embed :=
  {| color := gen_color P user_id; description := message_content;
     embed_author := None;
     fields := match attachments message with
               | [] => []
               | l => [("Attachments", attachment_msg (map (rehost P) (map to_file l)))]
               end |}.

(** The deletions that end a delivered staff reply. *)
Definition reply_cleanup (message : Message) : list Effect :=
  match attachments message with
  | [] => [DeleteMessage (Received (message_id message))]
  | _ => [DeleteMessage Progress; DeleteMessage (Received (message_id message))]
  end.

(** The outbound calls of the notification step of handle_ignore for a
    command that is not quiet. *)
Definition ignore_notice (ch : Z) (member : option Member) (reason : option string)
  : list Effect :=
  match member with
  | Some m =>
      if accepts_dm m
      then [DirectSend (id (user m))
              ("Your messages are being ignored by staff."
               ++ (if truthy_str reason then " Reason: " ++ default "" reason else ""))
              []]
      else [ChannelSend ch
              (mention (user m)
               ++ " has disabled DMs or is not in a shared server, not sending reason.")
              None]
  | None => [ChannelSend ch "Failed to find user with ID, not sending reason." None]
  end.

(** The two size tests of handle_attachments. *)
Definition too_large (a : Attachment) : bool := Z.ltb SIZE_LIMIT (size a).

Definition very_close (a : Attachment) : bool :=
  negb (too_large a) && Z.ltb (SIZE_LIMIT - 0x1000) (size a).

(** The attachments a trace downloads, and the texts it gives the progress
    message, both in call order. *)
Definition saved (tr : list Effect) : list Attachment :=
  omap (λ e, match e with SaveAttachment a => Some a | _ => None end) tr.

Definition progress_texts (tr : list Effect) : list string :=
  omap (λ e, match e with EditMessage Progress t => Some t | _ => None end) tr.

(** Started on a client whose channel is assigned, [m] ends normally or
    with an exception that [E] allows. *)
Definition raises_only (E : Exn → Prop) {A} (m : M A) : Prop :=
  ∀ b, is_Some (channel b) →
       match outcome (m b) with
       | Done _ => True
       | Raised e => E e
       end.

(** A message as the platform delivers it: one that is not from a
    direct-message channel belongs to a guild. *)
Definition well_formed (message : Message) : Prop :=
  (∃ cid, channel_of message = DMChannel cid) ∨ is_Some (guild message).

(** ** A concrete setting to run the handlers in *)

Module Demo.

Definition cfg : Config :=
  {| command_prefix := "?"; channel_id := 1; post_startup_message := true;
     anonymous_staff := false; playing := "DM me"; antispam_messages := 2;
     antispam_seconds := 10 |}.

Definition alice : User :=
  {| id := 111; bot := false; name := "alice"; avatar := None;
     default_avatar := "https://cdn/0.png" |}.

Definition staff : User :=
  {| id := 7; bot := false; name := "mod"; avatar := None;
     default_avatar := "https://cdn/1.png" |}.

Definition helper_bot : User :=
  {| id := 9; bot := true; name := "helper"; avatar := None;
     default_avatar := "https://cdn/2.png" |}.

Definition alice_member (dm : bool) : Member :=
  {| user := alice; nick := Some "Al"; accepts_dm := dm |}.

Definition staff_member : Member :=
  {| user := staff; nick := None; accepts_dm := true |}.

Definition home (dm : bool) : Guild := [staff_member; alice_member dm].

Definition platform (dm : bool) : Platform :=
  {| config := cfg;
     guilds := [home dm];
     get_channel := fun i => if Z.eqb i 1 then Some (TextChannel 1) else None;
     startup_message := "modmail is now ready.";
     randint3 := fun n => (n mod 256, 0, 255);
     escape_markdown := fun s => s;
     rehost := fun f => {| filename := file_name f; url := "https://cdn/" ++ file_name f;
                           size := size (source f) |} |}.

(** A direct message from alice. *)
Definition dm (n : Z) (text : string) : Message :=
  {| message_id := n; author := AUser alice; channel_of := DMChannel 50;
     content := text; attachments := []; guild := None |}.

(** A message by a member of staff in the staff channel. *)
Definition cmd (n : Z) (text : string) (files : list Attachment) : Message :=
  {| message_id := n; author := AMember staff_member; channel_of := TextChannel 1;
     content := text; attachments := files; guild := Some (home false) |}.

(** The same, in a guild where alice accepts direct messages. *)
Definition cmd_open (n : Z) (text : string) (files : list Attachment) : Message :=
  {| message_id := n; author := AMember staff_member; channel_of := TextChannel 1;
     content := text; attachments := files; guild := Some (home true) |}.

(** The client once on_ready has completed. *)
Definition ready_bot (db : Table) : Bot :=
  {| already_ready := true; last_id := None; channel := Some 1;
     prefix := "?"; ignored := db;
     anti_spam_check := ∅; anti_duplicate_replies := ∅ |}.

End Demo.

(** ** The helpers and the handlers on sample inputs *)

Example split1_two : Py.split1 "ignore  12 too  loud " = ["ignore"; "12 too  loud "].
Proof. reflexivity. Qed.
Example split1_one : Py.split1 "  m   " = ["m"].
Proof. reflexivity. Qed.
Example split1_none : Py.split1 "   " = [].
Proof. reflexivity. Qed.
Example int_ok : Py.int " 0012 " = Some 12.
Proof. reflexivity. Qed.
Example int_neg : Py.int "-1_000" = Some (-1000).
Proof. reflexivity. Qed.
Example int_bad : Py.int "12a" = None.
Proof. reflexivity. Qed.
Example str_ok : Py.str 8388608 = "8388608".
Proof. reflexivity. Qed.

Example limits_text_value :
  limits_text =
  Py.nl ++ "Limit: 8388608 bytes (8.00 MiB)" ++ Py.nl
  ++ "Recommended Maximum: 8386560 bytes (8.00 MiB)".
Proof. reflexivity. Qed.

Example demo_ready_reached :
  client (fst (run (Demo.platform true) [Ready; Wake 0%nat] (start (Demo.platform true) ∅)))
  = Demo.ready_bot ∅.
Proof. vm_compute. reflexivity. Qed.

Example demo_relay :
  snd (step (Demo.platform true) (MessageCreate (Demo.dm 1000 "hello"))
         {| client := Demo.ready_bot ∅; suspended := [] |})
  = [ChannelSend 1 "111"
       (Some {| color := 111 * 65536 + 255; description := "hello";
                embed_author := Some ("Al (alice)", "https://cdn/0.png");
                fields := [] |});
     AddReaction 1000 WHITE_HEAVY_CHECK_MARK].
Proof. vm_compute. reflexivity. Qed.

(** ** Basic facts about the monad and the state *)

Lemma Bot_eta (b : Bot) :
  {| already_ready := already_ready b; last_id := last_id b; channel := channel b;
     prefix := prefix b; ignored := ignored b;
     anti_spam_check := anti_spam_check b;
     anti_duplicate_replies := anti_duplicate_replies b |} = b.
Proof. by destruct b. Qed.

Lemma bind_done {A B} (m : M A) (k : A → M B) b a b1 tr ts :
  m b = mkResult (Done a) b1 tr ts →
  bind m k b =
  mkResult (outcome (k a b1)) (final (k a b1))
           (tr ++ trace (k a b1)) (ts ++ tasks (k a b1)).
Proof. intros H. unfold bind. by rewrite H. Qed.

Lemma bind_raised {A B} (m : M A) (k : A → M B) b e b1 tr ts :
  m b = mkResult (Raised e) b1 tr ts →
  bind m k b = mkResult (Raised e) b1 tr ts.
Proof. intros H. unfold bind. by rewrite H. Qed.

Lemma Result_eta {A} (r : Result A) :
  mkResult (outcome r) (final r) (trace r) (tasks r) = r.
Proof. by destruct r. Qed.

Lemma bind_pure {A B} (m : M A) (k : A → M B) b a :
  m b = mkResult (Done a) b [] [] →
  bind m k b = k a b.
Proof. intros H. rewrite (bind_done _ _ _ _ _ _ _ H). simpl. apply Result_eta. Qed.

Lemma bind_gets {A B} (f : Bot → A) (k : A → M B) b :
  bind (gets f) k b = k (f b) b.
Proof. by apply bind_pure. Qed.

Lemma bind_ret {A B} (a : A) (k : A → M B) b :
  bind (ret a) k b = k a b.
Proof. by apply bind_pure. Qed.

Lemma bind_modify {B} (f : Bot → Bot) (k : unit → M B) b :
  bind (modify f) k b = k tt (f b).
Proof. unfold bind, modify. simpl. apply Result_eta. Qed.

Lemma bind_raise {A B} (e : Exn) (k : A → M B) b :
  bind (raise e) k b = mkResult (Raised e) b [] [].
Proof. reflexivity. Qed.

Lemma is_ignored_run user_id b :
  is_ignored user_id b = mkResult (Done (ignored b !! user_id)) b [] [].
Proof. reflexivity. Qed.

Lemma self_channel_run b ch :
  channel b = Some ch → self_channel b = mkResult (Done ch) b [] [].
Proof. intros H. unfold self_channel. by rewrite H. Qed.

Lemma channel_send_run text embed b ch :
  channel b = Some ch →
  channel_send text embed b = mkResult (Done tt) b [ChannelSend ch text embed] [].
Proof.
  intros H. unfold channel_send.
  rewrite (bind_pure _ _ _ _ (self_channel_run _ _ H)). reflexivity.
Qed.

(** ** C10: messages written by bots *)

(** C10. A message whose author is a bot account (any bot, not only this
    client) makes on_message return at its first test: nothing is sent,
    nothing is scheduled and the state is the one it started from,
    whatever the channel and whatever the message says. *)
Theorem bot_author_returns_at_once (P : Platform) (message : Message) (b : Bot) :
  bot (author_user (author message)) = true →
  on_message P message b = mkResult (Done tt) b [] [].
Proof.
  intros Hbot. unfold on_message. rewrite Hbot. reflexivity.
Qed.

Lemma bot_author_returns_at_once_witness :
  on_message (Demo.platform true)
    {| message_id := 5; author := AUser Demo.helper_bot; channel_of := TextChannel 1;
       content := "?ignore 111"; attachments := []; guild := Some (Demo.home true) |}
    (Demo.ready_bot ∅)
  = mkResult (Done tt) (Demo.ready_bot ∅) [] [].
Proof. apply bot_author_returns_at_once. reflexivity. Defined.

(** ** C1: direct messages of ignored users *)

(** C1. When [is_ignored] finds an entry for the author of a direct
    message, on_message ends without any outbound call (no post to the
    staff channel, no reaction), without scheduling anything, and with the
    state unchanged: [anti_spam_check] and [last_id] in particular. *)
Theorem ignored_direct_message_dropped (P : Platform) (message : Message) (b : Bot)
    (cid : Z) (entry : bool * option string) :
  channel_of message = DMChannel cid →
  outcome (is_ignored (id (author_user (author message))) b) = Done (Some entry) →
  on_message P message b = mkResult (Done tt) b [] [].
Proof.
  intros Hdm Hign. rewrite is_ignored_run in Hign. simpl in Hign.
  injection Hign as Hign.
  unfold on_message.
  destruct (bot (author_user (author message))); [reflexivity |].
  rewrite (bind_pure _ _ b (already_ready b)) by reflexivity.
  destruct (already_ready b); [| reflexivity]. simpl.
  rewrite Hdm. unfold on_direct_message.
  rewrite (bind_pure _ _ b _ (is_ignored_run _ _)).
  rewrite Hign. reflexivity.
Qed.

Lemma ignored_direct_message_dropped_witness :
  on_message (Demo.platform true) (Demo.dm 1000 "hello")
    (Demo.ready_bot {[ 111 := (true, Some "spam") ]})
  = mkResult (Done tt) (Demo.ready_bot {[ 111 := (true, Some "spam") ]}) [] [].
Proof.
  apply (ignored_direct_message_dropped _ _ _ 50 (true, Some "spam")); reflexivity.
Defined.

(** ** C2: add_ignore and the primary key *)

Lemma sql_insert_fresh user_id quiet reason b :
  ignored b !! user_id = None →
  sql_insert user_id quiet reason b =
  mkResult (Done tt) (set_ignored (<[user_id := (quiet, reason)]> (ignored b)) b) [] [].
Proof. intros H. unfold sql_insert. by rewrite H. Qed.

Lemma sql_insert_taken user_id quiet reason b :
  is_Some (ignored b !! user_id) →
  sql_insert user_id quiet reason b = mkResult (Raised IntegrityError) b [] [].
Proof. intros [row H]. unfold sql_insert. by rewrite H. Qed.

Lemma add_ignore_fresh user_id reason quiet b :
  ignored b !! user_id = None →
  add_ignore user_id reason quiet b =
  mkResult (Done true) (set_ignored (<[user_id := (quiet, reason)]> (ignored b)) b) [] [].
Proof.
  intros H. unfold add_ignore, try_except, bind.
  rewrite (sql_insert_fresh _ _ _ _ H). reflexivity.
Qed.

Lemma add_ignore_taken user_id reason quiet b :
  is_Some (ignored b !! user_id) →
  add_ignore user_id reason quiet b = mkResult (Done false) b [] [].
Proof.
  intros H. unfold add_ignore, try_except, bind.
  rewrite (sql_insert_taken _ _ _ _ H). reflexivity.
Qed.

(** C2. For a [user_id] without a row, add_ignore returns [True] and the
    row holds the quiet flag and reason given; a second add_ignore for the
    same [user_id] right after, with any arguments, returns [False] and
    leaves the whole state, that row included, as the first call left it.
    The refusal comes from the INSERT itself, which raises IntegrityError
    on the existing key. *)
Theorem add_ignore_twice (b : Bot) (user_id : Z)
    (reason reason' : option string) (quiet quiet' : bool) :
  ignored b !! user_id = None →
  let first := add_ignore user_id reason quiet b in
  let second := add_ignore user_id reason' quiet' (final first) in
  outcome first = Done true
  ∧ ignored (final first) !! user_id = Some (quiet, reason)
  ∧ outcome (sql_insert user_id quiet' reason' (final first)) = Raised IntegrityError
  ∧ outcome second = Done false
  ∧ final second = final first
  ∧ ignored (final second) !! user_id = Some (quiet, reason).
Proof.
  intros Hfresh first second. subst first second.
  rewrite (add_ignore_fresh _ _ _ _ Hfresh). simpl.
  assert (Hrow : ignored (set_ignored (<[user_id := (quiet, reason)]> (ignored b)) b)
                 !! user_id = Some (quiet, reason))
    by (simpl; apply lookup_insert_eq).
  assert (Htaken : is_Some (ignored (set_ignored (<[user_id := (quiet, reason)]> (ignored b)) b)
                            !! user_id)) by (rewrite Hrow; eauto).
  rewrite (add_ignore_taken _ _ _ _ Htaken), (sql_insert_taken _ _ _ _ Htaken).
  simpl. rewrite lookup_insert_eq. done.
Qed.

Lemma add_ignore_twice_witness :
  let first := add_ignore 111 (Some "rude") false (Demo.ready_bot ∅) in
  let second := add_ignore 111 None true (final first) in
  outcome first = Done true
  ∧ ignored (final first) !! 111 = Some (false, Some "rude")
  ∧ outcome (sql_insert 111 true None (final first)) = Raised IntegrityError
  ∧ outcome second = Done false
  ∧ final second = final first
  ∧ ignored (final second) !! 111 = Some (false, Some "rude").
Proof. apply add_ignore_twice. reflexivity. Defined.

(** ** C3: the anti-spam trip *)

Lemma spam_get_run user_id n b :
  anti_spam_check b !! user_id = Some n →
  spam_get user_id b = mkResult (Done n) b [] [].
Proof. intros H. unfold spam_get. by rewrite H. Qed.

(** C3. A direct message from a user who is not a bot and not ignored,
    received once the client is ready, whose post-increment count reaches
    [messages]: add_ignore is run once with the reason "Automatic anti-spam
    ignore" (not quiet) and adds the row, the only outbound call is the one
    notice on the staff channel, the user's counter ends at 0, and the
    message is not relayed: no embed post, no reaction, [last_id]
    unchanged, no decrement scheduled. *)
Theorem spam_trip (P : Platform) (message : Message) (b : Bot) (cid ch : Z) :
  let sender := author_user (author message) in
  bot sender = false →
  already_ready b = true →
  channel b = Some ch →
  channel_of message = DMChannel cid →
  outcome (is_ignored (id sender) b) = Done None →
  antispam_messages (config P) ≤ post_increment b (id sender) →
  on_message P message b =
  mkResult (Done tt)
    (set_anti_spam_check (<[id sender := 0]> (anti_spam_check b))
       (set_ignored (<[id sender := (false, Some "Automatic anti-spam ignore")]> (ignored b)) b))
    [ChannelSend ch (auto_ignored_notice P sender) None]
    [].
Proof.
  intros sender Hbot Hready Hch Hdm Hign Hcount.
  rewrite is_ignored_run in Hign. simpl in Hign. injection Hign as Hign.
  unfold on_message. fold sender. rewrite Hbot.
  rewrite (bind_pure _ _ b (already_ready b)) by reflexivity.
  rewrite Hready. simpl. rewrite Hdm. unfold on_direct_message. fold sender.
  rewrite (bind_pure _ _ b _ (is_ignored_run _ _)). rewrite Hign. simpl.
  unfold post_increment in Hcount.
  rewrite bind_gets.
  destruct (anti_spam_check b !! id sender) as [n|] eqn:Hn; simpl in Hcount.
  - rewrite bind_ret.
    rewrite (bind_pure _ _ _ _ (spam_get_run _ _ _ Hn)).
    unfold spam_set at 1. rewrite bind_modify.
    rewrite (bind_pure _ _ _ (n + 1)) by (apply spam_get_run; apply lookup_insert_eq).
    destruct (Z.leb_spec (antispam_messages (config P)) (n + 1)); [| lia].
    erewrite (bind_done (add_ignore _ _ _)) by (apply add_ignore_fresh; exact Hign).
    cbn [outcome final trace tasks app].
    erewrite (bind_done (channel_send _ _)) by (apply channel_send_run; exact Hch).
    unfold spam_set, modify. cbn [outcome final trace tasks app anti_spam_check
      set_ignored set_anti_spam_check ignored].
    rewrite insert_insert_eq. reflexivity.
  - unfold spam_set at 1. rewrite bind_modify.
    rewrite (bind_pure _ _ _ 0) by (apply spam_get_run; apply lookup_insert_eq).
    unfold spam_set at 1. rewrite bind_modify.
    rewrite (bind_pure _ _ _ (0 + 1)) by (apply spam_get_run; apply lookup_insert_eq).
    destruct (Z.leb_spec (antispam_messages (config P)) (0 + 1)); [| lia].
    erewrite (bind_done (add_ignore _ _ _)) by (apply add_ignore_fresh; exact Hign).
    cbn [outcome final trace tasks app].
    erewrite (bind_done (channel_send _ _)) by (apply channel_send_run; exact Hch).
    unfold spam_set, modify. cbn [outcome final trace tasks app anti_spam_check
      set_ignored set_anti_spam_check ignored].
    rewrite !insert_insert_eq. reflexivity.
Qed.

Lemma spam_trip_witness :
  let b := set_anti_spam_check {[ 111 := 1 ]} (Demo.ready_bot ∅) in
  let r := on_message (Demo.platform true) (Demo.dm 1001 "again") b in
  outcome r = Done tt
  ∧ trace r = [ChannelSend 1 "111 <@111> auto-ignored due to spam. Use `?unignore` to reverse." None]
  ∧ tasks r = []
  ∧ ignored (final r) !! 111 = Some (false, Some "Automatic anti-spam ignore")
  ∧ anti_spam_check (final r) !! 111 = Some 0
  ∧ last_id (final r) = None.
Proof.
  intros b r. subst r.
  rewrite (spam_trip (Demo.platform true) (Demo.dm 1001 "again") b 50 1);
    [| reflexivity | reflexivity | reflexivity | reflexivity | reflexivity
     | vm_compute; discriminate].
  vm_compute. repeat split; reflexivity.
Defined.

(** ** C7: unignore *)

Lemma member_send_open P member text files b :
  accepts_dm member = true →
  member_send P member text files b =
  mkResult (Done (map (rehost P) files)) b [DirectSend (id (user member)) text files] [].
Proof. intros H. unfold member_send. rewrite H. reflexivity. Qed.

Lemma member_send_refused P member text files b :
  accepts_dm member = false →
  member_send P member text files b = mkResult (Raised Forbidden) b [] [].
Proof. intros H. unfold member_send. rewrite H. reflexivity. Qed.

Lemma unignore_notify_run P member is_quiet b ch :
  channel b = Some ch →
  unignore_notify P member is_quiet b =
  mkResult (Done tt) b (unignore_notice ch member is_quiet) [].
Proof.
  intros Hch. unfold unignore_notify, unignore_notice.
  destruct is_quiet; [reflexivity |]. simpl.
  destruct member as [m|]; [| by apply channel_send_run].
  unfold try_except.
  destruct (accepts_dm m) eqn:Hdm.
  - erewrite (bind_done (member_send _ _ _ _)) by (by apply member_send_open).
    reflexivity.
  - erewrite (bind_raised (member_send _ _ _ _)) by (by apply member_send_refused).
    cbn [outcome final trace tasks]. rewrite bool_decide_eq_true_2 by done.
    erewrite channel_send_run by exact Hch. reflexivity.
Qed.

Lemma remove_ignore_present user_id b :
  is_Some (ignored b !! user_id) →
  remove_ignore user_id b =
  mkResult (Done 1) (set_ignored (delete user_id (ignored b)) b) [] [].
Proof. intros [row H]. unfold remove_ignore, sql_delete. rewrite H. reflexivity. Qed.

Lemma remove_ignore_absent user_id b :
  ignored b !! user_id = None →
  remove_ignore user_id b = mkResult (Done 0) b [] [].
Proof. intros H. unfold remove_ignore, sql_delete. rewrite H. reflexivity. Qed.

(** C7. An unignore command for a user who has a row: the quiet flag that
    decides the notification is the one of the row as it is before the
    DELETE.  A direct message goes to the target exactly when that flag is
    off, the member is found and accepts direct messages; when the flag is
    off and the member is not found or refuses, the failure is posted
    instead.  In every case the row is then removed and the outcome ("is no
    longer ignored") is posted as the last call. *)
Theorem unignore_decides_on_prior_entry (P : Platform) (message : Message) (b : Bot)
    (user_id_str : string) (user_id ch : Z) (g : Guild)
    (is_quiet : bool) (reason : option string) :
  Py.int user_id_str = Some user_id →
  guild message = Some g →
  channel b = Some ch →
  outcome (is_ignored user_id b) = Done (Some (is_quiet, reason)) →
  handle_unignore P message user_id_str b =
  mkResult (Done tt)
    (set_ignored (delete user_id (ignored b)) b)
    (unignore_notice ch (get_member g user_id) is_quiet
     ++ [ChannelSend ch
           (mention (author_user (author message)) ++ " " ++ Py.str user_id
            ++ " is no longer ignored. Messages from this user will appear again. Use `"
            ++ prefix b ++ "ignore` to reverse.")
           None])
    [].
Proof.
  intros Hint Hguild Hch Hrow.
  rewrite is_ignored_run in Hrow. simpl in Hrow. injection Hrow as Hrow.
  unfold handle_unignore. rewrite Hint, Hguild.
  rewrite (bind_pure _ _ _ _ (is_ignored_run _ _)). rewrite Hrow.
  erewrite (bind_done (unignore_notify _ _ _)) by (by apply unignore_notify_run).
  cbn [outcome final trace tasks].
  erewrite (bind_done (remove_ignore _)) by (apply remove_ignore_present; by rewrite Hrow).
  cbn [outcome final trace tasks app].
  rewrite bind_gets. cbn [negb Z.eqb prefix set_ignored].
  erewrite channel_send_run by exact Hch.
  reflexivity.
Qed.

Lemma unignore_decides_on_prior_entry_witness :
  let b := Demo.ready_bot {[ 111 := (false, Some "rude") ]} in
  let r := handle_unignore (Demo.platform false) (Demo.cmd 7000 "?unignore 111" []) "111" b in
  outcome r = Done tt
  ∧ trace r =
    [ChannelSend 1
       "<@111> has disabled DMs or is not in a shared server, not sending notification."
       None;
     ChannelSend 1
       "<@7> 111 is no longer ignored. Messages from this user will appear again. Use `?ignore` to reverse."
       None]
  ∧ ignored (final r) !! 111 = None.
Proof.
  intros b r. subst r.
  rewrite (unignore_decides_on_prior_entry (Demo.platform false)
             (Demo.cmd 7000 "?unignore 111" []) b "111" 111 1 (Demo.home false)
             false (Some "rude")); [| reflexivity ..].
  vm_compute. repeat split; reflexivity.
Defined.

(** ** C5 and C6: staff replies, attachment sizes and refused delivery *)

Section StaffReply.

Variable P : Platform.

Lemma bind_emit {B} (e : Effect) (k : unit → M B) b :
  bind (emit e) k b =
  mkResult (outcome (k tt b)) (final (k tt b)) (e :: trace (k tt b)) (tasks (k tt b)).
Proof. reflexivity. Qed.

Lemma download_run count idx l b :
  download count idx l b = mkResult (Done (map to_file l)) b (download_trace count idx l) [].
Proof.
  revert idx. induction l as [|a l IH]; intros idx; [reflexivity |].
  cbn [download]. rewrite !bind_emit.
  erewrite (bind_done (download _ _ _)) by apply IH.
  cbn [outcome final trace tasks]. rewrite app_nil_r. reflexivity.
Qed.

Lemma check_sizes_within l :
  Forall (λ a, size a ≤ SIZE_LIMIT) l → (check_sizes P l).1 = [].
Proof.
  induction 1 as [|a l Ha _ IH]; [reflexivity |].
  cbn [check_sizes]. destruct (check_sizes P l) as [errs warns]. simpl in IH. subst errs.
  destruct (Z.ltb_spec SIZE_LIMIT (size a)); [lia |].
  by destruct (Z.ltb_spec (SIZE_LIMIT - 4096) (size a)).
Qed.

Lemma check_sizes_beyond l :
  Exists (λ a, SIZE_LIMIT < size a) l → (check_sizes P l).1 ≠ [].
Proof.
  induction 1 as [a l Ha | a l _ IH];
    cbn [check_sizes]; destruct (check_sizes P l) as [errs warns]; simpl in *.
  - destruct (Z.ltb_spec SIZE_LIMIT (size a)); [done | lia].
  - destruct (Z.ltb SIZE_LIMIT (size a)); [done |].
    by destruct (Z.ltb (SIZE_LIMIT - 4096) (size a)).
Qed.

Lemma check_sizes_warns l a :
  a ∈ l → size a = SIZE_LIMIT → very_close_line P a ∈ (check_sizes P l).2.
Proof.
  intros Hin Ha. induction l as [|a' l IH]; [by apply elem_of_nil in Hin |].
  cbn [check_sizes]. destruct (check_sizes P l) as [errs warns]. simpl in IH.
  apply elem_of_cons in Hin as [<- | Hin].
  - destruct (Z.ltb_spec SIZE_LIMIT (size a)); [lia |].
    destruct (Z.ltb_spec (SIZE_LIMIT - 4096) (size a)); [| unfold SIZE_LIMIT in *; lia].
    simpl. apply elem_of_cons. by left.
  - specialize (IH Hin).
    destruct (Z.ltb SIZE_LIMIT (size a')); [done |].
    destruct (Z.ltb (SIZE_LIMIT - 4096) (size a')); simpl; [| done].
    apply elem_of_cons. by right.
Qed.

Lemma handle_attachments_within message b ch :
  channel b = Some ch →
  Forall (λ a, size a ≤ SIZE_LIMIT) (attachments message) →
  handle_attachments P message b =
  mkResult (Done (map to_file (attachments message), staged_progress message)) b
    (staging_trace P ch message) [].
Proof.
  intros Hch Hall. apply check_sizes_within in Hall.
  unfold handle_attachments, staging_trace, staged_progress, warning_post.
  destruct (attachments message) as [|a l] eqn:Hatt; [reflexivity |].
  destruct (check_sizes P (a :: l)) as [errs warns]. simpl in Hall. subst errs.
  cbn [snd].
  assert (Hrest : ∀ b0, channel b0 = Some ch →
    bind (channel_send (downloading 0 (Z.of_nat (length (a :: l)))) None)
      (λ _, bind (download (Z.of_nat (length (a :: l))) 1 (a :: l))
              (λ files, ret (files, Some Progress))) b0
    = mkResult (Done (map to_file (a :: l), Some Progress)) b0
        (ChannelSend ch (downloading 0 (Z.of_nat (length (a :: l)))) None
         :: download_trace (Z.of_nat (length (a :: l))) 1 (a :: l)) []).
  { intros b0 Hb0.
    erewrite (bind_done (channel_send _ _)) by (by apply channel_send_run).
    erewrite (bind_done (download _ _ _)) by apply download_run.
    cbn [outcome final trace tasks ret app]. by rewrite app_nil_r. }
  destruct warns as [|w warns].
  - rewrite bind_ret. by apply Hrest.
  - rewrite bind_emit. rewrite (Hrest b Hch). reflexivity.
Qed.

Lemma handle_attachments_beyond message b :
  Exists (λ a, SIZE_LIMIT < size a) (attachments message) →
  handle_attachments P message b =
  mkResult (Raised ValueError) b [error_post P message] [].
Proof.
  intros Hex. pose proof (check_sizes_beyond _ Hex) as Herr.
  unfold handle_attachments, error_post.
  destruct (attachments message) as [|a l] eqn:Hatt; [by apply Exists_nil in Hex |].
  destruct (check_sizes P (a :: l)) as [errs warns]. simpl in Herr.
  destruct errs as [|e errs]; [done |]. reflexivity.
Qed.

Section WithTarget.

Variables (message : Message) (b : Bot) (ch user_id : Z) (g : Guild)
          (member : Member) (text : string).
Hypothesis Hch : channel b = Some ch.
Hypothesis Hguild : guild message = Some g.
Hypothesis Hmember : get_member g user_id = Some member.
Hypothesis Hhuman : bot (user member) = false.

Lemma staff_reply_beyond :
  Exists (λ a, SIZE_LIMIT < size a) (attachments message) →
  handle_staff_reply P message user_id text b =
  mkResult (Done tt) b [error_post P message] [].
Proof.
  intros Hex. unfold handle_staff_reply. rewrite Hguild, Hmember, Hhuman.
  erewrite (bind_done (try_except _ _ _)).
  2:{ unfold try_except.
      erewrite (bind_raised (handle_attachments _ _)) by (by apply handle_attachments_beyond).
      cbn [outcome final trace tasks]. rewrite bool_decide_eq_true_2 by done.
      reflexivity. }
  reflexivity.
Qed.

Lemma staff_reply_staged (k : option (list File * option MessageRef) → M unit) :
  Forall (λ a, size a ≤ SIZE_LIMIT) (attachments message) →
  bind (try_except (bind (handle_attachments P message) (λ r, ret (Some r)))
          ValueError (ret None)) k b
  = mkResult
      (outcome (k (Some (map to_file (attachments message), staged_progress message)) b))
      (final (k (Some (map to_file (attachments message), staged_progress message)) b))
      (staging_trace P ch message
       ++ trace (k (Some (map to_file (attachments message), staged_progress message)) b))
      (tasks (k (Some (map to_file (attachments message), staged_progress message)) b)).
Proof.
  intros Hall.
  erewrite (bind_done (try_except _ _ _)).
  2:{ unfold try_except.
      erewrite (bind_done (handle_attachments _ _)) by (by apply handle_attachments_within).
      cbn [outcome final trace tasks ret]. by rewrite app_nil_r. }
  reflexivity.
Qed.

Lemma progress_edit_run (k : unit → M unit) :
  bind match staged_progress message with
       | Some pm =>
           emit (EditMessage pm
                   ("Sending message with "
                    ++ Py.str (Z.of_nat (length (map to_file (attachments message))))
                    ++ " attachments..."))
       | None => ret tt
       end k b
  = mkResult (outcome (k tt b)) (final (k tt b))
      (sending_edit message ++ trace (k tt b)) (tasks (k tt b)).
Proof.
  unfold staged_progress, sending_edit.
  destruct (attachments message); [| apply bind_emit].
  rewrite bind_ret. cbn [app]. symmetry. apply Result_eta.
Qed.

Lemma staff_reply_refused :
  Forall (λ a, size a ≤ SIZE_LIMIT) (attachments message) →
  accepts_dm member = false →
  handle_staff_reply P message user_id text b =
  mkResult (Done tt) b
    (staging_trace P ch message ++ sending_edit message
     ++ [ChannelSend ch (disabled_dms (author_user (author message)) member) None])
    [].
Proof.
  intros Hall Hdm. unfold handle_staff_reply. rewrite Hguild, Hmember, Hhuman.
  rewrite (staff_reply_staged _ Hall). rewrite progress_edit_run.
  erewrite (bind_done (try_except _ _ _)).
  2:{ unfold try_except.
      erewrite (bind_raised (member_send _ _ _ _)) by (by apply member_send_refused).
      cbn [outcome final trace tasks]. rewrite bool_decide_eq_true_2 by done.
      erewrite (bind_done (channel_send _ _)) by (by apply channel_send_run).
      reflexivity. }
  reflexivity.
Qed.

Lemma staff_reply_delivered :
  Forall (λ a, size a ≤ SIZE_LIMIT) (attachments message) →
  accepts_dm member = true →
  ∃ rest,
    trace (handle_staff_reply P message user_id text b) =
    (staging_trace P ch message ++ sending_edit message
     ++ DirectSend (id (user member)) (reply_text P message text)
          (map to_file (attachments message)) :: rest)%list.
Proof.
  intros Hall Hdm. unfold handle_staff_reply. rewrite Hguild, Hmember, Hhuman.
  rewrite (staff_reply_staged _ Hall). rewrite progress_edit_run.
  erewrite (bind_done (try_except _ _ _)).
  2:{ unfold try_except.
      erewrite (bind_done (member_send _ _ _ _)) by (by apply member_send_open).
      reflexivity. }
  cbn [outcome final trace tasks app]. eexists. reflexivity.
Qed.

End WithTarget.

Lemma download_trace_calls count idx l :
  Forall (λ e, is_delete e = false ∧ is_confirmation e = false ∧ is_direct_send e = false)
    (download_trace count idx l).
Proof.
  revert idx. induction l as [|a l IH]; intros idx; cbn [download_trace]; [constructor |].
  repeat constructor. apply IH.
Qed.

Lemma staging_trace_calls ch message :
  Forall (λ e, is_delete e = false ∧ is_confirmation e = false ∧ is_direct_send e = false)
    (staging_trace P ch message).
Proof.
  unfold staging_trace. destruct (attachments message) as [|a l]; [constructor |].
  apply Forall_app. split.
  - unfold warning_post. destruct (check_sizes P (attachments message)).2; repeat constructor.
  - constructor; [done | apply download_trace_calls].
Qed.

Lemma sending_edit_calls message :
  Forall (λ e, is_delete e = false ∧ is_confirmation e = false ∧ is_direct_send e = false)
    (sending_edit message).
Proof. unfold sending_edit. destruct (attachments message); repeat constructor. Qed.

End StaffReply.

(** ** Commands that lead to handle_staff_reply *)

Lemma bind_assoc {A B C} (m : M A) (f : A → M B) (k : B → M C) b :
  bind (bind m f) k b = bind m (λ x, bind (f x) k) b.
Proof.
  unfold bind. destruct (m b) as [[a|e] b1 tr ts]; cbn [outcome final trace tasks]; [| done].
  destruct (f a b1) as [[a'|e'] b2 tr' ts']; cbn [outcome final trace tasks]; [| done].
  by rewrite !app_assoc.
Qed.

Lemma bind_then_next {A} (m : M A) (t : Task) b :
  bind (bind m (λ _, ret Next))
       (λ flow, match flow with
                | Return => ret tt
                | Next => suspend_then t
                end) b
  = bind m (λ _, suspend_then t) b.
Proof.
  rewrite bind_assoc. unfold bind.
  destruct (m b) as [[a|e] b1 tr ts]; reflexivity.
Qed.

Lemma dispatch_r P message rest :
  dispatch P message (AStr "r") rest =
  bind (gets last_id) (λ last,
    if truthy_int last then
      if nothing_to_send message rest then
        bind (channel_send forgot_message None) (λ _, ret Return)
      else
        bind (handle_staff_reply P message (default 0 last) (first_or_empty rest))
             (λ _, ret Next)
    else bind (channel_send no_last_message None) (λ _, ret Return)).
Proof. reflexivity. Qed.

Lemma on_message_in_channel P message b ch :
  bot (author_user (author message)) = false →
  already_ready b = true →
  channel b = Some ch →
  channel_of message = TextChannel ch →
  on_message P message b = on_channel_message P message b.
Proof.
  intros Hbot Hready Hch Hchan. unfold on_message. rewrite Hbot, bind_gets, Hready, Hchan.
  cbn [negb]. rewrite (bind_pure _ _ _ _ (self_channel_run _ _ Hch)).
  by rewrite bool_decide_eq_true_2.
Qed.

Lemma on_message_staff_reply P message b ch user_id text key :
  bot (author_user (author message)) = false →
  already_ready b = true →
  channel b = Some ch →
  channel_of message = TextChannel ch →
  staff_reply_command b message user_id text key →
  on_message P message b =
  bind (handle_staff_reply P message user_id text)
       (λ _, suspend_then (DuplicateReset 2 key)) b.
Proof.
  intros Hbot Hready Hch Hchan (Hstart & token & rest & Hsplit & Hsome & -> & Hshape).
  rewrite (on_message_in_channel _ _ _ _ Hbot Hready Hch Hchan).
  unfold on_channel_message. rewrite bind_gets, Hstart, Hsplit. cbn [negb].
  destruct Hshape as [(Hdigit & Hint & ->) | (-> & Hlast & Hnz & ->)].
  - unfold first_arg. rewrite Hdigit, Hint, bind_ret.
    unfold dispatch. rewrite Hsome. apply bind_then_next.
  - unfold first_arg. change (Py.isdigit "r") with false. cbn iota. rewrite bind_ret.
    rewrite dispatch_r. rewrite bind_assoc, bind_gets, Hlast.
    cbn [truthy_int default]. apply Z.eqb_neq in Hnz. rewrite Hnz, Hsome. cbn [negb].
    apply bind_then_next.
Qed.

(** ** C6: refused delivery *)

(** C6. A staff reply, addressed by a numeric token or by [r], to a member
    who is found, is not a bot and refuses direct messages: the handler
    ends normally with the state unchanged; after the staging calls for the
    attachments its last outbound call is the failure report on the staff
    channel; no call is a confirmation (a post with an embed), a message
    deletion or a delivered direct message. *)
Theorem refused_delivery_is_reported (P : Platform) (message : Message) (b : Bot)
    (ch user_id : Z) (text : string) (key : Arg) (g : Guild) (member : Member) :
  bot (author_user (author message)) = false →
  already_ready b = true →
  channel b = Some ch →
  channel_of message = TextChannel ch →
  staff_reply_command b message user_id text key →
  guild message = Some g →
  get_member g user_id = Some member →
  bot (user member) = false →
  Forall (λ a, size a ≤ SIZE_LIMIT) (attachments message) →
  accepts_dm member = false →
  let r := on_message P message b in
  let report := ChannelSend ch (disabled_dms (author_user (author message)) member) None in
  outcome r = Done tt
  ∧ final r = b
  ∧ trace r = (staging_trace P ch message ++ sending_edit message ++ [report])%list
  ∧ Forall (λ e, is_delete e = false ∧ is_confirmation e = false ∧ is_direct_send e = false)
      (trace r)
  ∧ tasks r = [DuplicateReset 2 key].
Proof.
  intros Hbot Hready Hch Hchan Hcmd Hguild Hmember Hhuman Hall Hdm r report. subst r.
  rewrite (on_message_staff_reply _ _ _ _ _ _ _ Hbot Hready Hch Hchan Hcmd).
  erewrite (bind_done (handle_staff_reply _ _ _ _)) by (by eapply staff_reply_refused).
  cbn [outcome final trace tasks suspend_then app]. rewrite app_nil_r.
  repeat split.
  apply Forall_app. split; [| apply Forall_app; split].
  - apply staging_trace_calls.
  - apply sending_edit_calls.
  - by repeat constructor.
Qed.

Lemma refused_delivery_is_reported_witness :
  let r := on_message (Demo.platform false) (Demo.cmd 7003 "?111 hi there" [])
             (Demo.ready_bot ∅) in
  outcome r = Done tt
  ∧ final r = Demo.ready_bot ∅
  ∧ trace r = [ChannelSend 1 "<@7> <@111> has disabled DMs" None]
  ∧ tasks r = [DuplicateReset 2 (AInt 111)].
Proof.
  intros r.
  destruct (refused_delivery_is_reported (Demo.platform false)
              (Demo.cmd 7003 "?111 hi there" []) (Demo.ready_bot ∅)
              1 111 "hi there" (AInt 111) (Demo.home false) (Demo.alice_member false))
    as (Hout & Hfin & Htr & _ & Hts).
  - reflexivity.
  - reflexivity.
  - reflexivity.
  - reflexivity.
  - split; [reflexivity |]. exists "111", ["hi there"].
    repeat split; try reflexivity. left. repeat split; reflexivity.
  - reflexivity.
  - reflexivity.
  - reflexivity.
  - constructor.
  - reflexivity.
  - subst r. rewrite Hout, Hfin, Htr, Hts. repeat split; reflexivity.
Defined.

(** ** Handlers that neither read nor write a part of the state

    [F] changes a part of the state that a computation [m] does not look
    at: running [m] after [F] gives what [m] gives, with [F] applied to the
    final state.  [Q] holds of every coroutine [m] leaves suspended. *)

Section Frame.

Variable P : Platform.
Variable F : Bot → Bot.
Variable Q : Task → Prop.

Hypothesis F_already_ready : ∀ b, already_ready (F b) = already_ready b.
Hypothesis F_last_id : ∀ b, last_id (F b) = last_id b.
Hypothesis F_channel : ∀ b, channel (F b) = channel b.
Hypothesis F_prefix : ∀ b, prefix (F b) = prefix b.
Hypothesis F_ignored : ∀ b, ignored (F b) = ignored b.
Hypothesis F_set_already_ready : ∀ v b, F (set_already_ready v b) = set_already_ready v (F b).
Hypothesis F_set_last_id : ∀ v b, F (set_last_id v b) = set_last_id v (F b).
Hypothesis F_set_channel : ∀ v b, F (set_channel v b) = set_channel v (F b).
Hypothesis F_set_ignored : ∀ v b, F (set_ignored v b) = set_ignored v (F b).

Lemma respects_ret {A} (a : A) : respects F Q (ret a).
Proof. intros b. split; [reflexivity | constructor]. Qed.

Lemma respects_raise {A} (e : Exn) : respects F Q (@raise A e).
Proof. intros b. split; [reflexivity | constructor]. Qed.

Lemma respects_emit (e : Effect) : respects F Q (emit e).
Proof. intros b. split; [reflexivity | constructor]. Qed.

Lemma respects_suspend (t : Task) : Q t → respects F Q (suspend_then t).
Proof. intros Ht b. split; [reflexivity | by repeat constructor]. Qed.

Lemma respects_bind {A B} (m : M A) (k : A → M B) :
  respects F Q m → (∀ a, respects F Q (k a)) → respects F Q (bind m k).
Proof.
  intros Hm Hk b. destruct (Hm b) as [Hrun Hts]. unfold bind. rewrite Hrun.
  cbn [outcome final trace tasks].
  destruct (outcome (m b)) as [a|e]; [| by split].
  destruct (Hk a (final (m b))) as [Hrun' Hts']. rewrite Hrun'.
  cbn [outcome final trace tasks]. split; [reflexivity | by apply Forall_app].
Qed.

Lemma respects_try {A} (m : M A) (e : Exn) (h : M A) :
  respects F Q m → respects F Q h → respects F Q (try_except m e h).
Proof.
  intros Hm Hh b. destruct (Hm b) as [Hrun Hts]. unfold try_except. rewrite Hrun.
  cbn [outcome final trace tasks].
  destruct (outcome (m b)) as [a|e'] eqn:Hout.
  - split; [| done]. cbn [outcome final trace tasks]. by rewrite Hout.
  - destruct (bool_decide (e' = e)).
    + destruct (Hh (final (m b))) as [Hrun' Hts']. rewrite Hrun'.
      cbn [outcome final trace tasks]. split; [reflexivity | by apply Forall_app].
    + split; [| done]. cbn [outcome final trace tasks]. by rewrite Hout.
Qed.

Lemma respects_gets {A} (f : Bot → A) :
  (∀ b, f (F b) = f b) → respects F Q (gets f).
Proof. intros Hf b. unfold gets. rewrite Hf. split; [reflexivity | constructor]. Qed.

Lemma respects_modify (f : Bot → Bot) :
  (∀ b, F (f b) = f (F b)) → respects F Q (modify f).
Proof. intros Hf b. unfold modify. cbn. rewrite Hf. split; [reflexivity | constructor]. Qed.

Lemma respects_is_ignored user_id : respects F Q (is_ignored user_id).
Proof. apply respects_gets. intros b. by rewrite F_ignored. Qed.

Lemma respects_self_channel : respects F Q self_channel.
Proof.
  intros b. unfold self_channel. rewrite F_channel.
  destruct (channel b); split; (reflexivity || constructor).
Qed.

Lemma respects_channel_send text embed : respects F Q (channel_send text embed).
Proof.
  apply respects_bind; [apply respects_self_channel | intros c; apply respects_emit].
Qed.

Lemma respects_sql_insert user_id quiet reason : respects F Q (sql_insert user_id quiet reason).
Proof.
  intros b. unfold sql_insert. rewrite F_ignored.
  destruct (ignored b !! user_id); [split; (reflexivity || constructor) |].
  unfold modify. cbn. rewrite F_set_ignored. split; [reflexivity | constructor].
Qed.

Lemma respects_sql_delete user_id : respects F Q (sql_delete user_id).
Proof.
  intros b. unfold sql_delete. rewrite F_ignored.
  destruct (ignored b !! user_id); [| split; (reflexivity || constructor)].
  unfold bind, modify, ret. cbn. rewrite F_set_ignored. split; [reflexivity | constructor].
Qed.

Lemma respects_add_ignore user_id reason quiet : respects F Q (add_ignore user_id reason quiet).
Proof.
  apply respects_try; [| apply respects_ret].
  apply respects_bind; [apply respects_sql_insert | intros; apply respects_ret].
Qed.

Lemma respects_remove_ignore user_id : respects F Q (remove_ignore user_id).
Proof. apply respects_sql_delete. Qed.

Lemma respects_member_send member text files : respects F Q (member_send P member text files).
Proof.
  unfold member_send. destruct (accepts_dm member); [| apply respects_raise].
  apply respects_bind; [apply respects_emit | intros; apply respects_ret].
Qed.

Lemma respects_download count idx l : respects F Q (download count idx l).
Proof.
  revert idx. induction l as [|a l IH]; intros idx; cbn [download]; [apply respects_ret |].
  repeat (apply respects_bind; [| intros ?]);
    first [apply respects_emit | apply IH | apply respects_ret].
Qed.

Create HintDb respects.

Hint Resolve respects_ret respects_raise respects_emit respects_is_ignored
  respects_self_channel respects_channel_send respects_add_ignore
  respects_remove_ignore respects_member_send respects_download : respects.

(** Walks through a handler body: sequencing, [try], and the case
    distinctions on values. *)
Ltac respects_body :=
  repeat first
    [ progress cbv zeta
    | solve [auto with respects]
    | apply respects_bind; [| intros ?]
    | apply respects_try
    | match goal with
      | |- respects _ _ (match ?x with _ => _ end) => destruct x
      end ].

Lemma respects_handle_attachments message : respects F Q (handle_attachments P message).
Proof. unfold handle_attachments. respects_body. Qed.

Lemma respects_handle_staff_reply message user_id text :
  respects F Q (handle_staff_reply P message user_id text).
Proof.
  pose proof (respects_handle_attachments message).
  unfold handle_staff_reply. respects_body.
Qed.

Lemma respects_prefix : respects F Q (gets prefix).
Proof. by apply respects_gets. Qed.

Lemma respects_last_id : respects F Q (gets last_id).
Proof. by apply respects_gets. Qed.

Lemma respects_ready : respects F Q (gets already_ready).
Proof. by apply respects_gets. Qed.

Hint Resolve respects_prefix respects_last_id respects_ready
  respects_handle_staff_reply : respects.

Lemma respects_handle_ignore message user_id_str reason quiet :
  respects F Q (handle_ignore P message user_id_str reason quiet).
Proof. unfold handle_ignore. respects_body. Qed.

Lemma respects_unignore_notify member is_quiet :
  respects F Q (unignore_notify P member is_quiet).
Proof. unfold unignore_notify. respects_body. Qed.

Hint Resolve respects_unignore_notify : respects.

Lemma respects_handle_unignore message user_id_str :
  respects F Q (handle_unignore P message user_id_str).
Proof. unfold handle_unignore. respects_body. Qed.

Lemma respects_ignore_params params : respects F Q (ignore_params params).
Proof. unfold ignore_params. respects_body. Qed.

Lemma respects_first_arg token : respects F Q (first_arg token).
Proof. unfold first_arg. respects_body. Qed.

Hint Resolve respects_handle_ignore respects_handle_unignore respects_ignore_params
  respects_first_arg : respects.

Lemma respects_dispatch message first rest : respects F Q (dispatch P message first rest).
Proof. unfold dispatch. respects_body. Qed.

Hint Resolve respects_dispatch : respects.

Hypothesis Q_duplicate_reset : ∀ key, Q (DuplicateReset 2 key).

Lemma respects_on_channel_message message : respects F Q (on_channel_message P message).
Proof.
  unfold on_channel_message. respects_body. by apply respects_suspend.
Qed.

Lemma respects_on_typing chan who : respects F Q (on_typing chan who).
Proof. unfold on_typing. respects_body. Qed.

Hypothesis Q_finish_ready : Q FinishReady.

Lemma respects_on_ready : respects F Q (on_ready P).
Proof.
  unfold on_ready. respects_body;
    first [by apply respects_suspend | by apply respects_modify].
Qed.

(** The direct-message branch reads and writes [anti_spam_check]; it
    respects an [F] that leaves that dictionary alone as well. *)
Hypothesis F_anti_spam_check : ∀ b, anti_spam_check (F b) = anti_spam_check b.
Hypothesis F_set_anti_spam_check :
  ∀ v b, F (set_anti_spam_check v b) = set_anti_spam_check v (F b).
Hypothesis Q_spam_decrement :
  ∀ user_id, Q (SpamDecrement (antispam_seconds (config P)) user_id).

Lemma respects_spam_get user_id : respects F Q (spam_get user_id).
Proof.
  intros b. unfold spam_get. rewrite F_anti_spam_check.
  destruct (anti_spam_check b !! user_id); split; (reflexivity || constructor).
Qed.

Lemma respects_spam_set user_id n : respects F Q (spam_set user_id n).
Proof.
  apply respects_modify. intros b.
  by rewrite F_set_anti_spam_check, F_anti_spam_check.
Qed.

Lemma respects_on_direct_message message : respects F Q (on_direct_message P message).
Proof.
  pose proof respects_spam_get. pose proof respects_spam_set.
  unfold on_direct_message. respects_body.
  - apply respects_gets. intros b. by rewrite F_anti_spam_check.
  - by apply respects_modify.
  - by apply respects_suspend.
Qed.

Lemma respects_on_message message : respects F Q (on_message P message).
Proof.
  pose proof (respects_on_direct_message message).
  pose proof (respects_on_channel_message message).
  unfold on_message. respects_body.
Qed.

End Frame.

(** A computation that respects every overwrite of a part of the state
    leaves that part as it found it. *)
Lemma respects_keeps {A T} (get : Bot → T) (set : T → Bot → Bot) (Q : Task → Prop)
    (m : M A) (b : Bot) :
  (∀ b0, set (get b0) b0 = b0) →
  (∀ v b0, get (set v b0) = v) →
  (∀ v, respects (set v) Q m) →
  get (final (m b)) = get b.
Proof.
  intros Hid Hget Hm. destruct (Hm (get b) b) as [Hrun _].
  rewrite Hid in Hrun. apply (f_equal final) in Hrun. cbn in Hrun.
  rewrite Hrun at 1. apply Hget.
Qed.

(** ** C8: the ready gate *)

(** The gate of on_message: before [already_ready] is set, a message from
    any channel is dropped without a call and without a state change. *)
Lemma on_message_before_ready (P : Platform) (message : Message) (b : Bot) :
  already_ready b = false →
  on_message P message b = mkResult (Done tt) b [] [].
Proof.
  intros Hready. unfold on_message.
  destruct (bot (author_user (author message))); [reflexivity |].
  rewrite bind_gets, Hready. reflexivity.
Qed.

(** on_typing has no such gate: it queries the table and uses
    [self.channel] whatever [already_ready] is. *)
Lemma on_typing_any_state (who : User) (cid ch : Z) (b : Bot) :
  ignored b !! id who = None →
  on_typing (DMChannel cid) who b =
  match channel b with
  | Some ch => mkResult (Done tt) b [ChannelTyping ch] []
  | None => mkResult (Raised AttributeError) b [] []
  end.
Proof.
  intros Hign. unfold on_typing.
  rewrite (bind_pure _ _ _ _ (is_ignored_run _ _)), Hign.
  cbn. unfold bind, self_channel. by destruct (channel b).
Qed.

(** C8 (where the code departs from it). While on_ready is suspended in
    its startup send, [self.channel] is assigned and [already_ready] is
    still [False]: a typing event from a direct-message channel is then
    forwarded to the staff channel.  Before on_ready has run at all, the
    same event makes on_typing raise AttributeError after it has queried
    the table.  A direct message in either state is dropped by
    on_message. *)
Theorem typing_is_not_gated_by_ready :
  let P := Demo.platform true in
  let booted := start P ∅ in
  let waiting := (step P Ready booted).1 in
  already_ready (client booted) = false
  ∧ already_ready (client waiting) = false
  ∧ step P (TypingStart (DMChannel 50) Demo.alice) waiting = (waiting, [ChannelTyping 1])
  ∧ outcome (on_typing (DMChannel 50) Demo.alice (client booted)) = Raised AttributeError
  ∧ step P (MessageCreate (Demo.dm 1000 "hello")) waiting = (waiting, [])
  ∧ step P (MessageCreate (Demo.dm 1000 "hello")) booted = (booted, []).
Proof. vm_compute. repeat split; reflexivity. Qed.

(** ** C9: anti_duplicate_replies *)

Lemma on_message_ignores_flags (P : Platform) (message : Message)
    (d : gmap Arg bool) (b : Bot) :
  on_message P message (set_anti_duplicate_replies d b) =
  mkResult (outcome (on_message P message b))
    (set_anti_duplicate_replies d (final (on_message P message b)))
    (trace (on_message P message b)) (tasks (on_message P message b)).
Proof.
  by apply (respects_on_message P (set_anti_duplicate_replies d) (λ _, True)).
Qed.

Lemma on_message_sleeps (P : Platform) (message : Message) (b : Bot) :
  Forall (sleep_of P) (tasks (on_message P message b)).
Proof.
  apply (respects_on_message P (λ b0, b0) (sleep_of P)); try done.
  - intros key. right. by eexists.
  - intros user_id. left. by eexists.
Qed.

Lemma dispatch_never_sleeps (P : Platform) message first rest b :
  tasks (dispatch P message first rest b) = [].
Proof.
  assert (H : Forall (λ _ : Task, False) (tasks (dispatch P message first rest b)))
    by (by apply (respects_dispatch P (λ b0, b0) (λ _, False))).
  destruct (tasks (dispatch P message first rest b)); [done |].
  by apply Forall_cons in H as [[] _].
Qed.

(** The only sleep of the staff-channel branch is the one before the
    flag is stored, under the first token. *)
Lemma on_channel_message_tasks (P : Platform) message b :
  tasks (on_channel_message P message b) = []
  ∨ ∃ token rest first,
      Py.split1 (Py.drop (String.length (prefix b)) (content message)) = token :: rest
      ∧ parsed_first token = Some first
      ∧ tasks (on_channel_message P message b) = [DuplicateReset 2 first].
Proof.
  unfold on_channel_message. rewrite bind_gets.
  destruct (Py.startswith (content message) (prefix b)); [| by left]. cbn [negb].
  destruct (Py.split1 _) as [|token rest] eqn:Hsplit; [by left |].
  unfold first_arg.
  destruct (parsed_first token) as [first|] eqn:Hfirst; unfold parsed_first in Hfirst.
  - assert (Hret : (if Py.isdigit token
                    then match Py.int token with
                         | Some n => ret (AInt n)
                         | None => raise ValueError
                         end
                    else ret (AStr token)) = ret first).
    { destruct (Py.isdigit token); [| by injection Hfirst as <-].
      destruct (Py.int token); [by injection Hfirst as <- | done]. }
    rewrite Hret, bind_ret.
    unfold bind. pose proof (dispatch_never_sleeps P message first rest b) as Hts.
    destruct (dispatch P message first rest b) as [[[]|e] b1 tr ts];
      cbn [outcome final trace tasks] in *; subst ts; [| by left | by left].
    right. exists token, rest, first. done.
  - destruct (Py.isdigit token); [| done].
    destruct (Py.int token); [done |]. by left.
Qed.

Lemma handler_keeps_flags {A} (m : M A) (b : Bot) :
  (∀ d, respects (set_anti_duplicate_replies d) (λ _, True) m) →
  anti_duplicate_replies (final (m b)) = anti_duplicate_replies b.
Proof.
  intros Hm.
  apply (respects_keeps anti_duplicate_replies set_anti_duplicate_replies (λ _, True));
    [apply Bot_eta | done | exact Hm].
Qed.

Lemma resume_flags (t : Task) (b : Bot) (k : Arg) (v : bool) :
  anti_duplicate_replies (final (resume t b)) !! k = Some v →
  v = false ∨ anti_duplicate_replies b !! k = Some v.
Proof.
  destruct t as [delay user_id | delay key |]; cbn; [| | by right].
  - unfold bind, spam_get. destruct (anti_spam_check b !! user_id); cbn; by right.
  - destruct (decide (key = k)) as [-> | Hne].
    + rewrite lookup_insert_eq. intros [= <-]. by left.
    + rewrite lookup_insert_ne by done. by right.
Qed.

Lemma step_flags (P : Platform) (ev : Event) (s : System) :
  flags_all_false s → flags_all_false (step P ev s).1.
Proof.
  intros Hs k v. destruct ev as [| m | c u | i]; unfold step; cbn [fst client].
  - rewrite (handler_keeps_flags (on_ready P)); [apply Hs |].
    intros d. by apply respects_on_ready.
  - rewrite (handler_keeps_flags (on_message P m)); [apply Hs |].
    intros d. by apply respects_on_message.
  - rewrite (handler_keeps_flags (on_typing c u)); [apply Hs |].
    intros d. by apply respects_on_typing.
  - destruct (suspended s !! i) as [t|]; cbn [fst client]; [| apply Hs].
    intros Hk. apply resume_flags in Hk as [-> | Hk]; [done | by eapply Hs].
Qed.

Lemma run_flags (P : Platform) (evs : list Event) (s : System) :
  flags_all_false s → flags_all_false (run P evs s).1.
Proof.
  revert s. induction evs as [|ev evs IH]; intros s Hs; [done |].
  cbn [run]. pose proof (step_flags P ev s Hs) as Hstep.
  destruct (step P ev s) as [s1 out1]. specialize (IH s1 Hstep).
  by destruct (run P evs s1) as [s2 out2].
Qed.

(** C9 (where the code departs from it). anti_duplicate_replies is
    never tested and never set.  on_message gives the same outcome, the
    same outbound calls and the same sleeps whatever the dictionary holds,
    and leaves it as it is; the one store, after the two-second sleep,
    writes [False]; so in every state the process reaches every flag is
    [False].  A staff reply that is sent again while the reset of the
    first one is still pending is therefore delivered a second time. *)
Theorem duplicate_guard_is_never_armed :
  let P := Demo.platform true in
  let s := {| client := Demo.ready_bot ∅; suspended := [] |} in
  let delivery := λ n,
    [DirectSend 111 "<@7>: hi there" [];
     ChannelSend 1 "<@7> replying to 111 <@111>"
       (Some {| color := 7274751; description := "hi there";
                embed_author := None; fields := [] |});
     DeleteMessage (Received n)] in
  let first := step P (MessageCreate (Demo.cmd_open 7004 "?111 hi there" [])) s in
  let second := step P (MessageCreate (Demo.cmd_open 7005 "?111 hi there" [])) first.1 in
  first.2 = delivery 7004
  ∧ suspended first.1 = [DuplicateReset 2 (AInt 111)]
  ∧ anti_duplicate_replies (client first.1) !! AInt 111 = None
  ∧ second.2 = delivery 7005
  ∧ suspended second.1 = [DuplicateReset 2 (AInt 111); DuplicateReset 2 (AInt 111)]
  ∧ (∀ (P0 : Platform) (message : Message) (d : gmap Arg bool) (b : Bot),
       on_message P0 message (set_anti_duplicate_replies d b) =
       mkResult (outcome (on_message P0 message b))
         (set_anti_duplicate_replies d (final (on_message P0 message b)))
         (trace (on_message P0 message b)) (tasks (on_message P0 message b)))
  ∧ (∀ (delay : Z) (key : Arg) (b : Bot),
       resume (DuplicateReset delay key) b =
       mkResult (Done tt)
         (set_anti_duplicate_replies (<[key := false]> (anti_duplicate_replies b)) b) [] [])
  ∧ (∀ (P0 : Platform) (db : Table) (evs : list Event) (k : Arg) (v : bool),
       anti_duplicate_replies (client (run P0 evs (start P0 db)).1) !! k = Some v →
       v = false).
Proof.
  intros P s delivery first second. subst first second delivery.
  split; [vm_compute; reflexivity |].
  split; [vm_compute; reflexivity |].
  split; [vm_compute; reflexivity |].
  split; [vm_compute; reflexivity |].
  split; [vm_compute; reflexivity |].
  split; [| split].
  - intros. apply on_message_ignores_flags.
  - reflexivity.
  - intros P0 db evs. apply (run_flags P0 evs (start P0 db)). intros k v Hk.
    cbn in Hk. by rewrite lookup_empty in Hk.
Qed.

(** ** C4: the range of the spam counter *)

Lemma pending_decrements_app user_id l1 l2 :
  pending_decrements user_id (l1 ++ l2) =
  pending_decrements user_id l1 + pending_decrements user_id l2.
Proof. induction l1 as [|t l1 IH]; cbn [pending_decrements app]; lia. Qed.

Lemma pending_decrements_nonneg user_id l : 0 ≤ pending_decrements user_id l.
Proof. induction l as [|t l IH]; cbn [pending_decrements]; [lia |]. destruct is_decrement_for; lia. Qed.

Lemma pending_decrements_none user_id l :
  Forall (λ t, is_decrement_for user_id t = false) l →
  pending_decrements user_id l = 0.
Proof. induction 1 as [|t l Ht _ IH]; cbn [pending_decrements]; [done |]. rewrite Ht. lia. Qed.

Lemma pending_decrements_delete user_id l i t :
  l !! i = Some t →
  pending_decrements user_id l =
  (if is_decrement_for user_id t then 1 else 0) + pending_decrements user_id (delete i l).
Proof.
  revert i. induction l as [|t' l IH]; intros [|i] Hi; try done.
  - injection Hi as ->. reflexivity.
  - cbn in Hi. specialize (IH i Hi).
    change (delete (S i) (t' :: l)) with (t' :: delete i l).
    cbn [pending_decrements]. lia.
Qed.

Lemma resolve_author_id P a :
  id (author_user (resolve_author P a)) = id (author_user a).
Proof.
  unfold resolve_author. destruct (guilds P) as [|server rest]; [done |].
  unfold get_member.
  destruct (find _ server) as [member|] eqn:Hfind; [| done].
  apply find_some in Hfind as [_ Heq]. cbn. by apply Z.eqb_eq in Heq.
Qed.

Lemma channel_send_unset text embed b :
  channel b = None →
  channel_send text embed b = mkResult (Raised AttributeError) b [] [].
Proof. intros H. unfold channel_send, bind, self_channel. by rewrite H. Qed.

(** The counting step of the direct-message branch: the key is created
    if absent, incremented and read back. *)
Lemma count_message_run {B} user_id (k : Z → M B) b :
  bind (gets (λ b0, anti_spam_check b0 !! user_id)) (λ seen,
    bind match seen with
         | None => spam_set user_id 0
         | Some _ => ret tt
         end (λ _,
    bind (spam_get user_id) (λ n,
    bind (spam_set user_id (n + 1)) (λ _,
    bind (spam_get user_id) k)))) b
  = k (post_increment b user_id)
      (set_anti_spam_check (<[user_id := post_increment b user_id]> (anti_spam_check b)) b).
Proof.
  rewrite bind_gets. unfold post_increment.
  destruct (anti_spam_check b !! user_id) as [n|] eqn:Hn; cbn [default].
  - rewrite bind_ret. rewrite (bind_pure _ _ _ _ (spam_get_run _ _ _ Hn)).
    unfold spam_set at 1. rewrite bind_modify.
    by rewrite (bind_pure _ _ _ (n + 1)) by (apply spam_get_run; apply lookup_insert_eq).
  - unfold spam_set at 1. rewrite bind_modify.
    rewrite (bind_pure _ _ _ 0) by (apply spam_get_run; apply lookup_insert_eq).
    unfold spam_set at 1. rewrite bind_modify.
    rewrite (bind_pure _ _ _ (0 + 1)) by (apply spam_get_run; apply lookup_insert_eq).
    cbn [anti_spam_check set_anti_spam_check]. by rewrite insert_insert_eq.
Qed.

Lemma counter_insert b user_id u n :
  counter (set_anti_spam_check (<[u := n]> (anti_spam_check b)) b) user_id =
  if decide (u = user_id) then n else counter b user_id.
Proof.
  unfold counter. cbn [anti_spam_check set_anti_spam_check].
  rewrite lookup_insert. by destruct (decide (u = user_id)).
Qed.

(** What a direct message does to the counter of [user_id]: a counter
    that covers [n] pending decrements covers them, and the one the handler
    adds, afterwards, unless the message takes the auto-ignore branch for
    that user while [n] is positive. *)
Lemma on_direct_message_counter P message b user_id n :
  let sender := id (author_user (author message)) in
  n ≤ counter b user_id →
  (sender = user_id → ignored b !! user_id = None →
   antispam_messages (config P) ≤ post_increment b user_id → n ≤ 0) →
  let r := on_direct_message P message b in
  n + pending_decrements user_id (tasks r) ≤ counter (final r) user_id.
Proof.
  intros sender Hn Hfree r. subst r. unfold on_direct_message. fold sender.
  rewrite (bind_pure _ _ _ _ (is_ignored_run _ _)).
  destruct (ignored b !! sender) as [entry|] eqn:Hign.
  { rewrite bool_decide_eq_true_2 by eauto.
    cbn [ret final tasks pending_decrements]. lia. }
  rewrite bool_decide_eq_false_2 by (by intros [? ?]).
  rewrite count_message_run.
  set (b1 := set_anti_spam_check _ b).
  assert (Hb1 : counter b1 user_id =
                if decide (sender = user_id) then post_increment b sender
                else counter b user_id) by apply counter_insert.
  assert (Hup : counter b user_id ≤ counter b1 user_id).
  { rewrite Hb1. destruct (decide (sender = user_id)) as [<- | _]; [| lia].
    unfold post_increment, counter. lia. }
  destruct (Z.leb_spec (antispam_messages (config P)) (post_increment b sender)) as [Htrip | Hbelow].
  - erewrite (bind_done (add_ignore _ _ _)) by (apply add_ignore_fresh; exact Hign).
    cbn [outcome final trace tasks app].
    set (b2 := set_ignored _ b1).
    assert (Hb2 : counter b2 user_id = counter b1 user_id) by reflexivity.
    destruct (channel b2) as [ch|] eqn:Hch.
    + erewrite (bind_done (channel_send _ _)) by (by apply channel_send_run).
      cbn [outcome final trace tasks app spam_set modify pending_decrements].
      rewrite counter_insert. destruct (decide (sender = user_id)) as [Heq | Hne]; [| lia].
      assert (n ≤ 0) by (apply Hfree; congruence). lia.
    + erewrite (bind_raised (channel_send _ _)) by (by apply channel_send_unset).
      cbn [outcome final trace tasks app pending_decrements]. lia.
  - cbv zeta. destruct (channel b1) as [ch|] eqn:Hch.
    + erewrite (bind_done (channel_send _ _)) by (by apply channel_send_run).
      rewrite bind_emit, bind_modify.
      cbn [outcome final trace tasks app suspend_then pending_decrements is_decrement_for].
      rewrite resolve_author_id. fold sender.
      change (counter (set_last_id _ b1) user_id) with (counter b1 user_id).
      rewrite Hb1.
      destruct (decide (sender = user_id)) as [-> | Hne].
      * rewrite Z.eqb_refl. unfold post_increment, counter in *. lia.
      * apply Z.eqb_neq in Hne. rewrite Hne. lia.
    + erewrite (bind_raised (channel_send _ _)) by (by apply channel_send_unset).
      cbn [outcome final trace tasks app pending_decrements]. lia.
Qed.

Lemma channel_branch_counter P message b user_id :
  let r := on_channel_message P message b in
  anti_spam_check (final r) = anti_spam_check b
  ∧ pending_decrements user_id (tasks r) = 0.
Proof.
  intros r. subst r. split.
  - apply (respects_keeps anti_spam_check set_anti_spam_check
             (λ t, is_decrement_for user_id t = false));
      [apply Bot_eta | done |].
    intros v. by apply respects_on_channel_message.
  - apply pending_decrements_none.
    by apply (respects_on_channel_message P (λ b0, b0)
                (λ t, is_decrement_for user_id t = false)).
Qed.

Lemma on_message_counter P message b user_id n :
  n ≤ counter b user_id →
  (trips P user_id (MessageCreate message) b = true → n ≤ 0) →
  let r := on_message P message b in
  n + pending_decrements user_id (tasks r) ≤ counter (final r) user_id.
Proof.
  intros Hn Hfree r. subst r. unfold on_message.
  cbn [trips] in Hfree.
  destruct (bot (author_user (author message))) eqn:Hbot;
    [cbn [ret final tasks outcome pending_decrements]; lia |].
  rewrite bind_gets.
  destruct (already_ready b) eqn:Hready;
    [| cbn [ret final tasks outcome pending_decrements negb]; lia].
  cbn [negb].
  destruct (channel_of message) as [c | c | c] eqn:Hchan.
  - apply on_direct_message_counter; [exact Hn |]. intros Hsender Hign Htrip.
    apply Hfree. rewrite Hsender, Z.eqb_refl. cbn [negb andb].
    rewrite bool_decide_eq_true_2 by done. cbn [andb]. by apply Z.leb_le.
  - destruct (channel b) as [ch|] eqn:Hch.
    + rewrite (bind_pure _ _ _ _ (self_channel_run _ _ Hch)).
      match goal with |- context [bool_decide ?X] => destruct (bool_decide X) end;
        [| cbn [ret final tasks outcome pending_decrements]; lia].
      destruct (channel_branch_counter P message b user_id) as [Hkeep Hnone].
      rewrite Hnone. unfold counter in *. rewrite Hkeep. lia.
    + unfold bind, self_channel. rewrite Hch.
      cbn [raise final tasks outcome pending_decrements]. lia.
  - destruct (channel b) as [ch|] eqn:Hch.
    + rewrite (bind_pure _ _ _ _ (self_channel_run _ _ Hch)).
      match goal with |- context [bool_decide ?X] => destruct (bool_decide X) end;
        [| cbn [ret final tasks outcome pending_decrements]; lia].
      destruct (channel_branch_counter P message b user_id) as [Hkeep Hnone].
      rewrite Hnone. unfold counter in *. rewrite Hkeep. lia.
    + unfold bind, self_channel. rewrite Hch.
      cbn [raise final tasks outcome pending_decrements]. lia.
Qed.

Lemma resume_counter t b user_id :
  counter b user_id ≤
  counter (final (resume t b)) user_id + (if is_decrement_for user_id t then 1 else 0)
  ∧ tasks (resume t b) = [].
Proof.
  destruct t as [delay u | delay key |]; cbn [resume is_decrement_for].
  - destruct (anti_spam_check b !! u) as [n|] eqn:Hn.
    + rewrite (bind_pure _ _ _ _ (spam_get_run _ _ _ Hn)).
      cbn [spam_set modify final tasks]. rewrite counter_insert. split; [| done].
      destruct (decide (u = user_id)) as [-> | Hne].
      * rewrite Z.eqb_refl. unfold counter. rewrite Hn. cbn. lia.
      * apply Z.eqb_neq in Hne. rewrite Hne. lia.
    + unfold bind, spam_get. rewrite Hn. cbn [outcome final tasks raise]. split; [| done].
      destruct (u =? user_id); lia.
  - cbn. split; [| done]. change (counter _ user_id) with (counter b user_id). lia.
  - cbn. split; [| done]. change (counter _ user_id) with (counter b user_id). lia.
Qed.

Lemma step_counter P user_id ev s :
  trips P user_id ev (client s) && Z.ltb 0 (pending_decrements user_id (suspended s)) = false →
  counter_covers_pending user_id s →
  counter_covers_pending user_id (step P ev s).1.
Proof.
  unfold counter_covers_pending. intros Hfree Hs.
  destruct ev as [| m | c u | i]; unfold step; cbn [fst client suspended].
  - rewrite pending_decrements_app.
    rewrite (pending_decrements_none user_id (tasks (on_ready P (client s)))).
    + unfold counter.
      rewrite (respects_keeps anti_spam_check set_anti_spam_check
                 (λ t, is_decrement_for user_id t = false) (on_ready P));
        [fold (counter (client s) user_id); lia | apply Bot_eta | done |].
      intros v. by apply respects_on_ready.
    + by apply (respects_on_ready P (λ b0, b0) (λ t, is_decrement_for user_id t = false)).
  - rewrite pending_decrements_app.
    apply on_message_counter; [exact Hs |]. intros Htrip.
    rewrite Htrip in Hfree. cbn [andb] in Hfree. by apply Z.ltb_ge in Hfree.
  - rewrite pending_decrements_app.
    rewrite (pending_decrements_none user_id (tasks (on_typing c u (client s)))).
    + unfold counter.
      rewrite (respects_keeps anti_spam_check set_anti_spam_check
                 (λ t, is_decrement_for user_id t = false) (on_typing c u));
        [fold (counter (client s) user_id); lia | apply Bot_eta | done |].
      intros v. by apply respects_on_typing.
    + by apply (respects_on_typing (λ b0, b0) (λ t, is_decrement_for user_id t = false)).
  - destruct (suspended s !! i) as [t|] eqn:Hi; cbn [fst client suspended]; [| done].
    rewrite pending_decrements_app.
    destruct (resume_counter t (client s) user_id) as [Hc Hts]. rewrite Hts.
    rewrite (pending_decrements_delete user_id _ _ _ Hi) in Hs.
    cbn [pending_decrements]. lia.
Qed.

Lemma run_counter P user_id evs s :
  no_trip_while_pending P user_id evs s = true →
  counter_covers_pending user_id s →
  counter_covers_pending user_id (run P evs s).1.
Proof.
  revert s. induction evs as [|ev evs IH]; intros s Hfree Hs; [done |].
  cbn [no_trip_while_pending] in Hfree. apply andb_true_iff in Hfree as [Hev Hrest].
  apply negb_true_iff in Hev.
  pose proof (step_counter P user_id ev s Hev Hs) as Hstep.
  cbn [run]. destruct (step P ev s) as [s1 out1]. cbn [fst] in *.
  specialize (IH s1 Hrest Hstep).
  by destruct (run P evs s1) as [s2 out2].
Qed.

(** C4 as the code has it. The delayed decrement subtracts exactly one,
    whatever the counter holds: there is no floor.  Along a run from
    process start in which no message takes the auto-ignore branch for a
    user while a decrement for that user is pending, the user's counter is
    at least the number of decrements still pending for it, hence never
    negative. *)
Theorem spam_counter_is_not_floored (P : Platform) (db : Table) (evs : list Event)
    (user_id : Z) :
  no_trip_while_pending P user_id evs (start P db) = true →
  let s := (run P evs (start P db)).1 in
  (∀ n, anti_spam_check (client s) !! user_id = Some n →
        pending_decrements user_id (suspended s) ≤ n ∧ 0 ≤ n)
  ∧ (∀ b delay n,
       anti_spam_check b !! user_id = Some n →
       anti_spam_check (final (resume (SpamDecrement delay user_id) b)) !! user_id
       = Some (n - 1)).
Proof.
  intros Hfree s. split.
  - intros n Hn.
    assert (Hinv : counter_covers_pending user_id s).
    { apply run_counter; [exact Hfree |]. unfold counter_covers_pending. cbn.
      unfold counter. cbn. rewrite lookup_empty. cbn. lia. }
    unfold counter_covers_pending, counter in Hinv. rewrite Hn in Hinv. cbn in Hinv.
    pose proof (pending_decrements_nonneg user_id (suspended s)). lia.
  - intros b delay n Hn. cbn [resume].
    rewrite (bind_pure _ _ _ _ (spam_get_run _ _ _ Hn)).
    cbn. apply lookup_insert_eq.
Qed.

Lemma spam_counter_is_not_floored_witness :
  let P := Demo.platform true in
  let s := (run P [Ready; Wake 0%nat; MessageCreate (Demo.dm 1000 "hello")] (start P ∅)).1 in
  (∀ n, anti_spam_check (client s) !! 111 = Some n →
        pending_decrements 111 (suspended s) ≤ n ∧ 0 ≤ n)
  ∧ anti_spam_check (client s) !! 111 = Some 1
  ∧ pending_decrements 111 (suspended s) = 1.
Proof.
  intros P s. split; [| split; reflexivity].
  apply (spam_counter_is_not_floored P ∅
           [Ready; Wake 0%nat; MessageCreate (Demo.dm 1000 "hello")] 111).
  reflexivity.
Defined.

(** C4 as stated fails: with a threshold of 2, a first message is relayed
    and its decrement is left pending, a second one trips the limiter and
    resets the counter to 0, and the pending decrement then takes it
    to -1. *)
Lemma spam_counter_goes_negative :
  let P := Demo.platform true in
  let evs := [Ready; Wake 0%nat;
              MessageCreate (Demo.dm 1000 "hello");
              MessageCreate (Demo.dm 1001 "again");
              Wake 0%nat] in
  anti_spam_check (client (run P evs (start P ∅)).1) !! 111 = Some (-1)
  ∧ ¬ (∀ evs0 user_id n,
         anti_spam_check (client (run P evs0 (start P ∅)).1) !! user_id = Some n →
         0 ≤ n).
Proof.
  intros P evs.
  assert (Hneg : anti_spam_check (client (run P evs (start P ∅)).1) !! 111 = Some (-1))
    by (vm_compute; reflexivity).
  split; [exact Hneg |].
  intros Hclaim. specialize (Hclaim evs 111 (-1) Hneg). lia.
Qed.

(** ** Once ready, the staff channel is known

    The theorems above about a ready client assume that [self.channel] is
    assigned.  This holds in every state the process reaches: only on_ready
    writes [channel] and [already_ready], and it assigns the channel
    first. *)

Section Session.

Variable P : Platform.

Lemma keeps_session_ret {A} (a : A) : keeps_session (ret a).
Proof. intros b. by repeat split. Qed.

Lemma keeps_session_raise {A} (e : Exn) : keeps_session (@raise A e).
Proof. intros b. by repeat split. Qed.

Lemma keeps_session_emit (e : Effect) : keeps_session (emit e).
Proof. intros b. by repeat split. Qed.

Lemma keeps_session_gets {A} (f : Bot → A) : keeps_session (gets f).
Proof. intros b. by repeat split. Qed.

Lemma keeps_session_modify (f : Bot → Bot) :
  (∀ b, channel (f b) = channel b ∧ already_ready (f b) = already_ready b) →
  keeps_session (modify f).
Proof. intros Hf b. destruct (Hf b). cbn [modify final tasks]. by repeat split. Qed.

Lemma keeps_session_suspend (t : Task) : t ≠ FinishReady → keeps_session (suspend_then t).
Proof. intros Ht b. repeat split. by repeat constructor. Qed.

Lemma keeps_session_bind {A B} (m : M A) (k : A → M B) :
  keeps_session m → (∀ a, keeps_session (k a)) → keeps_session (bind m k).
Proof.
  intros Hm Hk b. destruct (Hm b) as (Hc & Hr & Hts). unfold bind.
  destruct (outcome (m b)) as [a|e]; cbn [final tasks]; [| done].
  destruct (Hk a (final (m b))) as (Hc' & Hr' & Hts').
  repeat split; [congruence | congruence | by apply Forall_app].
Qed.

Lemma keeps_session_try {A} (m : M A) (e : Exn) (h : M A) :
  keeps_session m → keeps_session h → keeps_session (try_except m e h).
Proof.
  intros Hm Hh b. destruct (Hm b) as (Hc & Hr & Hts). unfold try_except.
  destruct (outcome (m b)) as [a|e']; [done |].
  destruct (bool_decide (e' = e)); [| done]. cbn [final tasks].
  destruct (Hh (final (m b))) as (Hc' & Hr' & Hts').
  repeat split; [congruence | congruence | by apply Forall_app].
Qed.

Lemma keeps_session_self_channel : keeps_session self_channel.
Proof.
  intros b. unfold self_channel.
  destruct (channel b) eqn:Hc; cbn [ret raise final tasks]; rewrite ?Hc; by repeat split.
Qed.

Lemma keeps_session_sql_insert user_id quiet reason :
  keeps_session (sql_insert user_id quiet reason).
Proof. intros b. unfold sql_insert. by destruct (ignored b !! user_id). Qed.

Lemma keeps_session_sql_delete user_id : keeps_session (sql_delete user_id).
Proof. intros b. unfold sql_delete. by destruct (ignored b !! user_id). Qed.

Lemma keeps_session_spam_get user_id : keeps_session (spam_get user_id).
Proof. intros b. unfold spam_get. by destruct (anti_spam_check b !! user_id). Qed.

Lemma keeps_session_spam_set user_id n : keeps_session (spam_set user_id n).
Proof. by apply keeps_session_modify. Qed.

Lemma keeps_session_download count idx l : keeps_session (download count idx l).
Proof.
  revert idx. induction l as [|a l IH]; intros idx; cbn [download];
    [apply keeps_session_ret |].
  repeat (apply keeps_session_bind; [| intros ?]);
    first [apply keeps_session_emit | apply IH | apply keeps_session_ret].
Qed.

Create HintDb session.

Hint Resolve keeps_session_ret keeps_session_raise keeps_session_emit
  keeps_session_gets keeps_session_self_channel keeps_session_sql_insert
  keeps_session_sql_delete keeps_session_spam_get keeps_session_spam_set
  keeps_session_download : session.

(** Walks through a handler body, as [respects_body] does. *)
Ltac session_body :=
  repeat first
    [ progress cbv zeta
    | solve [auto with session]
    | apply keeps_session_bind; [| intros ?]
    | apply keeps_session_try
    | match goal with
      | |- keeps_session (match ?x with _ => _ end) => destruct x
      end ].

Lemma keeps_session_channel_send text embed : keeps_session (channel_send text embed).
Proof. unfold channel_send. session_body. Qed.

Lemma keeps_session_add_ignore user_id reason quiet :
  keeps_session (add_ignore user_id reason quiet).
Proof. unfold add_ignore. session_body. Qed.

Lemma keeps_session_member_send member text files :
  keeps_session (member_send P member text files).
Proof. unfold member_send. session_body. Qed.

Hint Resolve keeps_session_channel_send keeps_session_add_ignore
  keeps_session_member_send : session.

Lemma keeps_session_handle_attachments message :
  keeps_session (handle_attachments P message).
Proof. unfold handle_attachments. session_body. Qed.

Hint Resolve keeps_session_handle_attachments : session.

Lemma keeps_session_handle_staff_reply message user_id text :
  keeps_session (handle_staff_reply P message user_id text).
Proof. unfold handle_staff_reply, is_ignored. session_body. Qed.

Lemma keeps_session_handle_ignore message user_id_str reason quiet :
  keeps_session (handle_ignore P message user_id_str reason quiet).
Proof. unfold handle_ignore. session_body. Qed.

Lemma keeps_session_handle_unignore message user_id_str :
  keeps_session (handle_unignore P message user_id_str).
Proof.
  unfold handle_unignore, unignore_notify, is_ignored, remove_ignore. session_body.
Qed.

Hint Resolve keeps_session_handle_staff_reply keeps_session_handle_ignore
  keeps_session_handle_unignore : session.

Lemma keeps_session_on_message message : keeps_session (on_message P message).
Proof.
  unfold on_message, on_direct_message, on_channel_message, dispatch, first_arg,
    ignore_params, is_ignored.
  session_body; first [by apply keeps_session_modify | by apply keeps_session_suspend].
Qed.

Lemma keeps_session_on_typing chan who : keeps_session (on_typing chan who).
Proof. unfold on_typing, is_ignored. session_body. Qed.

Lemma step_channel_known ev s :
  channel_known s → channel_known (step P ev s).1.
Proof.
  unfold channel_known. intros Hs.
  destruct ev as [| m | c u | i]; unfold step; cbn [fst client suspended].
  - unfold on_ready. rewrite bind_gets.
    destruct (already_ready (client s)) eqn:Hready.
    { cbn [ret final tasks]. rewrite app_nil_r, Hready. exact Hs. }
    destruct (get_channel P (channel_id (config P))) as [[c | c | c]|];
      try (cbn [emit final tasks]; rewrite app_nil_r, Hready; exact Hs).
    rewrite bind_modify. intros _.
    destruct (post_startup_message (config P)); [| by eexists].
    erewrite (bind_done (channel_send _ _)) by (by apply channel_send_run).
    by eexists.
  - destruct (keeps_session_on_message m (client s)) as (Hc & Hr & Hts).
    rewrite Hc, Hr. intros [Hready | Hin]; [by auto |].
    apply elem_of_app in Hin as [Hin | Hin]; [by auto |].
    by apply (proj1 (Forall_forall _ _) Hts) in Hin.
  - destruct (keeps_session_on_typing c u (client s)) as (Hc & Hr & Hts).
    rewrite Hc, Hr. intros [Hready | Hin]; [by auto |].
    apply elem_of_app in Hin as [Hin | Hin]; [by auto |].
    by apply (proj1 (Forall_forall _ _) Hts) in Hin.
  - destruct (suspended s !! i) as [t|] eqn:Hi; cbn [fst client suspended]; [| exact Hs].
    assert (Hsome : t = FinishReady ∨ already_ready (client s) = true
                    ∨ FinishReady ∈ delete i (suspended s) → is_Some (channel (client s))).
    { intros [-> | [Hready | Hin]]; apply Hs; [right | by left | right].
      - by eapply list_elem_of_lookup_2.
      - by eapply list_elem_of_delete_inv. }
    destruct t as [delay u | delay key |]; cbn [resume].
    + destruct (keeps_session_bind (spam_get u) (λ n, spam_set u (n - 1))
                  (keeps_session_spam_get u) (λ n, keeps_session_spam_set u (n - 1))
                  (client s)) as (Hc & Hr & Hts).
      rewrite Hc, Hr. intros [Hready | Hin]; [by auto |].
      apply elem_of_app in Hin as [Hin | Hin]; [by auto |].
      by apply (proj1 (Forall_forall _ _) Hts) in Hin.
    + cbn. rewrite app_nil_r. intros [Hready | Hin]; by auto.
    + cbn. intros _. by auto.
Qed.

(** In every state reached from process start, a ready client has
    [self.channel] assigned. *)
Lemma ready_has_channel (db : Table) (evs : list Event) :
  let s := (run P evs (start P db)).1 in
  already_ready (client s) = true → is_Some (channel (client s)).
Proof.
  intros s Hready.
  assert (Hrun : ∀ evs0 s0, channel_known s0 → channel_known (run P evs0 s0).1).
  { induction evs0 as [|ev evs0 IH]; intros s0 Hs0; [done |].
    cbn [run]. pose proof (step_channel_known ev s0 Hs0) as Hstep.
    destruct (step P ev s0) as [s1 out1]. specialize (IH s1 Hstep).
    by destruct (run P evs0 s1) as [s2 out2]. }
  apply (Hrun evs (start P db)); [| by left].
  intros [Hr | Hin]; [done | by apply elem_of_nil in Hin].
Qed.

End Session.

(** * Further properties of the handlers *)

(** ** Tokens and integers *)

Lemma rev_app_rev_app (s1 s2 s3 : string) :
  String.rev_app (String.rev_app s1 s2) s3 = String.rev_app s2 (s1 +:+ s3).
Proof.
  revert s2 s3. induction s1 as [|c s1 IH]; intros s2 s3; [reflexivity |].
  cbn [String.rev_app]. rewrite IH. reflexivity.
Qed.

Lemma append_empty (s : string) : s +:+ "" = s.
Proof.
  induction s as [|c s IH]; [reflexivity |].
  change (String c s +:+ "") with (String c (s +:+ "")). by rewrite IH.
Qed.

Lemma rev_rev (s : string) : String.rev (String.rev s) = s.
Proof.
  unfold String.rev. rewrite rev_app_rev_app. simpl. apply append_empty.
Qed.

Lemma rev_app_no_blank (s1 s2 : string) :
  PyFacts.no_blank (String.rev_app s1 s2) = PyFacts.no_blank s1 && PyFacts.no_blank s2.
Proof.
  revert s2. induction s1 as [|c s1 IH]; intros s2; [reflexivity |].
  cbn [String.rev_app PyFacts.no_blank]. rewrite IH. cbn [PyFacts.no_blank].
  destruct (Py.isspace c), (PyFacts.no_blank s1), (PyFacts.no_blank s2); reflexivity.
Qed.

Lemma lstrip_no_blank (s : string) : PyFacts.no_blank s = true → Py.lstrip s = s.
Proof.
  destruct s as [|c s]; [reflexivity |]. cbn [PyFacts.no_blank Py.lstrip].
  by destruct (Py.isspace c).
Qed.

Lemma strip_no_blank (s : string) : PyFacts.no_blank s = true → Py.strip s = s.
Proof.
  intros Hs. unfold Py.strip, Py.rstrip. rewrite (lstrip_no_blank s Hs).
  rewrite lstrip_no_blank; [apply rev_rev |].
  unfold String.rev. rewrite rev_app_no_blank, Hs. reflexivity.
Qed.

Lemma digit_not_blank (c : ascii) : is_Some (Py.digit c) → Py.isspace c = false.
Proof.
  intros [d Hd]. destruct c as [[] [] [] [] [] [] [] []]; try reflexivity;
    vm_compute in Hd; discriminate.
Qed.

Lemma all_digits_no_blank (s : string) : Py.all_digits s = true → PyFacts.no_blank s = true.
Proof.
  induction s as [|c s IH]; [reflexivity |]. cbn [Py.all_digits PyFacts.no_blank].
  intros [Hc Hs]%andb_true_iff. apply bool_decide_eq_true in Hc.
  rewrite (digit_not_blank c Hc). by apply IH.
Qed.

Lemma digit_range (c : ascii) (d : Z) : Py.digit c = Some d → 0 ≤ d ≤ 9.
Proof.
  unfold Py.digit. destruct (_ && _) eqn:Hrange; [| done].
  intros [= <-]. apply andb_true_iff in Hrange as [H1%Nat.leb_le H2%Nat.leb_le]. lia.
Qed.

(** Reading a run of digits never fails once a digit has been read. *)
Lemma digits_acc_all_digits (s : string) (b : bool) (acc : Z) :
  Py.all_digits s = true → 0 ≤ acc → (s ≠ "" ∨ b = true) →
  ∃ n, Py.digits_acc b acc s = Some n ∧ 0 ≤ n.
Proof.
  revert b acc. induction s as [|c s IH]; intros b acc Hs Hacc Hne.
  - destruct Hne as [? | ->]; [done |]. exists acc. done.
  - cbn [Py.all_digits] in Hs. apply andb_true_iff in Hs as [Hc Hs].
    apply bool_decide_eq_true in Hc as [d Hd]. cbn [Py.digits_acc]. rewrite Hd.
    pose proof (digit_range c d Hd).
    apply IH; [done | lia | by right].
Qed.

(** A sign is not a digit, so an unsigned numeral is read as it stands. *)
Lemma int_unsigned (c : ascii) (s : string) :
  is_Some (Py.digit c) → PyFacts.no_blank (String c s) = true →
  Py.int (String c s) = Py.digits_acc false 0 (String c s).
Proof.
  intros [d Hd] Hs. unfold Py.int. rewrite (strip_no_blank _ Hs).
  destruct c as [[] [] [] [] [] [] [] []]; try reflexivity;
    vm_compute in Hd; discriminate.
Qed.

Lemma digit_pretty_N_char (d : N) :
  (d < 10)%N → Py.digit (pretty_N_char d) = Some (Z.of_N d).
Proof.
  intros Hd.
  assert (d = 0 ∨ d = 1 ∨ d = 2 ∨ d = 3 ∨ d = 4 ∨ d = 5 ∨ d = 6 ∨ d = 7 ∨ d = 8 ∨ d = 9)%N
    as Hcases by lia.
  repeat (destruct Hcases as [-> | Hcases]; [reflexivity |]). by subst.
Qed.

Lemma pretty_N_go_all_digits (x : N) (s : string) :
  Py.all_digits s = true → Py.all_digits (pretty_N_go x s) = true.
Proof.
  revert s. induction (N.lt_wf_0 x) as [x _ IH]; intros s Hs.
  assert (x = 0 ∨ 0 < x)%N as [-> | Hpos] by lia; [by rewrite pretty_N_go_0 |].
  rewrite pretty_N_go_step by done. apply IH; [by apply N.div_lt |].
  cbn [Py.all_digits]. rewrite Hs, andb_true_r. apply bool_decide_eq_true.
  rewrite digit_pretty_N_char by (by apply N.mod_lt). eauto.
Qed.

Lemma pretty_N_go_nonempty (x : N) (s : string) : s ≠ "" → pretty_N_go x s ≠ "".
Proof.
  revert s. induction (N.lt_wf_0 x) as [x _ IH]; intros s Hs.
  assert (x = 0 ∨ 0 < x)%N as [-> | Hpos] by lia; [by rewrite pretty_N_go_0 |].
  rewrite pretty_N_go_step by done. apply IH; [by apply N.div_lt | done].
Qed.

(** Reading the numeral of [x] from 0 is reading on from [x]. *)
Lemma digits_acc_pretty_N_go (x : N) (s : string) (b : bool) :
  (0 < x)%N →
  Py.digits_acc b 0 (pretty_N_go x s) = Py.digits_acc true (Z.of_N x) s.
Proof.
  revert s b. induction (N.lt_wf_0 x) as [x _ IH]; intros s b Hpos.
  rewrite pretty_N_go_step by done.
  assert (Hchar : Py.digit (pretty_N_char (x `mod` 10)) = Some (Z.of_N (x `mod` 10)))
    by (apply digit_pretty_N_char; by apply N.mod_lt).
  pose proof (N.div_mod x 10 ltac:(done)) as Hx.
  destruct (N.eq_0_gt_0_cases (x `div` 10)) as [Hsmall | Hbig].
  - rewrite Hsmall, pretty_N_go_0. cbn [Py.digits_acc]. rewrite Hchar.
    f_equal. rewrite Hsmall in Hx. lia.
  - rewrite IH by (done || by apply N.div_lt).
    cbn [Py.digits_acc]. rewrite Hchar. f_equal.
    generalize dependent (x `div` 10)%N. generalize dependent (x `mod` 10)%N.
    intros. lia.
Qed.

Lemma pretty_positive_digits (p : positive) :
  Py.all_digits (pretty p) = true
  ∧ pretty p ≠ ""
  ∧ Py.digits_acc false 0 (pretty p) = Some (Z.pos p).
Proof.
  unfold pretty, pretty_positive, pretty, pretty_N.
  rewrite decide_False by done. split; [| split].
  - by apply pretty_N_go_all_digits.
  - rewrite pretty_N_go_step by done. by apply pretty_N_go_nonempty.
  - rewrite digits_acc_pretty_N_go by done. reflexivity.
Qed.

Lemma isdigit_all_digits (s : string) :
  Py.isdigit s = true ↔ s ≠ "" ∧ Py.all_digits s = true.
Proof.
  destruct s as [|c s]; cbn [Py.isdigit]; split; try done; by intros [? ?].
Qed.

Lemma int_of_digits (s : string) :
  Py.isdigit s = true → Py.int s = Py.digits_acc false 0 s.
Proof.
  intros [Hne Hs]%isdigit_all_digits. destruct s as [|c s]; [done |].
  apply int_unsigned; [| by apply all_digits_no_blank].
  cbn [Py.all_digits] in Hs. apply andb_true_iff in Hs as [Hc _].
  by apply bool_decide_eq_true in Hc.
Qed.

Lemma first_arg_of_digits (token : string) (b : Bot) :
  Py.isdigit token = true →
  ∃ n, first_arg token b = mkResult (Done (AInt n)) b [] [].
Proof.
  intros Hdigit. pose proof Hdigit as [Hne Hs]%isdigit_all_digits.
  destruct (digits_acc_all_digits token false 0 Hs) as (n & Hn & Hpos);
    [lia | by left |].
  exists n. unfold first_arg. by rewrite Hdigit, (int_of_digits token Hdigit), Hn.
Qed.

(** X1. A first token made of the decimal digits 0 to 9 is always
    converted: [int] does not raise on it, the value is not negative, and
    [args[0]] becomes that integer. *)
Theorem digit_token_is_converted (token : string) (b : Bot) :
  Py.isdigit token = true →
  ∃ n, 0 ≤ n ∧ Py.int token = Some n
       ∧ first_arg token b = mkResult (Done (AInt n)) b [] [].
Proof.
  intros Hdigit. pose proof Hdigit as [Hne Hs]%isdigit_all_digits.
  destruct (digits_acc_all_digits token false 0 Hs) as (n & Hn & Hpos);
    [lia | by left |].
  exists n. unfold first_arg. rewrite Hdigit, (int_of_digits token Hdigit), Hn. done.
Qed.

Lemma digit_token_is_converted_witness :
  ∃ n, 0 ≤ n ∧ Py.int "00111" = Some n
       ∧ first_arg "00111" (Demo.ready_bot ∅) = mkResult (Done (AInt n)) (Demo.ready_bot ∅) [] [].
Proof. apply digit_token_is_converted. reflexivity. Defined.

(** X2. The decimal text of an integer, as the relay post and the [m]
    command print a user id, is read back by [int] as that integer; for a
    non-negative one the text is all digits, so that as a first token it
    addresses that user. *)
Theorem int_reads_back_str (n : Z) :
  Py.int (Py.str n) = Some n
  ∧ Py.isdigit (Py.str (Z.abs n)) = true
  ∧ ∀ b, first_arg (Py.str (Z.abs n)) b = mkResult (Done (AInt (Z.abs n))) b [] [].
Proof.
  assert (Hnonneg : ∀ m, 0 ≤ m →
            Py.isdigit (Py.str m) = true ∧ Py.int (Py.str m) = Some m).
  { intros [|p|p] Hm; [done | | lia].
    destruct (pretty_positive_digits p) as (Hall & Hne & Hread).
    assert (Hdigit : Py.isdigit (Py.str (Z.pos p)) = true)
      by (by apply isdigit_all_digits).
    split; [done |]. by rewrite (int_of_digits _ Hdigit). }
  split; [| split].
  - destruct n as [|p|p]; [done | by apply Hnonneg |].
    destruct (pretty_positive_digits p) as (Hall & Hne & Hread).
    unfold Py.int, Py.str, pretty, pretty_Z.
    rewrite strip_no_blank.
    + change ("-" +:+ pretty p) with (String "-" (pretty p)). cbv iota beta.
      change (pretty p) with (pretty_positive p) in *. by rewrite Hread.
    + change ("-" +:+ pretty p) with (String "-" (pretty p)).
      cbn [PyFacts.no_blank]. by rewrite (all_digits_no_blank _ Hall).
  - apply Hnonneg. lia.
  - intros b. unfold first_arg.
    destruct (Hnonneg (Z.abs n)) as [-> ->]; [lia | done].
Qed.

(** What [lstrip] leaves starts with a character that is not a blank, and
    [lstrip] leaves such a text alone. *)
Lemma lstrip_head (s : string) (c : ascii) (t : string) :
  Py.lstrip s = String c t → Py.isspace c = false.
Proof.
  induction s as [|c' s IH]; [done |]. cbn [Py.lstrip].
  destruct (Py.isspace c') eqn:Hc'; [exact IH |]. by intros [= <- _].
Qed.

Lemma lstrip_fixed (c : ascii) (t : string) :
  Py.isspace c = false → Py.lstrip (String c t) = String c t.
Proof. intros Hc. cbn [Py.lstrip]. by rewrite Hc. Qed.

Lemma split1_nonempty (c : ascii) (t : string) :
  Py.isspace c = false → Py.split1 (String c t) ≠ [].
Proof.
  intros Hc. unfold Py.split1. rewrite (lstrip_fixed c t Hc).
  destruct (Py.span_word (String c t)) as [w r].
  by destruct (Py.lstrip r).
Qed.

Lemma split1_rest (s token params : string) :
  Py.split1 s = [token; params] →
  ∃ c t, params = String c t ∧ Py.isspace c = false.
Proof.
  unfold Py.split1. destruct (Py.lstrip s) as [|c0 t0]; [done |].
  destruct (Py.span_word (String c0 t0)) as [w r].
  destruct (Py.lstrip r) as [|c t] eqn:Hr; [done |].
  intros [= _ <-]. exists c, t. split; [done |]. by eapply lstrip_head.
Qed.

(** X3. The rest-of-line that [split(maxsplit=1)] hands to an ignore,
    qignore or unignore command always unpacks: it holds a non-blank
    character, so [user_id_str, *reason = params.split(maxsplit=1)] finds
    its first element and raises nothing. *)
Theorem ignore_params_always_unpack (s token params : string) (b : Bot) :
  Py.split1 s = [token; params] →
  ∃ user_id_str reason,
    Py.split1 params = user_id_str :: reason
    ∧ ignore_params params b = mkResult (Done (user_id_str, head reason)) b [] [].
Proof.
  intros (c & t & -> & Hc)%split1_rest.
  pose proof (split1_nonempty c t Hc) as Hne. unfold ignore_params.
  destruct (Py.split1 (String c t)) as [|user_id_str reason]; [done |].
  by exists user_id_str, reason.
Qed.

Lemma ignore_params_always_unpack_witness :
  ∃ user_id_str reason,
    Py.split1 "111   being rude " = user_id_str :: reason
    ∧ ignore_params "111   being rude " (Demo.ready_bot ∅)
      = mkResult (Done (user_id_str, head reason)) (Demo.ready_bot ∅) [] [].
Proof.
  apply (ignore_params_always_unpack "ignore 111   being rude " "ignore").
  reflexivity.
Defined.

(** ** The ignore table *)

(** X4. Ignoring a user who has no row and then removing the row is a
    round trip: in between is_ignored returns the quiet flag and reason
    given, remove_ignore reports one deleted row, the state is then the one
    before add_ignore, and a further remove_ignore reports zero rows and
    changes nothing. *)
Theorem add_then_remove_ignore (b : Bot) (user_id : Z) (reason : option string)
    (quiet : bool) :
  ignored b !! user_id = None →
  let added := final (add_ignore user_id reason quiet b) in
  let removed := remove_ignore user_id added in
  outcome (is_ignored user_id added) = Done (Some (quiet, reason))
  ∧ outcome removed = Done 1
  ∧ final removed = b
  ∧ outcome (is_ignored user_id (final removed)) = Done None
  ∧ remove_ignore user_id (final removed) = mkResult (Done 0) b [] [].
Proof.
  intros Hfresh added removed. subst added removed.
  rewrite (add_ignore_fresh _ _ _ _ Hfresh). cbn [final].
  rewrite remove_ignore_present by (cbn; rewrite lookup_insert_eq; eauto).
  cbn [outcome final is_ignored gets ignored set_ignored].
  rewrite lookup_insert_eq, delete_insert_id by done.
  assert (Hb : set_ignored (ignored b) (set_ignored (<[user_id:=(quiet, reason)]> (ignored b)) b) = b)
    by (by destruct b).
  rewrite Hb, Hfresh, (remove_ignore_absent _ _ Hfresh). done.
Qed.

Lemma add_then_remove_ignore_witness :
  let b := Demo.ready_bot {[ 7 := (true, None) ]} in
  let added := final (add_ignore 111 (Some "rude") false b) in
  let removed := remove_ignore 111 added in
  outcome (is_ignored 111 added) = Done (Some (false, Some "rude"))
  ∧ outcome removed = Done 1
  ∧ final removed = b
  ∧ outcome (is_ignored 111 (final removed)) = Done None
  ∧ remove_ignore 111 (final removed) = mkResult (Done 0) b [] [].
Proof. apply add_then_remove_ignore. reflexivity. Defined.

(** X5. add_ignore and remove_ignore for one user never touch another
    user's row, whatever they return, and change nothing but the table. *)
Theorem ignore_rows_are_independent (b : Bot) (user_id other : Z)
    (reason : option string) (quiet : bool) :
  other ≠ user_id →
  let added := final (add_ignore user_id reason quiet b) in
  let removed := final (remove_ignore user_id b) in
  ignored added !! other = ignored b !! other
  ∧ ignored removed !! other = ignored b !! other
  ∧ added = set_ignored (ignored added) b
  ∧ removed = set_ignored (ignored removed) b.
Proof.
  intros Hne added removed. subst added removed.
  destruct (ignored b !! user_id) as [row|] eqn:Hrow.
  - rewrite add_ignore_taken, remove_ignore_present by (rewrite Hrow; eauto).
    cbn [final ignored set_ignored]. rewrite lookup_delete_ne by done.
    repeat split; by destruct b.
  - rewrite (add_ignore_fresh _ _ _ _ Hrow), (remove_ignore_absent _ _ Hrow).
    cbn [final ignored set_ignored]. rewrite lookup_insert_ne by done.
    repeat split; by destruct b.
Qed.

Lemma ignore_rows_are_independent_witness :
  let b := Demo.ready_bot {[ 7 := (true, None) ]} in
  ignored (final (add_ignore 111 None false b)) !! 7 = Some (true, None)
  ∧ ignored (final (remove_ignore 111 b)) !! 7 = Some (true, None).
Proof.
  intros b.
  destruct (ignore_rows_are_independent b 111 7 None false) as (Ha & Hr & _);
    [done |].
  rewrite Ha, Hr. split; reflexivity.
Defined.

(** ** Direct messages that are relayed *)

Lemma on_message_direct P message b user_id :
  direct_from user_id message →
  already_ready b = true →
  on_message P message b = on_direct_message P message b.
Proof.
  intros (_ & Hbot & cid & Hdm) Hready. unfold on_message.
  rewrite Hbot, bind_gets, Hready, Hdm. reflexivity.
Qed.

Lemma on_direct_message_below P message b user_id ch :
  direct_from user_id message →
  channel b = Some ch →
  ignored b !! user_id = None →
  post_increment b user_id < antispam_messages (config P) →
  on_direct_message P message b =
  mkResult (Done tt) (relayed b user_id) (relay_calls P ch message)
    [SpamDecrement (antispam_seconds (config P)) user_id].
Proof.
  intros (Hid & _ & _) Hch Hign Hbelow. unfold on_direct_message, relay_calls. rewrite Hid.
  rewrite (bind_pure _ _ _ _ (is_ignored_run _ _)), Hign.
  rewrite bool_decide_eq_false_2 by (by intros [? ?]).
  rewrite count_message_run.
  destruct (Z.leb_spec (antispam_messages (config P)) (post_increment b user_id)); [lia |].
  cbv zeta.
  erewrite (bind_done (channel_send _ _)) by (by apply channel_send_run).
  rewrite bind_emit, bind_modify.
  cbn [outcome final trace tasks app suspend_then].
  rewrite resolve_author_id, Hid. reflexivity.
Qed.

Lemma on_direct_message_trip P message b user_id ch :
  direct_from user_id message →
  channel b = Some ch →
  ignored b !! user_id = None →
  antispam_messages (config P) ≤ post_increment b user_id →
  on_direct_message P message b =
  mkResult (Done tt)
    (set_anti_spam_check (<[user_id := 0]> (anti_spam_check b))
       (set_ignored (<[user_id := (false, Some auto_ignore_reason)]> (ignored b)) b))
    [ChannelSend ch (auto_ignored_notice P (author_user (author message))) None]
    [].
Proof.
  intros (Hid & _ & _) Hch Hign Htrip. unfold on_direct_message. rewrite Hid.
  rewrite (bind_pure _ _ _ _ (is_ignored_run _ _)), Hign.
  rewrite bool_decide_eq_false_2 by (by intros [? ?]).
  rewrite count_message_run.
  destruct (Z.leb_spec (antispam_messages (config P)) (post_increment b user_id)); [| lia].
  erewrite (bind_done (add_ignore _ _ _)) by (apply add_ignore_fresh; exact Hign).
  cbn [outcome final trace tasks app].
  erewrite (bind_done (channel_send _ _)) by (by apply channel_send_run).
  unfold spam_set, modify.
  cbn [outcome final trace tasks app anti_spam_check set_ignored set_anti_spam_check ignored].
  rewrite insert_insert_eq. reflexivity.
Qed.

(** ** C5: the size limit, in staff replies and in the relay of direct messages *)

(** C5. The size limit is applied to staff replies, and only there.
    In a staff reply to a member who is found and is not a bot:
    - when no attachment is larger than [SIZE_LIMIT], one of exactly
      [SIZE_LIMIT] bytes gets a warning line only, handle_attachments
      returns every attachment staged in order, and the direct message is
      sent with all of them when the member accepts it;
    - when some attachment has [SIZE_LIMIT + 1] bytes, handle_attachments
      raises [ValueError] after posting the error, and the only outbound
      call of handle_staff_reply is that post: nothing is downloaded and no
      direct message is sent, for any attachment of the message.
    The relay of a direct message to the staff channel never looks at a
    size: whatever its attachments are, the message is posted with them
    listed in the embed, acknowledged with the reaction and counted. *)
Theorem attachment_limit_is_inclusive (P : Platform) (b : Bot) (ch : Z) :
  channel b = Some ch →
  (∀ message user_id text g member,
     guild message = Some g →
     get_member g user_id = Some member →
     bot (user member) = false →
     (Forall (λ a, size a ≤ SIZE_LIMIT) (attachments message) →
        (∀ a, a ∈ attachments message → size a = SIZE_LIMIT →
              very_close_line P a ∈ (check_sizes P (attachments message)).2)
        ∧ handle_attachments P message b =
          mkResult (Done (map to_file (attachments message), staged_progress message)) b
            (staging_trace P ch message) []
        ∧ (accepts_dm member = true →
           ∃ rest,
             trace (handle_staff_reply P message user_id text b) =
             (staging_trace P ch message ++ sending_edit message
              ++ DirectSend (id (user member)) (reply_text P message text)
                   (map to_file (attachments message)) :: rest)%list))
     ∧ (Exists (λ a, size a = SIZE_LIMIT + 1) (attachments message) →
        handle_attachments P message b =
          mkResult (Raised ValueError) b [error_post P message] []
        ∧ handle_staff_reply P message user_id text b =
          mkResult (Done tt) b [error_post P message] []))
  ∧ (∀ message user_id,
       direct_from user_id message →
       already_ready b = true →
       ignored b !! user_id = None →
       post_increment b user_id < antispam_messages (config P) →
       on_message P message b =
       mkResult (Done tt) (relayed b user_id) (relay_calls P ch message)
         [SpamDecrement (antispam_seconds (config P)) user_id]).
Proof.
  intros Hch. split.
  - intros message user_id text g member Hguild Hmember Hhuman. split.
    + intros Hall. split; [| split].
      * intros a Hin Ha. by apply check_sizes_warns.
      * by apply handle_attachments_within.
      * intros Hdm. by eapply staff_reply_delivered.
    + intros Hex.
      assert (Hbig : Exists (λ a, SIZE_LIMIT < size a) (attachments message))
        by (eapply Exists_impl; [exact Hex | simpl; intros; lia]).
      split; [by apply handle_attachments_beyond | by eapply staff_reply_beyond].
  - intros message user_id Hfrom Hready Hign Hbelow.
    rewrite (on_message_direct _ _ _ _ Hfrom Hready).
    by apply on_direct_message_below.
Qed.

Lemma attachment_limit_is_inclusive_witness :
  let small := {| filename := "a.txt"; url := "https://cdn/a.txt"; size := 100 |} in
  let exact := {| filename := "b.bin"; url := "https://cdn/b.bin"; size := 0x800000 |} in
  let over := {| filename := "c.bin"; url := "https://cdn/c.bin"; size := 0x800001 |} in
  let huge := {| filename := "d.iso"; url := "https://cdn/d.iso"; size := 0x4000000 |} in
  let inbound := {| message_id := 5; author := AUser Demo.alice; channel_of := DMChannel 50;
                    content := "two files"; attachments := [small; huge]; guild := None |} in
  let P := Demo.platform true in
  let b := Demo.ready_bot ∅ in
  outcome (handle_attachments P (Demo.cmd 7001 "?111 see this" [small; exact]) b)
  = Done ([to_file small; to_file exact], Some Progress)
  ∧ trace (handle_staff_reply P (Demo.cmd 7002 "?111 see this" [small; over]) 111 "see this" b)
    = [ChannelSend 1
         ("`c.bin` is too large to send in a direct message." ++ Py.nl
          ++ "Limit: 8388608 bytes (8.00 MiB)" ++ Py.nl
          ++ "Recommended Maximum: 8386560 bytes (8.00 MiB)") None]
  ∧ trace (on_message P inbound b)
    = [ChannelSend 1 "111"
         (Some {| color := 7274751; description := "two files";
                  embed_author := Some ("Al (alice)", "https://cdn/0.png");
                  fields := [("Attachments",
                              BULLET ++ " [a.txt](https://cdn/a.txt) (100 bytes)" ++ Py.nl
                              ++ BULLET ++ " [d.iso](https://cdn/d.iso) (67108864 bytes)")] |});
       AddReaction 5 WHITE_HEAVY_CHECK_MARK].
Proof.
  intros small exact over huge inbound P b.
  destruct (attachment_limit_is_inclusive P b 1 eq_refl) as [Hstaff Hdirect].
  split; [| split].
  - destruct (Hstaff (Demo.cmd 7001 "?111 see this" [small; exact]) 111 "see this"
                (Demo.home false) (Demo.alice_member false) eq_refl eq_refl eq_refl)
      as [Hin _].
    destruct Hin as (_ & Hrun & _).
    + repeat constructor; vm_compute; discriminate.
    + rewrite Hrun. reflexivity.
  - destruct (Hstaff (Demo.cmd 7002 "?111 see this" [small; over]) 111 "see this"
                (Demo.home false) (Demo.alice_member false) eq_refl eq_refl eq_refl)
      as [_ Hout].
    destruct Hout as (_ & Hrun).
    + apply Exists_cons_tl, Exists_cons_hd. reflexivity.
    + rewrite Hrun. reflexivity.
  - rewrite (Hdirect inbound 111).
    + vm_compute. reflexivity.
    + split; [reflexivity | split; [reflexivity | by exists 50]].
    + reflexivity.
    + reflexivity.
    + reflexivity.
Defined.

(** C5 as stated fails for the relay of direct messages: one that carries
    an attachment of [SIZE_LIMIT + 1] bytes is posted on the staff channel
    with the attachment listed, acknowledged and counted; no error is
    posted and nothing is aborted. *)
Lemma oversized_attachment_is_relayed :
  let over := {| filename := "c.bin"; url := "https://cdn/c.bin"; size := 0x800001 |} in
  let inbound := {| message_id := 4; author := AUser Demo.alice; channel_of := DMChannel 50;
                    content := "see attached"; attachments := [over]; guild := None |} in
  let r := on_message (Demo.platform true) inbound (Demo.ready_bot ∅) in
  Exists (λ a, size a = SIZE_LIMIT + 1) (attachments inbound)
  ∧ outcome r = Done tt
  ∧ trace r
    = [ChannelSend 1 "111"
         (Some {| color := 7274751; description := "see attached";
                  embed_author := Some ("Al (alice)", "https://cdn/0.png");
                  fields := [("Attachments",
                              BULLET ++ " [c.bin](https://cdn/c.bin) (8388609 bytes)")] |});
       AddReaction 4 WHITE_HEAVY_CHECK_MARK]
  ∧ last_id (final r) = Some 111
  ∧ tasks r = [SpamDecrement 10 111].
Proof.
  intros over inbound r. subst r.
  split; [apply Exists_cons_hd; reflexivity |].
  vm_compute. repeat split; reflexivity.
Qed.

(** ** The relay in full *)

(** X6. A direct message from a user who is not a bot and not ignored,
    received by a ready client while the post-increment count is below
    [messages], is relayed: one post on the staff channel whose text is the
    user id and whose embed carries the message, then the check-mark
    reaction on the message; [last_id] becomes the user id, the counter is
    the post-increment count, the table is untouched and one decrement is
    scheduled after [seconds]. *)
Theorem direct_message_is_relayed (P : Platform) (message : Message) (b : Bot)
    (user_id ch : Z) :
  direct_from user_id message →
  already_ready b = true →
  channel b = Some ch →
  outcome (is_ignored user_id b) = Done None →
  post_increment b user_id < antispam_messages (config P) →
  on_message P message b =
  mkResult (Done tt) (relayed b user_id) (relay_calls P ch message)
    [SpamDecrement (antispam_seconds (config P)) user_id].
Proof.
  intros Hfrom Hready Hch Hign Hbelow.
  rewrite is_ignored_run in Hign. injection Hign as Hign.
  rewrite (on_message_direct _ _ _ _ Hfrom Hready).
  by apply on_direct_message_below.
Qed.

Lemma direct_message_is_relayed_witness :
  let r := on_message (Demo.platform true) (Demo.dm 1000 "hello") (Demo.ready_bot ∅) in
  trace r =
    [ChannelSend 1 "111"
       (Some {| color := 111 * 65536 + 255; description := "hello";
                embed_author := Some ("Al (alice)", "https://cdn/0.png");
                fields := [] |});
     AddReaction 1000 WHITE_HEAVY_CHECK_MARK]
  ∧ last_id (final r) = Some 111
  ∧ anti_spam_check (final r) !! 111 = Some 1
  ∧ tasks r = [SpamDecrement 10 111].
Proof.
  intros r. subst r.
  rewrite (direct_message_is_relayed (Demo.platform true) (Demo.dm 1000 "hello")
             (Demo.ready_bot ∅) 111 1).
  - vm_compute. repeat split; reflexivity.
  - repeat split. by exists 50.
  - reflexivity.
  - reflexivity.
  - reflexivity.
  - vm_compute. reflexivity.
Defined.

(** X7. The decrement scheduled by a relayed direct message undoes its
    increment: once it has run, and if nothing else touched the counter in
    between, the user's counter is back at the value before the message
    (0 if the user had none), and nothing else of the state has changed
    since the relay. *)
Theorem relay_then_decrement (P : Platform) (message : Message) (b : Bot)
    (user_id ch : Z) :
  direct_from user_id message →
  already_ready b = true →
  channel b = Some ch →
  ignored b !! user_id = None →
  post_increment b user_id < antispam_messages (config P) →
  let r := on_message P message b in
  ∃ t, tasks r = [t]
       ∧ resume t (final r) =
         mkResult (Done tt)
           (set_anti_spam_check (<[user_id := counter b user_id]> (anti_spam_check b))
              (set_last_id (Some user_id) b))
           [] [].
Proof.
  intros Hfrom Hready Hch Hign Hbelow r. subst r.
  rewrite (on_message_direct _ _ _ _ Hfrom Hready).
  rewrite (on_direct_message_below _ _ _ _ _ Hfrom Hch Hign Hbelow).
  eexists. split; [reflexivity |]. cbn [final resume].
  rewrite (bind_pure _ _ _ (post_increment b user_id))
    by (apply spam_get_run; cbn; apply lookup_insert_eq).
  unfold spam_set, modify, relayed, post_increment, counter.
  cbn [anti_spam_check set_anti_spam_check set_last_id].
  rewrite insert_insert_eq.
  replace (default 0 (anti_spam_check b !! user_id) + 1 - 1)
    with (default 0 (anti_spam_check b !! user_id)) by lia.
  reflexivity.
Qed.

Lemma relay_then_decrement_witness :
  let r := on_message (Demo.platform true) (Demo.dm 1000 "hello") (Demo.ready_bot ∅) in
  ∃ t, tasks r = [t]
       ∧ anti_spam_check (final (resume t (final r))) !! 111 = Some 0.
Proof.
  intros r. subst r.
  destruct (relay_then_decrement (Demo.platform true) (Demo.dm 1000 "hello")
              (Demo.ready_bot ∅) 111 1) as (t & Ht & Hrun).
  - repeat split. by exists 50.
  - reflexivity.
  - reflexivity.
  - reflexivity.
  - vm_compute. reflexivity.
  - exists t. split; [exact Ht |]. rewrite Hrun. reflexivity.
Defined.

(** ** A burst of direct messages *)

Lemma run_app P evs1 evs2 s :
  run P (evs1 ++ evs2) s =
  ((run P evs2 (run P evs1 s).1).1,
   ((run P evs1 s).2 ++ (run P evs2 (run P evs1 s).1).2)%list).
Proof.
  revert s. induction evs1 as [|ev evs1 IH]; intros s.
  - cbn [app run fst snd]. by destruct (run P evs2 s).
  - cbn [app run]. destruct (step P ev s) as [s1 out1]. rewrite IH.
    destruct (run P evs1 s1) as [s2 out2]. cbn [fst snd].
    destruct (run P evs2 s2) as [s3 out3]. cbn [fst snd]. by rewrite app_assoc.
Qed.

Lemma counter_relayed b user_id :
  counter (relayed b user_id) user_id = counter b user_id + 1.
Proof.
  unfold relayed, counter, post_increment.
  cbn [anti_spam_check set_last_id set_anti_spam_check]. by rewrite lookup_insert_eq.
Qed.

(** Messages of one user that stay below the threshold are all relayed. *)
Lemma burst_relayed P user_id ch ms s :
  already_ready (client s) = true →
  channel (client s) = Some ch →
  ignored (client s) !! user_id = None →
  Forall (direct_from user_id) ms →
  counter (client s) user_id + Z.of_nat (length ms) < antispam_messages (config P) →
  let r := run P (map MessageCreate ms) s in
  already_ready (client r.1) = true
  ∧ channel (client r.1) = Some ch
  ∧ ignored (client r.1) = ignored (client s)
  ∧ counter (client r.1) user_id = counter (client s) user_id + Z.of_nat (length ms)
  ∧ r.2 = concat (map (relay_calls P ch) ms).
Proof.
  revert s. induction ms as [|m ms IH]; intros s Hready Hch Hign Hall Hbelow r; subst r.
  - cbn [map run fst snd length concat]. repeat split; try done. lia.
  - apply Forall_cons in Hall as [Hm Hall]. cbn [length] in Hbelow.
    cbn [map run step].
    rewrite (on_message_direct _ _ _ _ Hm Hready).
    rewrite (on_direct_message_below _ _ _ _ ch Hm Hch Hign)
      by (unfold post_increment, counter in *; lia).
    cbn [final trace tasks].
    set (s1 := {| client := relayed (client s) user_id; suspended := _ |}).
    destruct (IH s1) as (Hr & Hc & Hi & Hn & Hout); try done.
    { cbn [s1 client]. rewrite counter_relayed. lia. }
    destruct (run P (map MessageCreate ms) s1) as [s2 out2]. cbn [fst snd] in *.
    repeat split; try done.
    + rewrite Hn. cbn [s1 client length]. rewrite counter_relayed. lia.
    + by rewrite Hout.
Qed.

(** X8. Starting from a ready client where a user (not a bot, not
    ignored) has no count, a burst of [messages] direct messages from that
    user with no decrement in between is handled as follows: every message
    but the last is relayed, the last one is answered with the auto-ignore
    notice alone, and afterwards the user has the automatic ignore row and
    a counter of 0. *)
Theorem burst_trips_on_last_message (P : Platform) (s : System) (ms : list Message)
    (m : Message) (user_id ch : Z) :
  already_ready (client s) = true →
  channel (client s) = Some ch →
  ignored (client s) !! user_id = None →
  anti_spam_check (client s) !! user_id = None →
  Forall (direct_from user_id) (ms ++ [m]) →
  Z.of_nat (length (ms ++ [m])) = antispam_messages (config P) →
  let r := run P (map MessageCreate (ms ++ [m])) s in
  r.2 = (concat (map (relay_calls P ch) ms)
         ++ [ChannelSend ch (auto_ignored_notice P (author_user (author m))) None])%list
  ∧ ignored (client r.1) !! user_id = Some (false, Some "Automatic anti-spam ignore")
  ∧ anti_spam_check (client r.1) !! user_id = Some 0.
Proof.
  intros Hready Hch Hign Hcount Hall Hlen r. subst r.
  apply Forall_app in Hall as [Hms Hm]. apply Forall_cons in Hm as [Hm _].
  rewrite length_app in Hlen. cbn [length] in Hlen.
  assert (Hzero : counter (client s) user_id = 0) by (unfold counter; by rewrite Hcount).
  rewrite map_app, run_app.
  destruct (burst_relayed P user_id ch ms s) as (Hr & Hc & Hi & Hn & Hout); try done.
  { lia. }
  destruct (run P (map MessageCreate ms) s) as [s1 out1]. cbn [fst snd] in *.
  cbn [map run step].
  rewrite (on_message_direct _ _ _ _ Hm Hr).
  rewrite (on_direct_message_trip _ _ _ _ ch Hm Hc)
    by (rewrite ?Hi; try done; unfold post_increment, counter in *; lia).
  cbn [fst snd final trace client ignored anti_spam_check set_ignored set_anti_spam_check].
  rewrite !lookup_insert_eq, app_nil_r, Hout. done.
Qed.

Lemma burst_trips_on_last_message_witness :
  let P := Demo.platform true in
  let s := {| client := Demo.ready_bot ∅; suspended := [] |} in
  let r := run P (map MessageCreate ([Demo.dm 1000 "hello"] ++ [Demo.dm 1001 "again"])) s in
  r.2 = (concat (map (relay_calls P 1) [Demo.dm 1000 "hello"])
         ++ [ChannelSend 1 (auto_ignored_notice P Demo.alice) None])%list
  ∧ ignored (client r.1) !! 111 = Some (false, Some "Automatic anti-spam ignore")
  ∧ anti_spam_check (client r.1) !! 111 = Some 0.
Proof.
  intros P s.
  apply (burst_trips_on_last_message P s [Demo.dm 1000 "hello"] (Demo.dm 1001 "again") 111 1).
  - reflexivity.
  - reflexivity.
  - reflexivity.
  - reflexivity.
  - repeat constructor; by exists 50.
  - reflexivity.
Defined.

(** ** Commands in the staff channel *)

Lemma on_message_command P message b ch token rest :
  already_ready b = true →
  channel b = Some ch →
  staff_command b ch message token rest →
  on_message P message b =
  bind (first_arg token) (λ first,
    bind (dispatch P message first rest) (λ flow,
      match flow with
      | Return => ret tt
      | Next => suspend_then (DuplicateReset 2 first)
      end)) b.
Proof.
  intros Hready Hch (Hbot & Hchan & Hstart & Hsplit).
  rewrite (on_message_in_channel _ _ _ _ Hbot Hready Hch Hchan).
  unfold on_channel_message. rewrite bind_gets, Hstart, Hsplit. reflexivity.
Qed.

Lemma on_message_word P message b ch token rest :
  already_ready b = true →
  channel b = Some ch →
  staff_command b ch message token rest →
  Py.isdigit token = false →
  on_message P message b =
  bind (dispatch P message (AStr token) rest) (λ flow,
    match flow with
    | Return => ret tt
    | Next => suspend_then (DuplicateReset 2 (AStr token))
    end) b.
Proof.
  intros Hready Hch Hcmd Hword.
  rewrite (on_message_command _ _ _ _ _ _ Hready Hch Hcmd).
  unfold first_arg. rewrite Hword. by rewrite bind_ret.
Qed.

Lemma dispatch_m P message rest :
  dispatch P message (AStr "m") rest =
  bind (gets last_id) (λ last,
    if truthy_int last then
      bind (channel_send (Py.str (default 0 last) ++ " <@!" ++ Py.str (default 0 last) ++ ">")
              None)
           (λ _, ret Next)
    else bind (channel_send no_last_message None) (λ _, ret Return)).
Proof. reflexivity. Qed.

(** X9. [r] or [m] in the staff channel while no direct message has been
    relayed in this session ([last_id] is unset): the handler posts "There
    is no last message in the current session." and returns; nothing is
    sent to any user, the state is unchanged and no flag reset is
    scheduled. *)
Theorem reply_without_last_message (P : Platform) (message : Message) (b : Bot)
    (ch : Z) (token : string) (rest : list string) :
  already_ready b = true →
  channel b = Some ch →
  staff_command b ch message token rest →
  token = "r" ∨ token = "m" →
  truthy_int (last_id b) = false →
  on_message P message b =
  mkResult (Done tt) b [ChannelSend ch no_last_message None] [].
Proof.
  intros Hready Hch Hcmd Htoken Hlast.
  rewrite (on_message_word _ _ _ _ _ _ Hready Hch Hcmd) by (by destruct Htoken as [-> | ->]).
  destruct Htoken as [-> | ->].
  - rewrite dispatch_r, bind_assoc, bind_gets, Hlast, bind_assoc.
    erewrite (bind_done (channel_send _ _)) by (by apply channel_send_run).
    reflexivity.
  - rewrite dispatch_m, bind_assoc, bind_gets, Hlast, bind_assoc.
    erewrite (bind_done (channel_send _ _)) by (by apply channel_send_run).
    reflexivity.
Qed.

Lemma reply_without_last_message_witness :
  on_message (Demo.platform true) (Demo.cmd 7005 "?r are you there" []) (Demo.ready_bot ∅)
  = mkResult (Done tt) (Demo.ready_bot ∅)
      [ChannelSend 1 "There is no last message in the current session." None] [].
Proof.
  apply (reply_without_last_message _ _ _ 1 "r" ["are you there"]).
  - reflexivity.
  - reflexivity.
  - repeat split; reflexivity.
  - by left.
  - reflexivity.
Defined.

(** X10. [m] in the staff channel once a direct message has been relayed:
    the handler posts the last user id followed by a mention of it, changes
    nothing and sends nothing to any user. *)
Theorem m_reports_last_id (P : Platform) (message : Message) (b : Bot)
    (ch user_id : Z) (rest : list string) :
  already_ready b = true →
  channel b = Some ch →
  staff_command b ch message "m" rest →
  last_id b = Some user_id →
  user_id ≠ 0 →
  on_message P message b =
  mkResult (Done tt) b
    [ChannelSend ch (Py.str user_id ++ " <@!" ++ Py.str user_id ++ ">") None]
    [DuplicateReset 2 (AStr "m")].
Proof.
  intros Hready Hch Hcmd Hlast Hnz.
  rewrite (on_message_word _ _ _ _ _ _ Hready Hch Hcmd) by done.
  rewrite dispatch_m, bind_assoc, bind_gets, Hlast.
  cbn [truthy_int default]. apply Z.eqb_neq in Hnz. rewrite Hnz. cbn [negb].
  rewrite bind_assoc.
  erewrite (bind_done (channel_send _ _)) by (by apply channel_send_run).
  reflexivity.
Qed.

Lemma m_reports_last_id_witness :
  on_message (Demo.platform true) (Demo.cmd 7006 "?m" [])
    (set_last_id (Some 111) (Demo.ready_bot ∅))
  = mkResult (Done tt) (set_last_id (Some 111) (Demo.ready_bot ∅))
      [ChannelSend 1 "111 <@!111>" None] [DuplicateReset 2 (AStr "m")].
Proof.
  apply (m_reports_last_id _ _ _ 1 111 []).
  - reflexivity.
  - reflexivity.
  - repeat split; reflexivity.
  - reflexivity.
  - done.
Defined.

Lemma dispatch_missing_id P message cmd :
  cmd ∈ ["ignore"; "qignore"; "unignore"] →
  dispatch P message (AStr cmd) [] =
  bind (channel_send "Did you forget to enter an ID?" None) (λ _, ret Next).
Proof.
  intros Hcmd. unfold dispatch. by rewrite bool_decide_eq_true_2.
Qed.

(** X11. [ignore], [qignore] or [unignore] with nothing after the command
    word: the handler posts "Did you forget to enter an ID?"; the table and
    the rest of the state are unchanged and nothing is sent to any user. *)
Theorem ignore_without_id (P : Platform) (message : Message) (b : Bot)
    (ch : Z) (cmd : string) :
  already_ready b = true →
  channel b = Some ch →
  staff_command b ch message cmd [] →
  cmd ∈ ["ignore"; "qignore"; "unignore"] →
  on_message P message b =
  mkResult (Done tt) b [ChannelSend ch "Did you forget to enter an ID?" None]
    [DuplicateReset 2 (AStr cmd)].
Proof.
  intros Hready Hch Hcmd Hword.
  assert (Hnot : Py.isdigit cmd = false).
  { apply elem_of_cons in Hword as [-> | Hword]; [done |].
    apply elem_of_cons in Hword as [-> | Hword]; [done |].
    apply elem_of_cons in Hword as [-> | Hword]; [done |].
    by apply elem_of_nil in Hword. }
  rewrite (on_message_word _ _ _ _ _ _ Hready Hch Hcmd Hnot).
  rewrite (dispatch_missing_id _ _ _ Hword), bind_assoc.
  erewrite (bind_done (channel_send _ _)) by (by apply channel_send_run).
  reflexivity.
Qed.

Lemma ignore_without_id_witness :
  on_message (Demo.platform true) (Demo.cmd 7007 "?unignore  " []) (Demo.ready_bot ∅)
  = mkResult (Done tt) (Demo.ready_bot ∅)
      [ChannelSend 1 "Did you forget to enter an ID?" None]
      [DuplicateReset 2 (AStr "unignore")].
Proof.
  apply (ignore_without_id _ _ _ 1 "unignore").
  - reflexivity.
  - reflexivity.
  - repeat split; reflexivity.
  - by repeat constructor.
Defined.

(** X12. A reply command (a numeric token, or [r] with [last_id] set) that
    carries neither text nor an attachment: the handler posts "Did you
    forget to enter a message?" and returns; no member is looked up,
    nothing is sent to any user, the state is unchanged and no flag reset
    is scheduled. *)
Theorem reply_with_nothing_to_send (P : Platform) (message : Message) (b : Bot)
    (ch : Z) (token : string) :
  already_ready b = true →
  channel b = Some ch →
  staff_command b ch message token [] →
  attachments message = [] →
  Py.isdigit token = true ∨ (token = "r" ∧ truthy_int (last_id b) = true) →
  on_message P message b =
  mkResult (Done tt) b [ChannelSend ch forgot_message None] [].
Proof.
  intros Hready Hch Hcmd Hatt Htoken.
  assert (Hnothing : nothing_to_send message [] = true)
    by (unfold nothing_to_send; by rewrite Hatt).
  destruct Htoken as [Hdigit | [-> Hlast]].
  - rewrite (on_message_command _ _ _ _ _ _ Hready Hch Hcmd).
    destruct (first_arg_of_digits token b Hdigit) as (n & Hrun).
    rewrite (bind_pure _ _ _ _ Hrun).
    unfold dispatch. rewrite Hnothing, bind_assoc.
    erewrite (bind_done (channel_send _ _)) by (by apply channel_send_run).
    reflexivity.
  - rewrite (on_message_word _ _ _ _ _ _ Hready Hch Hcmd) by done.
    rewrite dispatch_r, bind_assoc, bind_gets, Hlast, Hnothing, bind_assoc.
    erewrite (bind_done (channel_send _ _)) by (by apply channel_send_run).
    reflexivity.
Qed.

Lemma reply_with_nothing_to_send_witness :
  on_message (Demo.platform true) (Demo.cmd 7008 "?111" []) (Demo.ready_bot ∅)
  = mkResult (Done tt) (Demo.ready_bot ∅)
      [ChannelSend 1 "Did you forget to enter a message?" None] [].
Proof.
  apply (reply_with_nothing_to_send _ _ _ 1 "111").
  - reflexivity.
  - reflexivity.
  - repeat split; reflexivity.
  - reflexivity.
  - by left.
Defined.

Lemma dispatch_unknown P message token rest :
  token ∉ command_words →
  dispatch P message (AStr token) rest = ret Next.
Proof.
  intros Hnot. unfold dispatch.
  assert (Hne : ∀ w, w ∈ command_words → String.eqb token w = false).
  { intros w Hw. apply String.eqb_neq. by intros ->. }
  rewrite bool_decide_eq_false_2.
  2:{ intros Hin. apply Hnot. unfold command_words.
      repeat (apply elem_of_cons in Hin as [-> | Hin]; [by repeat constructor |]).
      by apply elem_of_nil in Hin. }
  cbn [andb].
  rewrite !Hne by (unfold command_words; by repeat constructor).
  reflexivity.
Qed.

(** X13. A line of ASCII text in the staff channel that starts with the
    prefix but whose first token is neither a number nor a command word is
    passed over: no outbound call, no state change; only the two-second
    flag reset is scheduled, under that token. *)
Theorem unknown_command_is_passed_over (P : Platform) (message : Message) (b : Bot)
    (ch : Z) (token : string) (rest : list string) :
  already_ready b = true →
  channel b = Some ch →
  PyFacts.isascii (content message) = true →
  staff_command b ch message token rest →
  Py.isdigit token = false →
  token ∉ command_words →
  on_message P message b =
  mkResult (Done tt) b [] [DuplicateReset 2 (AStr token)].
Proof.
  intros Hready Hch _ Hcmd Hword Hnot.
  rewrite (on_message_word _ _ _ _ _ _ Hready Hch Hcmd Hword).
  rewrite (dispatch_unknown _ _ _ _ Hnot), bind_ret. reflexivity.
Qed.

Lemma unknown_command_is_passed_over_witness :
  on_message (Demo.platform true) (Demo.cmd 7009 "?? what was that" []) (Demo.ready_bot ∅)
  = mkResult (Done tt) (Demo.ready_bot ∅) [] [DuplicateReset 2 (AStr "?")].
Proof.
  apply (unknown_command_is_passed_over _ _ _ 1 "?" ["what was that"]).
  - reflexivity.
  - reflexivity.
  - reflexivity.
  - repeat split; reflexivity.
  - reflexivity.
  - unfold command_words. intros Hin.
    repeat (apply elem_of_cons in Hin as [Heq | Hin]; [discriminate Heq |]).
    by apply elem_of_nil in Hin.
Defined.

(** X14. A message that is not a command is ignored altogether by a ready
    client: one from a channel that is neither a direct-message channel nor
    the staff channel, one in the staff channel that does not start with
    the prefix, or one that holds only blanks after the prefix.  Nothing is
    sent, nothing is scheduled, the state is unchanged. *)
Theorem non_command_is_ignored (P : Platform) (message : Message) (b : Bot) (ch : Z) :
  channel b = Some ch →
  (∀ cid, channel_of message ≠ DMChannel cid) →
  channel_of message ≠ TextChannel ch
  ∨ Py.startswith (content message) (prefix b) = false
  ∨ Py.split1 (Py.drop (String.length (prefix b)) (content message)) = [] →
  on_message P message b = mkResult (Done tt) b [] [].
Proof.
  intros Hch Hnodm Hcases. unfold on_message.
  destruct (bot (author_user (author message))); [reflexivity |].
  rewrite bind_gets. destruct (already_ready b); [| reflexivity]. cbn [negb].
  destruct (channel_of message) as [c | c | c] eqn:Hchan; [by destruct (Hnodm c) | |].
  - rewrite (bind_pure _ _ _ _ (self_channel_run _ _ Hch)).
    case_bool_decide as Heq; [| reflexivity].
    unfold on_channel_message. rewrite bind_gets.
    destruct Hcases as [Hother | [Hstart | Hsplit]]; [done | by rewrite Hstart |].
    destruct (Py.startswith _ _); [| reflexivity]. by rewrite Hsplit.
  - rewrite (bind_pure _ _ _ _ (self_channel_run _ _ Hch)).
    by rewrite bool_decide_eq_false_2.
Qed.

Lemma non_command_is_ignored_witness :
  on_message (Demo.platform true) (Demo.cmd 7010 "did anyone answer 111?" [])
    (Demo.ready_bot ∅)
  = mkResult (Done tt) (Demo.ready_bot ∅) [] [].
Proof.
  apply (non_command_is_ignored _ _ _ 1).
  - reflexivity.
  - intros cid. discriminate.
  - right. left. reflexivity.
Defined.

(** ** Staff replies: the target and the delivery *)

(** X15. A staff reply whose target is not a member of the guild, or is a
    bot, is refused before anything else happens: one post on the staff
    channel ("Failed to find member." or "You can't send messages to
    bots."), no attachment check or download, no direct message, no
    deletion, no state change. *)
Theorem reply_to_absent_or_bot (P : Platform) (message : Message) (b : Bot)
    (ch user_id : Z) (text : string) (g : Guild) :
  channel b = Some ch →
  guild message = Some g →
  (∀ member, get_member g user_id = Some member → bot (user member) = true) →
  handle_staff_reply P message user_id text b =
  mkResult (Done tt) b
    [ChannelSend ch
       (match get_member g user_id with
        | None => "Failed to find member."
        | Some _ => "You can't send messages to bots."
        end) None]
    [].
Proof.
  intros Hch Hguild Hbot. unfold handle_staff_reply. rewrite Hguild.
  destruct (get_member g user_id) as [member|]; [rewrite (Hbot member eq_refl) |];
    by apply channel_send_run.
Qed.

Lemma reply_to_absent_or_bot_witness :
  handle_staff_reply (Demo.platform true) (Demo.cmd 7011 "?222 hello" []) 222 "hello"
    (Demo.ready_bot ∅)
  = mkResult (Done tt) (Demo.ready_bot ∅) [ChannelSend 1 "Failed to find member." None] [].
Proof.
  apply (reply_to_absent_or_bot _ _ _ 1 222 "hello" (Demo.home false)).
  - reflexivity.
  - reflexivity.
  - intros member Hm. vm_compute in Hm. discriminate.
Defined.

(** X16. A staff reply to a member who is found, is not a bot and accepts
    direct messages, with no attachment beyond the limit: after the staging
    calls the direct message goes out with every attachment, then the
    confirmation is posted on the staff channel (its text ends with
    " (replies ignored)" exactly when the target has a row in the table),
    then the progress message, if any, and the staff member's command
    message are deleted.  The state is unchanged. *)
Theorem reply_is_delivered (P : Platform) (message : Message) (b : Bot)
    (ch user_id : Z) (text : string) (g : Guild) (member : Member) :
  channel b = Some ch →
  guild message = Some g →
  get_member g user_id = Some member →
  bot (user member) = false →
  accepts_dm member = true →
  Forall (λ a, size a ≤ SIZE_LIMIT) (attachments message) →
  handle_staff_reply P message user_id text b =
  mkResult (Done tt) b
    (staging_trace P ch message ++ sending_edit message
     ++ [DirectSend (id (user member)) (reply_text P message text)
           (map to_file (attachments message));
         ChannelSend ch (reply_header b message member)
           (Some (reply_embed P message user_id text))]
     ++ reply_cleanup message)
    [].
Proof.
  intros Hch Hguild Hmember Hhuman Hdm Hall.
  unfold handle_staff_reply. rewrite Hguild, Hmember, Hhuman.
  rewrite (staff_reply_staged P message b ch Hch _ Hall).
  rewrite (progress_edit_run message b).
  erewrite (bind_done (try_except _ _ _)).
  2:{ unfold try_except.
      erewrite (bind_done (member_send _ _ _ _)) by (by apply member_send_open).
      reflexivity. }
  cbn [outcome final trace tasks app].
  rewrite (bind_pure _ _ _ _ (is_ignored_run _ _)).
  erewrite (bind_done (channel_send _ _)) by (by apply channel_send_run).
  unfold reply_cleanup, reply_embed, reply_header, reply_text, staged_progress.
  destruct (attachments message) as [|a l]; reflexivity.
Qed.

Lemma reply_is_delivered_witness :
  let b := Demo.ready_bot {[ 111 := (true, None) ]} in
  let r := handle_staff_reply (Demo.platform true) (Demo.cmd_open 7012 "?111 hi there" [])
             111 "hi there" b in
  final r = b
  ∧ trace r =
    [DirectSend 111 "<@7>: hi there" [];
     ChannelSend 1 "<@7> replying to 111 <@111> (replies ignored)"
       (Some {| color := 111 * 65536 + 255; description := "hi there";
                embed_author := None; fields := [] |});
     DeleteMessage (Received 7012)].
Proof.
  intros b r. subst r.
  rewrite (reply_is_delivered (Demo.platform true) (Demo.cmd_open 7012 "?111 hi there" []) b
             1 111 "hi there" (Demo.home true) (Demo.alice_member true)).
  - split; reflexivity.
  - reflexivity.
  - reflexivity.
  - reflexivity.
  - reflexivity.
  - reflexivity.
  - constructor.
Defined.

(** ** ignore, qignore and unignore *)

Lemma ignore_notify_run P m reason b ch :
  channel b = Some ch →
  try_except
    (bind (member_send P m
             ("Your messages are being ignored by staff."
              ++ (if truthy_str reason then " Reason: " ++ default "" reason else ""))
             [])
          (λ _, ret tt))
    Forbidden
    (channel_send
       (mention (user m)
        ++ " has disabled DMs or is not in a shared server, not sending reason.")
       None) b
  = mkResult (Done tt) b (ignore_notice ch (Some m) reason) [].
Proof.
  intros Hch. unfold try_except, ignore_notice.
  destruct (accepts_dm m) eqn:Hdm.
  - erewrite (bind_done (member_send _ _ _ _)) by (by apply member_send_open).
    reflexivity.
  - erewrite (bind_raised (member_send _ _ _ _)) by (by apply member_send_refused).
    cbn [outcome final trace tasks]. rewrite bool_decide_eq_true_2 by done.
    erewrite channel_send_run by exact Hch. reflexivity.
Qed.

Lemma handle_ignore_fresh (P : Platform) (message : Message) (b : Bot)
    (user_id_str : string) (user_id ch : Z) (g : Guild)
    (reason : option string) (quiet : bool) :
  guild message = Some g →
  Py.int user_id_str = Some user_id →
  channel b = Some ch →
  ignored b !! user_id = None →
  handle_ignore P message user_id_str reason quiet b =
  mkResult (Done tt)
    (set_ignored (<[user_id := (quiet, reason)]> (ignored b)) b)
    ((if quiet then [] else ignore_notice ch (get_member g user_id) reason)
     ++ [ChannelSend ch
           (mention (author_user (author message)) ++ " " ++ Py.str user_id
            ++ " is now ignored. Messages from this user will not appear. Use `"
            ++ prefix b ++ "unignore` to reverse.")
           None])
    [].
Proof.
  intros Hguild Hint Hch Hrow.
  unfold handle_ignore. rewrite Hguild, Hint.
  erewrite (bind_done (add_ignore _ _ _)) by (by apply add_ignore_fresh).
  cbn [outcome final trace tasks app].
  set (b1 := set_ignored _ b).
  assert (Hch1 : channel b1 = Some ch) by exact Hch.
  assert (Hnotify :
    (if negb quiet
     then match get_member g user_id with
          | Some m =>
              try_except
                (bind (member_send P m
                         ("Your messages are being ignored by staff."
                          ++ (if truthy_str reason then " Reason: " ++ default "" reason
                              else ""))
                         [])
                      (λ _, ret tt))
                Forbidden
                (channel_send
                   (mention (user m)
                    ++ " has disabled DMs or is not in a shared server, not sending reason.")
                   None)
          | None => channel_send "Failed to find user with ID, not sending reason." None
          end
     else ret tt) b1
    = mkResult (Done tt) b1
        (if quiet then [] else ignore_notice ch (get_member g user_id) reason) []).
  { destruct quiet; [reflexivity |]. cbn [negb].
    destruct (get_member g user_id) as [m|];
      [by apply ignore_notify_run | by apply channel_send_run]. }
  erewrite (bind_done _ _ b1) by exact Hnotify.
  rewrite bind_gets.
  erewrite channel_send_run by exact Hch1.
  cbn [outcome final trace tasks]. rewrite app_nil_r. reflexivity.
Qed.

(** X17. An ignore or qignore command for a user who has no row: the row
    is added with the command's quiet flag and reason.  A quiet command
    makes one outbound call, the confirmation on the staff channel, and
    never writes to the user.  A command that is not quiet first tells the
    user (with the reason, when there is one) or, when the user is not
    found or refuses direct messages, posts that failure; the confirmation
    follows in every case. *)
Theorem ignore_adds_row_and_confirms (P : Platform) (message : Message) (b : Bot)
    (user_id_str : string) (user_id ch : Z) (g : Guild)
    (reason : option string) (quiet : bool) :
  guild message = Some g →
  Py.int user_id_str = Some user_id →
  channel b = Some ch →
  outcome (is_ignored user_id b) = Done None →
  handle_ignore P message user_id_str reason quiet b =
  mkResult (Done tt)
    (set_ignored (<[user_id := (quiet, reason)]> (ignored b)) b)
    ((if quiet then [] else ignore_notice ch (get_member g user_id) reason)
     ++ [ChannelSend ch
           (mention (author_user (author message)) ++ " " ++ Py.str user_id
            ++ " is now ignored. Messages from this user will not appear. Use `"
            ++ prefix b ++ "unignore` to reverse.")
           None])
    [].
Proof.
  intros Hguild Hint Hch Hrow.
  rewrite is_ignored_run in Hrow. injection Hrow as Hrow.
  by apply handle_ignore_fresh.
Qed.

Lemma ignore_adds_row_and_confirms_witness :
  let r := handle_ignore (Demo.platform true) (Demo.cmd 7013 "?qignore 111 spam" [])
             "111" (Some "spam") true (Demo.ready_bot ∅) in
  outcome (is_ignored 111 (final r)) = Done (Some (true, Some "spam"))
  ∧ trace r =
    [ChannelSend 1
       "<@7> 111 is now ignored. Messages from this user will not appear. Use `?unignore` to reverse."
       None].
Proof.
  intros r. subst r.
  rewrite (ignore_adds_row_and_confirms (Demo.platform true)
             (Demo.cmd 7013 "?qignore 111 spam" []) (Demo.ready_bot ∅)
             "111" 111 1 (Demo.home false) (Some "spam") true).
  - split; reflexivity.
  - reflexivity.
  - reflexivity.
  - reflexivity.
  - reflexivity.
Defined.

(** X18. An ignore or qignore command for a user who already has a row
    changes nothing: the row keeps its quiet flag and reason, the user is
    not written to, and the only outbound call is the "is already ignored"
    post.  Issuing the command again is therefore harmless. *)
Theorem ignore_again_changes_nothing (P : Platform) (message : Message) (b : Bot)
    (user_id_str : string) (user_id ch : Z) (g : Guild)
    (reason : option string) (quiet : bool) (row : bool * option string) :
  guild message = Some g →
  Py.int user_id_str = Some user_id →
  channel b = Some ch →
  outcome (is_ignored user_id b) = Done (Some row) →
  handle_ignore P message user_id_str reason quiet b =
  mkResult (Done tt) b
    [ChannelSend ch
       (mention (author_user (author message)) ++ " " ++ Py.str user_id
        ++ " is already ignored.") None]
    [].
Proof.
  intros Hguild Hint Hch Hrow.
  rewrite is_ignored_run in Hrow. injection Hrow as Hrow.
  unfold handle_ignore. rewrite Hguild, Hint.
  rewrite (bind_pure _ _ _ false) by (apply add_ignore_taken; rewrite Hrow; eauto).
  by apply channel_send_run.
Qed.

Lemma ignore_again_changes_nothing_witness :
  let b := Demo.ready_bot {[ 111 := (true, Some "spam") ]} in
  handle_ignore (Demo.platform true) (Demo.cmd_open 7014 "?ignore 111 rude" [])
    "111" (Some "rude") false b
  = mkResult (Done tt) b [ChannelSend 1 "<@7> 111 is already ignored." None] [].
Proof.
  intros b.
  apply (ignore_again_changes_nothing (Demo.platform true)
           (Demo.cmd_open 7014 "?ignore 111 rude" []) b "111" 111 1 (Demo.home true)
           (Some "rude") false (true, Some "spam")); reflexivity.
Defined.

(** X19. When the id given to ignore, qignore or unignore, a piece of
    ASCII text, is not an integer, the handler posts "Could not convert to
    int." and stops: no row is added or removed and nobody is written
    to. *)
Theorem id_that_is_no_integer (P : Platform) (message : Message) (b : Bot)
    (user_id_str : string) (ch : Z) (g : Guild) (reason : option string) (quiet : bool) :
  guild message = Some g →
  channel b = Some ch →
  PyFacts.isascii user_id_str = true →
  Py.int user_id_str = None →
  handle_ignore P message user_id_str reason quiet b =
    mkResult (Done tt) b [ChannelSend ch "Could not convert to int." None] []
  ∧ handle_unignore P message user_id_str b =
    mkResult (Done tt) b [ChannelSend ch "Could not convert to int." None] [].
Proof.
  intros Hguild Hch _ Hint. unfold handle_ignore, handle_unignore.
  rewrite Hguild, Hint. split; by apply channel_send_run.
Qed.

Lemma id_that_is_no_integer_witness :
  let b := Demo.ready_bot {[ 111 := (true, Some "spam") ]} in
  handle_ignore (Demo.platform true) (Demo.cmd 7015 "?ignore <@111> rude" [])
    "<@111>" (Some "rude") false b
  = mkResult (Done tt) b [ChannelSend 1 "Could not convert to int." None] []
  ∧ handle_unignore (Demo.platform true) (Demo.cmd 7015 "?unignore <@111>" []) "<@111>" b
  = mkResult (Done tt) b [ChannelSend 1 "Could not convert to int." None] [].
Proof.
  intros b. split.
  - destruct (id_that_is_no_integer (Demo.platform true)
                (Demo.cmd 7015 "?ignore <@111> rude" []) b "<@111>" 1 (Demo.home false)
                (Some "rude") false eq_refl eq_refl eq_refl eq_refl) as [Hignore _].
    exact Hignore.
  - destruct (id_that_is_no_integer (Demo.platform true)
                (Demo.cmd 7015 "?unignore <@111>" []) b "<@111>" 1 (Demo.home false)
                None false eq_refl eq_refl eq_refl eq_refl) as [_ Hunignore].
    exact Hunignore.
Defined.

(** X20. An unignore command for a user who has no row: the user is not
    written to, whether found or not; the only outbound call is the "is not
    ignored" post and the state is unchanged. *)
Theorem unignore_without_row (P : Platform) (message : Message) (b : Bot)
    (user_id_str : string) (user_id ch : Z) (g : Guild) :
  guild message = Some g →
  Py.int user_id_str = Some user_id →
  channel b = Some ch →
  outcome (is_ignored user_id b) = Done None →
  handle_unignore P message user_id_str b =
  mkResult (Done tt) b
    [ChannelSend ch
       (mention (author_user (author message)) ++ " " ++ Py.str user_id
        ++ " is not ignored.") None]
    [].
Proof.
  intros Hguild Hint Hch Hrow.
  rewrite is_ignored_run in Hrow. injection Hrow as Hrow.
  unfold handle_unignore. rewrite Hint, Hguild.
  rewrite (bind_pure _ _ _ _ (is_ignored_run _ _)), Hrow, bind_ret.
  rewrite (bind_pure _ _ _ _ (remove_ignore_absent _ _ Hrow)), bind_gets.
  by apply channel_send_run.
Qed.

Lemma unignore_without_row_witness :
  handle_unignore (Demo.platform true) (Demo.cmd_open 7016 "?unignore 111" []) "111"
    (Demo.ready_bot ∅)
  = mkResult (Done tt) (Demo.ready_bot ∅) [ChannelSend 1 "<@7> 111 is not ignored." None] [].
Proof.
  apply (unignore_without_row (Demo.platform true)
           (Demo.cmd_open 7016 "?unignore 111" []) (Demo.ready_bot ∅)
           "111" 111 1 (Demo.home true)); reflexivity.
Defined.

(** ** Commands and direct messages together *)

Lemma on_direct_message_dropped P message b row :
  ignored b !! id (author_user (author message)) = Some row →
  on_direct_message P message b = mkResult (Done tt) b [] [].
Proof.
  intros Hrow. unfold on_direct_message.
  rewrite (bind_pure _ _ _ _ (is_ignored_run _ _)), Hrow. reflexivity.
Qed.

Lemma handle_unignore_present P message b user_id_str user_id ch g is_quiet reason :
  Py.int user_id_str = Some user_id →
  guild message = Some g →
  channel b = Some ch →
  ignored b !! user_id = Some (is_quiet, reason) →
  final (handle_unignore P message user_id_str b)
  = set_ignored (delete user_id (ignored b)) b.
Proof.
  intros Hint Hguild Hch Hrow. unfold handle_unignore. rewrite Hint, Hguild.
  rewrite (bind_pure _ _ _ _ (is_ignored_run _ _)), Hrow.
  erewrite (bind_done (unignore_notify _ _ _)) by (by apply unignore_notify_run).
  cbn [outcome final trace tasks].
  erewrite (bind_done (remove_ignore _)) by (apply remove_ignore_present; by rewrite Hrow).
  cbn [outcome final trace tasks app].
  rewrite bind_gets. cbn [negb Z.eqb].
  erewrite channel_send_run by exact Hch. reflexivity.
Qed.

(** X21. Once an ignore or qignore command has added a user's row, every
    direct message from that user is dropped by on_message: no post, no
    reaction, no change of the counter or of [last_id]. *)
Theorem ignore_command_blocks_direct_messages (P : Platform) (command dm : Message)
    (b : Bot) (user_id_str : string) (user_id ch : Z) (g : Guild)
    (reason : option string) (quiet : bool) :
  guild command = Some g →
  Py.int user_id_str = Some user_id →
  channel b = Some ch →
  already_ready b = true →
  ignored b !! user_id = None →
  direct_from user_id dm →
  let b1 := final (handle_ignore P command user_id_str reason quiet b) in
  on_message P dm b1 = mkResult (Done tt) b1 [] [].
Proof.
  intros Hguild Hint Hch Hready Hrow Hfrom b1. subst b1.
  rewrite (handle_ignore_fresh _ _ _ _ _ _ _ _ _ Hguild Hint Hch Hrow). cbn [final].
  rewrite (on_message_direct _ _ _ _ Hfrom) by done.
  destruct Hfrom as (Hid & _ & _).
  apply (on_direct_message_dropped _ _ _ (quiet, reason)).
  rewrite Hid. cbn [ignored set_ignored]. apply lookup_insert_eq.
Qed.

Lemma ignore_command_blocks_direct_messages_witness :
  let b1 := final (handle_ignore (Demo.platform true) (Demo.cmd 7017 "?ignore 111" [])
                     "111" None false (Demo.ready_bot ∅)) in
  on_message (Demo.platform true) (Demo.dm 1002 "hello?") b1 = mkResult (Done tt) b1 [] [].
Proof.
  apply (ignore_command_blocks_direct_messages (Demo.platform true)
           (Demo.cmd 7017 "?ignore 111" []) (Demo.dm 1002 "hello?") (Demo.ready_bot ∅)
           "111" 111 1 (Demo.home false) None false); try reflexivity.
  repeat split. by exists 50.
Defined.

(** X22. Once an unignore command has removed a user's row, direct
    messages from that user are relayed again (while the count stays below
    [messages]), exactly as for a user who never was ignored. *)
Theorem unignore_command_reopens_relay (P : Platform) (command dm : Message)
    (b : Bot) (user_id_str : string) (user_id ch : Z) (g : Guild)
    (row : bool * option string) :
  guild command = Some g →
  Py.int user_id_str = Some user_id →
  channel b = Some ch →
  already_ready b = true →
  ignored b !! user_id = Some row →
  direct_from user_id dm →
  post_increment b user_id < antispam_messages (config P) →
  let b1 := final (handle_unignore P command user_id_str b) in
  on_message P dm b1 =
  mkResult (Done tt) (relayed b1 user_id) (relay_calls P ch dm)
    [SpamDecrement (antispam_seconds (config P)) user_id].
Proof.
  intros Hguild Hint Hch Hready Hrow Hfrom Hbelow b1. subst b1. destruct row as [q r].
  rewrite (handle_unignore_present _ _ _ _ _ _ _ _ _ Hint Hguild Hch Hrow).
  rewrite (on_message_direct _ _ _ _ Hfrom) by done.
  apply on_direct_message_below; try done.
  cbn [ignored set_ignored]. apply lookup_delete_eq.
Qed.

Lemma unignore_command_reopens_relay_witness :
  let b := Demo.ready_bot {[ 111 := (true, Some "spam") ]} in
  let b1 := final (handle_unignore (Demo.platform true) (Demo.cmd 7018 "?unignore 111" [])
                     "111" b) in
  on_message (Demo.platform true) (Demo.dm 1003 "thanks") b1 =
  mkResult (Done tt) (relayed b1 111) (relay_calls (Demo.platform true) 1 (Demo.dm 1003 "thanks"))
    [SpamDecrement 10 111].
Proof.
  intros b.
  apply (unignore_command_reopens_relay (Demo.platform true)
           (Demo.cmd 7018 "?unignore 111" []) (Demo.dm 1003 "thanks") b
           "111" 111 1 (Demo.home false) (true, Some "spam")); try reflexivity.
  repeat split. by exists 50.
Defined.

(** X23. An ignore (or qignore) command for a user without a row followed
    by an unignore command for the same user leaves the client exactly in
    the state before the two commands. *)
Theorem ignore_then_unignore_restores (P : Platform) (first second : Message)
    (b : Bot) (s1 s2 : string) (user_id ch : Z) (g1 g2 : Guild)
    (reason : option string) (quiet : bool) :
  guild first = Some g1 →
  guild second = Some g2 →
  Py.int s1 = Some user_id →
  Py.int s2 = Some user_id →
  channel b = Some ch →
  ignored b !! user_id = None →
  final (handle_unignore P second s2 (final (handle_ignore P first s1 reason quiet b))) = b.
Proof.
  intros Hg1 Hg2 Hint1 Hint2 Hch Hrow.
  rewrite (handle_ignore_fresh _ _ _ _ _ _ _ _ _ Hg1 Hint1 Hch Hrow). cbn [final].
  erewrite handle_unignore_present; [| exact Hint2 | exact Hg2 | exact Hch
                                     | cbn; apply lookup_insert_eq].
  cbn [ignored set_ignored]. rewrite delete_insert_id by done. by destruct b.
Qed.

Lemma ignore_then_unignore_restores_witness :
  final (handle_unignore (Demo.platform true) (Demo.cmd 7020 "?unignore 111" []) "111"
           (final (handle_ignore (Demo.platform true) (Demo.cmd 7019 "?ignore 111 rude" [])
                     "111" (Some "rude") false (Demo.ready_bot ∅))))
  = Demo.ready_bot ∅.
Proof.
  apply (ignore_then_unignore_restores (Demo.platform true)
           (Demo.cmd 7019 "?ignore 111 rude" []) (Demo.cmd 7020 "?unignore 111" [])
           (Demo.ready_bot ∅) "111" "111" 111 1 (Demo.home false) (Demo.home false));
    reflexivity.
Defined.

(** ** Attachments *)

(** X24. The first loop of handle_attachments sorts every attachment into
    exactly one of three classes by its size alone, keeping the order: more
    than [SIZE_LIMIT] gives an error line, more than [SIZE_LIMIT - 0x1000]
    and at most [SIZE_LIMIT] a warning line, anything smaller no line.  An
    attachment of exactly the "Recommended Maximum" that the message text
    prints, [SIZE_LIMIT - SIZE_DIFF], is in the warning class. *)
Theorem check_sizes_classifies (P : Platform) (l : list Attachment) :
  check_sizes P l =
    (map (too_large_line P) (List.filter too_large l),
     map (very_close_line P) (List.filter very_close l))
  ∧ (∀ a, too_large a = true ↔ SIZE_LIMIT < size a)
  ∧ (∀ a, very_close a = true ↔ SIZE_LIMIT - 0x1000 < size a ≤ SIZE_LIMIT)
  ∧ (∀ a, size a = SIZE_LIMIT - SIZE_DIFF → very_close a = true).
Proof.
  assert (Hclose : ∀ a, very_close a = true ↔ SIZE_LIMIT - 0x1000 < size a ≤ SIZE_LIMIT).
  { intros a. unfold very_close, too_large.
    rewrite andb_true_iff, negb_true_iff, Z.ltb_ge, Z.ltb_lt. lia. }
  split; [| split; [| split; [exact Hclose |]]];
    [| | intros a Ha; apply Hclose; rewrite Ha; unfold SIZE_LIMIT, SIZE_DIFF; lia].
  - induction l as [|a l IH]; [reflexivity |].
    cbn [check_sizes List.filter]. rewrite IH. unfold very_close, too_large.
    destruct (Z.ltb SIZE_LIMIT (size a)); [reflexivity |]. cbn [negb andb].
    by destruct (Z.ltb (SIZE_LIMIT - 4096) (size a)).
  - intros a. unfold too_large. apply Z.ltb_lt.
Qed.

Lemma saved_download_trace count idx l : saved (download_trace count idx l) = l.
Proof.
  revert idx. induction l as [|a l IH]; intros idx; [reflexivity |].
  cbn [download_trace]. unfold saved in *. cbn [omap list_omap]. by rewrite IH.
Qed.

Lemma progress_texts_download_trace count idx l :
  progress_texts (download_trace count idx l)
  = map (λ i, downloading i count) (seqZ idx (Z.of_nat (length l))).
Proof.
  revert idx. induction l as [|a l IH]; intros idx; [reflexivity |].
  cbn [download_trace length]. rewrite Nat2Z.inj_succ, seqZ_cons by lia.
  unfold progress_texts in *. cbn [omap list_omap map]. rewrite IH.
  by replace (Z.pred (Z.succ (Z.of_nat (length l)))) with (Z.of_nat (length l)) by lia.
Qed.

Lemma saved_warning_post P message : saved (warning_post P message) = [].
Proof. unfold warning_post. by destruct (check_sizes P (attachments message)).2. Qed.

Lemma progress_texts_warning_post P message : progress_texts (warning_post P message) = [].
Proof. unfold warning_post. by destruct (check_sizes P (attachments message)).2. Qed.

(** X25. When no attachment of a staff message is beyond the limit,
    handle_attachments downloads each attachment exactly once, in the
    order of the message, and hands back the files in that order under
    their original names; the progress message is edited after each
    download and counts [1/N], [2/N], ... up to [N/N]. *)
Theorem attachments_are_staged_in_order (P : Platform) (message : Message) (b : Bot)
    (ch : Z) :
  channel b = Some ch →
  Forall (λ a, size a ≤ SIZE_LIMIT) (attachments message) →
  let r := handle_attachments P message b in
  let n := Z.of_nat (length (attachments message)) in
  ∃ files progress_msg,
    outcome r = Done (files, progress_msg)
    ∧ map source files = attachments message
    ∧ map file_name files = map filename (attachments message)
    ∧ saved (trace r) = attachments message
    ∧ progress_texts (trace r) = map (λ i, downloading i n) (seqZ 1 n).
Proof.
  intros Hch Hall r n. subst r n.
  rewrite (handle_attachments_within P message b ch Hch Hall).
  eexists _, _. split; [reflexivity |]. cbn [trace].
  rewrite !map_map. cbn [to_file source file_name].
  split; [apply map_id |]. split; [reflexivity |].
  unfold staging_trace. destruct (attachments message) as [|a l] eqn:Hatt; [done |].
  unfold saved, progress_texts. rewrite !omap_app.
  fold (saved (warning_post P message)). fold (progress_texts (warning_post P message)).
  rewrite saved_warning_post, progress_texts_warning_post.
  cbn [omap list_omap app].
  fold (saved (download_trace (Z.of_nat (length (a :: l))) 1 (a :: l))).
  fold (progress_texts (download_trace (Z.of_nat (length (a :: l))) 1 (a :: l))).
  by rewrite saved_download_trace, progress_texts_download_trace.
Qed.

Lemma attachments_are_staged_in_order_witness :
  let one := {| filename := "a.txt"; url := "https://cdn/a.txt"; size := 100 |} in
  let two := {| filename := "b.bin"; url := "https://cdn/b.bin"; size := 0x7FF000 |} in
  let r := handle_attachments (Demo.platform true) (Demo.cmd 7021 "?111 files" [one; two])
             (Demo.ready_bot ∅) in
  ∃ files progress_msg,
    outcome r = Done (files, progress_msg)
    ∧ map source files = [one; two]
    ∧ map file_name files = ["a.txt"; "b.bin"]
    ∧ saved (trace r) = [one; two]
    ∧ progress_texts (trace r)
      = ["Downloading attachments... 1/2"; "Downloading attachments... 2/2"].
Proof.
  intros one two.
  apply (attachments_are_staged_in_order (Demo.platform true)
           (Demo.cmd 7021 "?111 files" [one; two]) (Demo.ready_bot ∅) 1).
  - reflexivity.
  - repeat constructor; vm_compute; discriminate.
Defined.

(** ** gen_color *)

(** X26. When the three draws are between 0 and 255, as [randint(0, 255)]
    gives them, gen_color packs them into one 24-bit colour: the value is
    between 0 and [0xFFFFFF], and its red, green and blue bytes are the
    first, second and third draw. *)
Theorem gen_color_packs_draws (P : Platform) (user_id c_r c_g c_b : Z) :
  randint3 P user_id = (c_r, c_g, c_b) →
  0 ≤ c_r ≤ 255 → 0 ≤ c_g ≤ 255 → 0 ≤ c_b ≤ 255 →
  0 ≤ gen_color P user_id ≤ 0xFFFFFF
  ∧ Z.shiftr (gen_color P user_id) 16 = c_r
  ∧ Z.land (Z.shiftr (gen_color P user_id) 8) 255 = c_g
  ∧ Z.land (gen_color P user_id) 255 = c_b.
Proof.
  intros Hdraw Hr Hg Hb. unfold gen_color. rewrite Hdraw.
  rewrite !Z.shiftl_mul_pow2 by lia.
  change (2 ^ 16) with 65536. change (2 ^ 8) with 256.
  change 255 with (Z.ones 8).
  rewrite !Z.land_ones, !Z.shiftr_div_pow2 by lia.
  change (2 ^ 16) with 65536. change (2 ^ 8) with 256.
  repeat split; try lia.
  - symmetry. apply Z.div_unique with (r := c_g * 256 + c_b); lia.
  - replace ((c_r * 65536 + c_g * 256 + c_b) `div` 256) with (c_r * 256 + c_g)
      by (apply Z.div_unique with (r := c_b); lia).
    symmetry. apply Z.mod_unique with (q := c_r); lia.
  - symmetry. apply Z.mod_unique with (q := c_r * 256 + c_g); lia.
Qed.

Lemma gen_color_packs_draws_witness :
  0 ≤ gen_color (Demo.platform true) 111 ≤ 0xFFFFFF
  ∧ Z.shiftr (gen_color (Demo.platform true) 111) 16 = 111
  ∧ Z.land (Z.shiftr (gen_color (Demo.platform true) 111) 8) 255 = 0
  ∧ Z.land (gen_color (Demo.platform true) 111) 255 = 255.
Proof.
  apply (gen_color_packs_draws (Demo.platform true) 111 111 0 255);
    [reflexivity | lia | lia | lia].
Defined.

(** ** on_ready and on_typing *)

(** X27. on_ready on a client that is not ready yet, when the configured
    channel id resolves to a text channel: [self.channel] is assigned
    first; with [post_startup_message] on, the startup message is posted
    there and the client becomes ready only when that send completes; with
    it off nothing is posted and the client is ready at once. *)
Theorem on_ready_resolves_channel (P : Platform) (b : Bot) (c : Z) :
  already_ready b = false →
  get_channel P (channel_id (config P)) = Some (TextChannel c) →
  on_ready P b =
    (if post_startup_message (config P)
     then mkResult (Done tt) (set_channel (Some c) b)
            [ChannelSend c (startup_message P) None] [FinishReady]
     else mkResult (Done tt) (set_already_ready true (set_channel (Some c) b)) [] [])
  ∧ resume FinishReady (set_channel (Some c) b)
    = mkResult (Done tt) (set_already_ready true (set_channel (Some c) b)) [] [].
Proof.
  intros Hready Hfound. split; [| reflexivity].
  unfold on_ready. rewrite bind_gets, Hready, Hfound, bind_modify.
  destruct (post_startup_message (config P)); [| reflexivity].
  erewrite (bind_done (channel_send _ _)) by (by apply channel_send_run).
  reflexivity.
Qed.

Lemma on_ready_resolves_channel_witness :
  on_ready (Demo.platform true) (setup_hook (Demo.platform true) ∅)
  = mkResult (Done tt) (set_channel (Some 1) (setup_hook (Demo.platform true) ∅))
      [ChannelSend 1 "modmail is now ready." None] [FinishReady].
Proof.
  destruct (on_ready_resolves_channel (Demo.platform true)
              (setup_hook (Demo.platform true) ∅) 1 eq_refl eq_refl) as [Hrun _].
  exact Hrun.
Defined.

(** X28. on_ready when the configured channel id resolves to nothing, or
    to a channel that is not a text channel: the client closes the
    connection and stays as it was, so it is still not ready and on_message
    keeps dropping every message. *)
Theorem on_ready_without_channel (P : Platform) (b : Bot) (message : Message) :
  already_ready b = false →
  (∀ c, get_channel P (channel_id (config P)) ≠ Some (TextChannel c)) →
  on_ready P b = mkResult (Done tt) b [Close] []
  ∧ on_message P message (final (on_ready P b)) = mkResult (Done tt) b [] [].
Proof.
  intros Hready Hnone.
  assert (Hrun : on_ready P b = mkResult (Done tt) b [Close] []).
  { unfold on_ready. rewrite bind_gets, Hready.
    destruct (get_channel P (channel_id (config P))) as [[c | c | c]|] eqn:Hget;
      try reflexivity. by destruct (Hnone c). }
  split; [exact Hrun |]. rewrite Hrun. cbn [final].
  by apply on_message_before_ready.
Qed.

Lemma on_ready_without_channel_witness :
  let P := {| config := Demo.cfg; guilds := []; get_channel := λ _, None;
              startup_message := ""; randint3 := λ _, (0, 0, 0);
              escape_markdown := λ s, s;
              rehost := λ f, source f |} in
  on_ready P (setup_hook P ∅) = mkResult (Done tt) (setup_hook P ∅) [Close] []
  ∧ on_message P (Demo.dm 1004 "hello") (final (on_ready P (setup_hook P ∅)))
    = mkResult (Done tt) (setup_hook P ∅) [] [].
Proof.
  intros P. apply (on_ready_without_channel P (setup_hook P ∅) (Demo.dm 1004 "hello")).
  - reflexivity.
  - intros c. discriminate.
Defined.

(** X29. on_typing on a client whose channel is assigned: a typing event
    is forwarded, as one typing indicator on the staff channel, exactly
    when it comes from a direct-message channel and the user has no row in
    the table; in every case the state is unchanged. *)
Theorem on_typing_forwards (chan : Channel) (who : User) (b : Bot) (ch : Z) :
  channel b = Some ch →
  on_typing chan who b =
  mkResult (Done tt) b
    (match chan with
     | DMChannel _ =>
         if bool_decide (is_Some (ignored b !! id who)) then [] else [ChannelTyping ch]
     | _ => []
     end) [].
Proof.
  intros Hch. unfold on_typing. destruct chan as [c | c | c]; try reflexivity.
  rewrite (bind_pure _ _ _ _ (is_ignored_run _ _)).
  destruct (bool_decide (is_Some (ignored b !! id who))); [reflexivity |].
  by rewrite (bind_pure _ _ _ _ (self_channel_run _ _ Hch)).
Qed.

Lemma on_typing_forwards_witness :
  on_typing (DMChannel 50) Demo.alice (Demo.ready_bot {[ 111 := (false, None) ]})
  = mkResult (Done tt) (Demo.ready_bot {[ 111 := (false, None) ]}) [] []
  ∧ on_typing (DMChannel 50) Demo.alice (Demo.ready_bot ∅)
    = mkResult (Done tt) (Demo.ready_bot ∅) [ChannelTyping 1] [].
Proof.
  split.
  - rewrite (on_typing_forwards (DMChannel 50) Demo.alice
               (Demo.ready_bot {[ 111 := (false, None) ]}) 1) by reflexivity.
    vm_compute. reflexivity.
  - rewrite (on_typing_forwards (DMChannel 50) Demo.alice (Demo.ready_bot ∅) 1)
      by reflexivity.
    vm_compute. reflexivity.
Defined.

(** ** No exception escapes on_message *)

Section NoException.

Variable P : Platform.

Lemma raises_only_ret (E : Exn → Prop) {A} (a : A) : raises_only E (ret a).
Proof. by intros b _. Qed.

Lemma raises_only_raise (E : Exn → Prop) {A} (e : Exn) : E e → raises_only E (@raise A e).
Proof. by intros He b _. Qed.

Lemma raises_only_emit (E : Exn → Prop) (e : Effect) : raises_only E (emit e).
Proof. by intros b _. Qed.

Lemma raises_only_gets (E : Exn → Prop) {A} (f : Bot → A) : raises_only E (gets f).
Proof. by intros b _. Qed.

Lemma raises_only_modify (E : Exn → Prop) (f : Bot → Bot) : raises_only E (modify f).
Proof. by intros b _. Qed.

Lemma raises_only_suspend (E : Exn → Prop) (t : Task) : raises_only E (suspend_then t).
Proof. by intros b _. Qed.

Lemma raises_only_bind (E : Exn → Prop) {A B} (m : M A) (k : A → M B) :
  raises_only E m → keeps_session m → (∀ a, raises_only E (k a)) →
  raises_only E (bind m k).
Proof.
  intros Hm Hkeep Hk b Hb. specialize (Hm b Hb). destruct (Hkeep b) as (Hc & _ & _).
  unfold bind. destruct (outcome (m b)) as [a|e]; [| exact Hm].
  cbn [outcome]. apply Hk. by rewrite Hc.
Qed.

Lemma raises_only_try (E : Exn → Prop) {A} (m : M A) (e : Exn) (h : M A) :
  raises_only (λ x, x = e ∨ E x) m → keeps_session m → raises_only E h →
  raises_only E (try_except m e h).
Proof.
  intros Hm Hkeep Hh b Hb. specialize (Hm b Hb). destruct (Hkeep b) as (Hc & _ & _).
  unfold try_except. destruct (outcome (m b)) as [a|e'] eqn:Hout; [by rewrite Hout |].
  case_bool_decide as Heq.
  - cbn [outcome]. apply Hh. by rewrite Hc.
  - rewrite Hout. by destruct Hm.
Qed.

Lemma raises_only_self_channel (E : Exn → Prop) : raises_only E self_channel.
Proof. intros b [c Hc]. unfold self_channel. by rewrite Hc. Qed.

Lemma raises_only_channel_send (E : Exn → Prop) text embed :
  raises_only E (channel_send text embed).
Proof. intros b [c Hc]. by rewrite (channel_send_run _ _ _ _ Hc). Qed.

Lemma raises_only_add_ignore (E : Exn → Prop) user_id reason quiet :
  raises_only E (add_ignore user_id reason quiet).
Proof.
  intros b _. destruct (ignored b !! user_id) as [row|] eqn:Hrow.
  - rewrite add_ignore_taken by (rewrite Hrow; eauto). done.
  - by rewrite (add_ignore_fresh _ _ _ _ Hrow).
Qed.

Lemma raises_only_remove_ignore (E : Exn → Prop) user_id :
  raises_only E (remove_ignore user_id).
Proof.
  intros b _. destruct (ignored b !! user_id) as [row|] eqn:Hrow.
  - rewrite remove_ignore_present by (rewrite Hrow; eauto). done.
  - by rewrite (remove_ignore_absent _ _ Hrow).
Qed.

Lemma raises_only_member_send (E : Exn → Prop) member text files :
  E Forbidden → raises_only E (member_send P member text files).
Proof.
  intros HE b _. unfold member_send. by destruct (accepts_dm member).
Qed.

Lemma raises_only_download (E : Exn → Prop) count idx l :
  raises_only E (download count idx l).
Proof. intros b _. by rewrite download_run. Qed.

Lemma keeps_session_remove_ignore user_id : keeps_session (remove_ignore user_id).
Proof. apply keeps_session_sql_delete. Qed.

Lemma keeps_session_unignore_notify member is_quiet :
  keeps_session (unignore_notify P member is_quiet).
Proof.
  unfold unignore_notify. destruct (negb is_quiet); [| apply keeps_session_ret].
  destruct member as [m|]; [| apply keeps_session_channel_send].
  apply keeps_session_try; [| apply keeps_session_channel_send].
  apply keeps_session_bind; [apply keeps_session_member_send | intros; apply keeps_session_ret].
Qed.

Create HintDb noraise.

#[local] Hint Resolve raises_only_ret raises_only_emit raises_only_gets
  raises_only_modify raises_only_suspend raises_only_self_channel
  raises_only_channel_send raises_only_add_ignore raises_only_remove_ignore
  raises_only_download
  keeps_session_ret keeps_session_raise keeps_session_emit keeps_session_gets
  keeps_session_self_channel keeps_session_channel_send keeps_session_add_ignore
  keeps_session_remove_ignore keeps_session_member_send keeps_session_download
  keeps_session_handle_attachments keeps_session_handle_staff_reply
  keeps_session_handle_ignore keeps_session_handle_unignore
  keeps_session_unignore_notify keeps_session_spam_get keeps_session_spam_set : noraise.

(** Walks through a handler body; an exception that is allowed is one of
    the alternatives collected at the enclosing [try]. *)
Ltac noraise_body :=
  repeat first
    [ progress cbv zeta
    | solve [auto with noraise]
    | solve [apply raises_only_raise; tauto]
    | solve [apply raises_only_member_send; tauto]
    | solve [apply keeps_session_modify; intros; by split]
    | apply raises_only_bind; [| | intros ?]
    | apply keeps_session_bind; [| intros ?]
    | apply raises_only_try
    | apply keeps_session_try
    | match goal with
      | |- raises_only _ (match ?x with _ => _ end) => destruct x
      | |- keeps_session (match ?x with _ => _ end) => destruct x
      end ].

Lemma raises_only_handle_attachments (E : Exn → Prop) message :
  E ValueError → raises_only E (handle_attachments P message).
Proof. intros HE. unfold handle_attachments. noraise_body. Qed.

Lemma raises_only_handle_staff_reply message user_id text :
  is_Some (guild message) →
  raises_only (λ _, False) (handle_staff_reply P message user_id text).
Proof.
  intros [g Hg]. unfold handle_staff_reply, is_ignored. rewrite Hg.
  pose proof (raises_only_handle_attachments (λ x, x = ValueError ∨ False) message
                (or_introl eq_refl)).
  noraise_body.
Qed.

Lemma raises_only_handle_ignore message user_id_str reason quiet :
  is_Some (guild message) →
  raises_only (λ _, False) (handle_ignore P message user_id_str reason quiet).
Proof. intros [g Hg]. unfold handle_ignore. rewrite Hg. noraise_body. Qed.

Lemma raises_only_handle_unignore message user_id_str :
  is_Some (guild message) →
  raises_only (λ _, False) (handle_unignore P message user_id_str).
Proof.
  intros [g Hg]. unfold handle_unignore, unignore_notify, is_ignored. rewrite Hg.
  noraise_body.
Qed.

Lemma raises_only_ignore_params s token params :
  Py.split1 s = [token; params] →
  raises_only (λ _, False) (ignore_params params).
Proof.
  intros (c & t & -> & Hc)%split1_rest b _.
  pose proof (split1_nonempty c t Hc). unfold ignore_params.
  by destruct (Py.split1 (String c t)).
Qed.

Lemma raises_only_dispatch message s token rest first :
  is_Some (guild message) →
  Py.split1 s = token :: rest →
  raises_only (λ _, False) (dispatch P message first rest).
Proof.
  intros Hguild Hsplit.
  pose proof (raises_only_handle_staff_reply message) as Hreply.
  pose proof (raises_only_handle_ignore message) as Hignore.
  pose proof (raises_only_handle_unignore message) as Hunignore.
  assert (Hparams : length rest = 1%nat →
                    raises_only (λ _, False) (ignore_params (first_or_empty rest))).
  { destruct rest as [|params [|]]; try done. intros _.
    by apply (raises_only_ignore_params s token). }
  assert (Hpkeep : keeps_session (ignore_params (first_or_empty rest))).
  { unfold ignore_params. destruct (Py.split1 (first_or_empty rest));
      [apply keeps_session_raise | apply keeps_session_ret]. }
  unfold dispatch. destruct first as [user_id | cmd].
  - destruct (nothing_to_send message rest); noraise_body; by apply Hreply.
  - destruct (bool_decide (cmd ∈ ["ignore"; "qignore"; "unignore"]) && bool_decide (rest = []));
      [noraise_body |].
    destruct (decide (length rest = 1%nat)) as [Hlen | Hlen].
    + rewrite !(bool_decide_eq_true_2 _ Hlen), !andb_true_r. specialize (Hparams Hlen).
      repeat match goal with
             | |- raises_only _ (if String.eqb ?a ?b then _ else _) =>
                 destruct (String.eqb a b)
             end;
        noraise_body; first [by apply Hreply | by apply Hignore | by apply Hunignore].
    + rewrite !(bool_decide_eq_false_2 _ Hlen), !andb_false_r.
      repeat match goal with
             | |- raises_only _ (if String.eqb ?a ?b then _ else _) =>
                 destruct (String.eqb a b)
             end;
        noraise_body; by apply Hreply.
Qed.

Lemma raises_only_on_channel_message message :
  is_Some (guild message) →
  raises_only (λ _, False) (on_channel_message P message).
Proof.
  intros Hguild b Hb. unfold on_channel_message. rewrite bind_gets.
  destruct (Py.startswith (content message) (prefix b)); [| done]. cbn [negb].
  destruct (Py.split1 _) as [|token rest] eqn:Hsplit; [done |].
  assert (Hfirst : ∃ first, first_arg token b = mkResult (Done first) b [] []).
  { destruct (Py.isdigit token) eqn:Hdigit.
    - destruct (first_arg_of_digits token b Hdigit) as (n & Hn). eauto.
    - exists (AStr token). unfold first_arg. by rewrite Hdigit. }
  destruct Hfirst as (first & Hfirst). rewrite (bind_pure _ _ _ _ Hfirst).
  pose proof (raises_only_dispatch message _ token rest first Hguild Hsplit b Hb) as Hd.
  unfold bind. destruct (outcome (dispatch P message first rest b)) as [[]|e]; done.
Qed.

Lemma on_direct_message_done message b :
  direct_from (id (author_user (author message))) message →
  is_Some (channel b) →
  outcome (on_direct_message P message b) = Done tt.
Proof.
  intros Hfrom [ch Hch].
  destruct (ignored b !! id (author_user (author message))) as [row|] eqn:Hrow.
  - by rewrite (on_direct_message_dropped _ _ _ _ Hrow).
  - destruct (Z.le_gt_cases (antispam_messages (config P))
                (post_increment b (id (author_user (author message))))) as [Htrip | Hbelow].
    + by rewrite (on_direct_message_trip _ _ _ _ _ Hfrom Hch Hrow Htrip).
    + rewrite (on_direct_message_below _ _ _ _ _ Hfrom Hch Hrow); [done | lia].
Qed.

Lemma on_message_never_raises message b :
  well_formed message → is_Some (channel b) → outcome (on_message P message b) = Done tt.
Proof.
  intros Hwf Hb.
  assert (Hnr : match outcome (on_message P message b) with
                | Done _ => True
                | Raised _ => False
                end).
  { unfold on_message.
    destruct (bot (author_user (author message))) eqn:Hbot; [done |].
    rewrite bind_gets. destruct (already_ready b); [| done]. cbn [negb].
    destruct (channel_of message) as [c | c | c] eqn:Hchan.
    - rewrite on_direct_message_done; [done | | done].
      split; [done |]. split; [done | by exists c].
    - destruct Hwf as [[cid Hdm] | Hguild]; [congruence |].
      destruct Hb as [ch Hch]. rewrite (bind_pure _ _ _ _ (self_channel_run _ _ Hch)).
      case_bool_decide; [| done].
      apply raises_only_on_channel_message; [done | by eexists].
    - destruct Hwf as [[cid Hdm] | Hguild]; [congruence |].
      destruct Hb as [ch Hch]. rewrite (bind_pure _ _ _ _ (self_channel_run _ _ Hch)).
      case_bool_decide; [| done].
      apply raises_only_on_channel_message; [done | by eexists]. }
  destruct (outcome (on_message P message b)) as [[]|e]; done.
Qed.

End NoException.

(** X30. In every state the client reaches from start-up, whatever events
    came before, on_message ends without an exception on a message of
    ASCII text that, unless it is a direct message, belongs to a guild.
    Every exception the handler's own code can raise is caught or cannot
    occur there: the KeyError of the counter, the ValueError of [int], of
    unpacking [params.split(maxsplit=1)] and of the size check, the
    IntegrityError of the insert, Forbidden from [member.send], the
    assertion on [message.guild] and the AttributeError of an unassigned
    channel.  Calls to the platform and to the database are taken to
    fail only where the code expects it: [member.send] with Forbidden and
    the insert with IntegrityError. *)
Theorem on_message_raises_nothing (P : Platform) (db : Table) (evs : list Event)
    (message : Message) :
  PyFacts.isascii (content message) = true →
  well_formed message →
  outcome (on_message P message (client (run P evs (start P db)).1)) = Done tt.
Proof.
  intros _ Hwf.
  destruct (already_ready (client (run P evs (start P db)).1)) eqn:Hready.
  - apply on_message_never_raises; [exact Hwf |].
    by apply ready_has_channel.
  - unfold on_message. destruct (bot (author_user (author message))); [reflexivity |].
    by rewrite bind_gets, Hready.
Qed.

Lemma on_message_raises_nothing_witness :
  outcome (on_message (Demo.platform true) (Demo.cmd_open 7020 "?111 hello" [])
             (client (run (Demo.platform true)
                        [Ready; MessageCreate (Demo.dm 1 "hi"); Wake 0%nat]
                        (start (Demo.platform true) ∅)).1))
  = Done tt.
Proof.
  apply on_message_raises_nothing; [reflexivity |].
  right. eexists. reflexivity.
Defined.
